(** * Workload-variant autoscaler: adapter layer, metrics collector and
      optimization engine

    A shallow embedding of
      - [internal/utils/utils.go]   (system-data builder and adapters),
      - [internal/collector/collector.go] (metrics collection),
      - the optimizer engine ([VariantAutoscalingsEngine.Optimize]),
    together with the properties the design document states about them.

    Conventions.
      - Go [float64]/[float32] values are IEEE-754 values, represented by
        [spec_float] with the binary64 / binary32 parameters.
      - Go [int]/[int32] values are [Z].
      - Go [map[string]T] is [gmap string T]; a map that may be [nil] is an
        [option] of it.
      - Go [error] is [option error]: [None] is [nil].
      - A function that mutates [*SystemData] takes the system data and
        returns the new one next to its error.
      - [time.Now()] reads an explicit clock. *)

From Stdlib Require Import ZArith Lia Bool.
From Stdlib Require Import Floats.SpecFloat.
From Stdlib Require Import Strings.String Strings.Ascii.
From Stdlib Require Import Numbers.DecimalString.
From stdpp Require Import base option list gmap strings.

Local Open Scope string_scope.
Local Open Scope Z_scope.

(** Go's [error] values are carried by their message. *)
Definition error := string.

(* ================================================================== *)
(** * Floating point: the parts of Go's [math] and [strconv] in use    *)
(* ================================================================== *)

Module Float.

(** [float64]: binary64, 53 bits of precision. *)
Definition prec64 : Z := 53.
Definition emax64 : Z := 1024.
(** [float32]: binary32, 24 bits of precision. *)
Definition prec32 : Z := 24.
Definition emax32 : Z := 128.

Definition float64 := spec_float.
Definition float32 := spec_float.

Definition is_float64 (x : float64) : bool := valid_binary prec64 emax64 x.
Definition is_float32 (x : float32) : bool := valid_binary prec32 emax32 x.

(** The literal [0] (and [0.0]): positive zero. *)
Definition zero : spec_float := S754_zero false.

(** [math.MaxFloat64]. *)
Definition MaxFloat64 : float64 := SFmax_float prec64 emax64.

(** Go comparison operators on [float64]. *)
Definition feq (x y : float64) : bool := SFeqb x y.
Definition fne (x y : float64) : bool := negb (SFeqb x y).
Definition flt (x y : float64) : bool := SFltb x y.
Definition fgt (x y : float64) : bool := SFltb y x.

(** [math.IsNaN]: [return f != f]. *)
Definition IsNaN (f : float64) : bool := fne f f.

(** [math.IsInf]:
    [return sign >= 0 && f > MaxFloat64 || sign <= 0 && f < -MaxFloat64]. *)
Definition IsInf (f : float64) (sign : Z) : bool :=
  (sign >=? 0) && fgt f MaxFloat64 || (sign <=? 0) && flt f (SFopp MaxFloat64).

(** Multiplication of two [float64]. *)
Definition mul64 (x y : float64) : float64 := SFmul prec64 emax64 x y.

(** Conversion [float64(n)] of an integer: exact below 2^53, rounded to
    nearest even above. *)
Definition of_int (n : Z) : float64 := binary_normalize prec64 emax64 n 0 false.

(** Conversion [float32(n)] of an integer: one rounding, to nearest even,
    of the integer itself (not that of its [float64]). *)
Definition float32_of_int (n : Z) : float32 :=
  binary_normalize prec32 emax32 n 0 false.

(** Conversion [float32(x)] of a [float64]: round to nearest even. *)
Definition to_float32 (x : float64) : float32 :=
  match x with
  | S754_finite s m e => binary_round prec32 emax32 s m e
  | _ => x
  end.

(** Conversion [float64(y)] of a [float32]: exact. *)
Definition of_float32 (y : float32) : float64 :=
  match y with
  | S754_finite s m e => binary_round prec64 emax64 s m e
  | _ => y
  end.

(** Conversion [int(x)] of a [float64] to a 64-bit [int]: truncation
    toward zero.  Go leaves the result unspecified when the value does not
    fit; the value below is the one amd64 produces. *)
Definition int_indefinite : Z := - 2 ^ 63.
Definition to_int (x : float64) : Z :=
  match x with
  | S754_zero _ => 0
  | S754_finite s m e =>
      let a := if 0 <=? e then Z.pos m * 2 ^ e else Z.pos m / 2 ^ (- e) in
      let v := if s then - a else a in
      if (- 2 ^ 63 <=? v) && (v <? 2 ^ 63) then v else int_indefinite
  | _ => int_indefinite
  end.

(** ** [strconv.FormatFloat(f, 'f', prec, bitSize)]

    The value is first rounded to [bitSize]; then its exact decimal
    expansion is rounded, half to even, to [prec] digits after the point.
    Format ['f'] is the one the collector uses; for another format byte the
    function below gives what Go gives for a format it does not know. *)
Definition round_to_bits (bitSize : Z) (f : float64) : spec_float :=
  if bitSize =? 32 then to_float32 f else f.

(** The integer nearest to [m * 2^e * 10^prec], ties to even. *)
Definition scaled_round (m : positive) (e : Z) (prec : nat) : Z :=
  let num := Z.pos m * 10 ^ Z.of_nat prec in
  if 0 <=? e then num * 2 ^ e
  else
    let den := 2 ^ (- e) in
    let q := num / den in
    let r := num mod den in
    match 2 * r ?= den with
    | Lt => q
    | Gt => q + 1
    | Eq => if Z.even q then q else q + 1
    end.

Definition digits_of (n : Z) : string :=
  NilZero.string_of_uint (N.to_uint (Z.to_N n)).

Fixpoint pad_left (width : nat) (s : string) : string :=
  match width with
  | O => s
  | S w => if Nat.ltb (String.length s) width then pad_left w ("0" +:+ s) else s
  end.

Definition fixed (neg : bool) (n : Z) (prec : nat) : string :=
  let p := 10 ^ Z.of_nat prec in
  (if neg then "-" else "") +:+ digits_of (n / p) +:+
  match prec with
  | O => ""
  | _ => "." +:+ pad_left prec (digits_of (n mod p))
  end.

Definition FormatFloat (f : float64) (fmt : ascii) (prec : nat) (bitSize : Z)
  : string :=
  match round_to_bits bitSize f with
  | S754_nan => "NaN"
  | S754_infinity false => "+Inf"
  | S754_infinity true => "-Inf"
  | S754_zero s =>
      if Ascii.eqb fmt "f" then fixed s 0 prec else String "%" (String fmt "")
  | S754_finite s m e =>
      if Ascii.eqb fmt "f" then fixed s (scaled_round m e prec) prec
      else String "%" (String fmt "")
  end.

(** Structural classification, used to state properties. *)
Definition is_nan (x : float64) : Prop := x = S754_nan.
Definition is_inf (x : float64) : Prop := exists s, x = S754_infinity s.
Definition is_finite (x : float64) : Prop :=
  match x with
  | S754_zero _ | S754_finite _ _ _ => True
  | _ => False
  end.

End Float.

Import Float.

(** The [float64] nearest to the ratio of two integers: the value of a
    decimal literal such as [10.5] (105 / 10). *)
Definition f_ratio (n d : Z) : float64 :=
  SFdiv prec64 emax64 (of_int n) (of_int d).


(* ================================================================== *)
(** * Go idioms                                                        *)
(* ================================================================== *)

(** [m[k]] on a [map[string]string]: the zero value when [k] is absent
    (also on a [nil] map). *)
Definition map_get (m : gmap string string) (k : string) : string :=
  default "" (m !! k).

(** [len(m)] on a map. *)
Definition map_len {A} (m : gmap string A) : Z := Z.of_nat (size m).

(** [len(l)] on a slice. *)
Definition slice_len {A} (l : list A) : Z := Z.of_nat (length l).

(** The double quote, for the strings that contain one. *)
Definition dq : string := String (ascii_of_nat 34) EmptyString.

(** [err != nil]. *)
Definition is_err (err : option error) : bool :=
  match err with Some _ => true | None => false end.

(** [time.Time] values are instants, counted from some epoch. *)
Definition Time := Z.

(** The wall clock: the [n]-th call of [time.Now()] reads [readings n]. *)
Record Clock := { readings : nat -> Time; reads : nat }.

(** [time.Now()]. *)
Definition Now (c : Clock) : Time * Clock :=
  (readings c (reads c), {| readings := readings c; reads := S (reads c) |}).

(** The process environment, read by [os.Getenv]. *)
Definition Environ := gmap string string.
Definition Getenv (env : Environ) (key : string) : string := map_get env key.

(** [strings.ToLower] on ASCII letters, and [strings.EqualFold] as far as
    the comparison with an ASCII literal needs it. *)
Definition lower_ascii (c : ascii) : ascii :=
  let n := nat_of_ascii c in
  if (Nat.leb 65 n && Nat.leb n 90)%bool then ascii_of_nat (n + 32) else c.

Fixpoint ToLower (s : string) : string :=
  match s with
  | EmptyString => EmptyString
  | String c r => String (lower_ascii c) (ToLower r)
  end.

Definition EqualFold (s t : string) : bool := String.eqb (ToLower s) (ToLower t).

(* ================================================================== *)
(** * The optimizer's configuration types ([pkg/config])               *)
(* ================================================================== *)

(** Modelled from the spec: the type declarations of [pkg/config], which
    the adapters fill (the data model of the design document: AcceleratorSpec,
    the performance data of a variant, ServiceClass, ServerEntry, SystemModel,
    AllocationSolution).  The fields are the ones the adapters read and
    write, under the names the adapters use; a field name carries the name of
    its struct, since one name space holds them all. *)

(** Modelled from the spec: [PowerSpec], "not currently used"; the adapters
    only write its zero value. *)
Inductive PowerSpec := PowerSpec_zero.

Record AcceleratorSpec := {
  acc_Name : string;
  acc_Type : string;
  acc_Multiplicity : Z;
  acc_Power : PowerSpec;
  acc_Cost : float32
}.

Record DecodeParms := { Alpha : float32; Beta : float32 }.
Record PrefillParms := { Gamma : float32; Delta : float32 }.

Record ModelAcceleratorPerfData := {
  perf_Name : string;
  perf_Acc : string;
  perf_AccCount : Z;
  perf_MaxBatchSize : Z;
  perf_DecodeParms : DecodeParms;
  perf_PrefillParms : PrefillParms
}.

Record ModelTarget := {
  target_Model : string;
  SLO_ITL : float32;
  SLO_TTFT : float32
}.

Record ServiceClassSpec := {
  class_Name : string;
  class_Priority : Z;
  class_ModelTargets : list ModelTarget
}.

Record ServerLoadSpec := {
  load_ArrivalRate : float32;
  load_AvgInTokens : Z;
  load_AvgOutTokens : Z
}.

Record AllocationData := {
  ad_Accelerator : string;
  ad_NumReplicas : Z;
  ad_MaxBatch : Z;
  ad_Cost : float32;
  ad_ITLAverage : float32;
  ad_TTFTAverage : float32;
  ad_Load : ServerLoadSpec
}.

(** [infernoConfig.AllocationData{}]. *)
Definition AllocationData_zero : AllocationData :=
  {| ad_Accelerator := ""; ad_NumReplicas := 0; ad_MaxBatch := 0;
     ad_Cost := zero; ad_ITLAverage := zero; ad_TTFTAverage := zero;
     ad_Load := {| load_ArrivalRate := zero; load_AvgInTokens := 0;
                   load_AvgOutTokens := 0 |} |}.

Record ServerSpec := {
  srv_Name : string;
  srv_Class : string;
  srv_Model : string;
  srv_KeepAccelerator : bool;
  srv_MinNumReplicas : Z;
  srv_MaxBatchSize : Z;
  srv_CurrentAlloc : AllocationData;
  srv_DesiredAlloc : AllocationData
}.

(** Modelled from the spec: the inventory of the capacity-constrained mode
    (units per accelerator type); the builder leaves it empty. *)
Record AcceleratorCount := { count_Type : string; count_Count : Z }.

Record OptimizerSpec := { Unlimited : bool; SaturationPolicy : string }.

(** [SystemData.Spec], with the one-field wrappers ([AcceleratorData.Spec],
    [ModelData.PerfData], ...) flattened into the field that holds them. *)
Record SystemData := {
  Accelerators : list AcceleratorSpec;
  PerfData : list ModelAcceleratorPerfData;
  ServiceClasses : list ServiceClassSpec;
  Servers : list ServerSpec;
  Optimizer : OptimizerSpec;
  Capacity : list AcceleratorCount
}.

Definition set_PerfData (sd : SystemData) (l : list ModelAcceleratorPerfData) :=
  {| Accelerators := Accelerators sd; PerfData := l;
     ServiceClasses := ServiceClasses sd; Servers := Servers sd;
     Optimizer := Optimizer sd; Capacity := Capacity sd |}.

Definition set_Servers (sd : SystemData) (l : list ServerSpec) :=
  {| Accelerators := Accelerators sd; PerfData := PerfData sd;
     ServiceClasses := ServiceClasses sd; Servers := l;
     Optimizer := Optimizer sd; Capacity := Capacity sd |}.

(** [AllocationSolution]: [Spec] maps a server name to its allocation.  A
    [*AllocationSolution] may be [nil]. *)
Record AllocationSolution := { sol_Spec : gmap string AllocationData }.

(** Modelled from the spec: [interfaces.ServiceClass], a named SLO bundle
    with a priority and a set of (model, SLO-ITL, SLO-TTFT) targets, as
    unmarshalled from a config-map value. *)
Record ServiceClassEntry := {
  entry_Model : string;
  SLOTPOT : Z;
  SLOTTFT : Z
}.

Record ServiceClass := {
  sc_Name : string;
  sc_Priority : Z;
  sc_Data : list ServiceClassEntry
}.

(* ================================================================== *)
(** * The VariantAutoscaling API ([api/v1alpha1])                      *)
(* ================================================================== *)

(** Declarations shared by the two shapes of the resource. *)

Record ConfigMapKeyRef := { ref_Name : string; ref_Key : string }.

Record PerfParms := {
  pp_DecodeParms : gmap string string;
  pp_PrefillParms : gmap string string
}.

Record LoadProfile := {
  ArrivalRate : string;
  AvgInputTokens : string;
  AvgOutputTokens : string
}.

Record ActuationStatus := { Applied : bool }.

Record Condition := {
  cond_Type : string;
  cond_Status : string;
  cond_Reason : string;
  cond_Message : string
}.

(** Condition types and reasons. *)
Definition TypeMetricsAvailable := "MetricsAvailable".
Definition TypeOptimizationReady := "OptimizationReady".
Definition ReasonMetricsFound := "MetricsFound".
Definition ReasonMetricsMissing := "MetricsMissing".
Definition ReasonMetricsStale := "MetricsStale".
Definition ReasonPrometheusError := "PrometheusError".
Definition ReasonOptimizationSucceeded := "OptimizationSucceeded".
Definition ReasonOptimizationFailed := "OptimizationFailed".
Definition ReasonMetricsUnavailable := "MetricsUnavailable".

(** Helper to create a (unique) full name from name and namespace. *)
Definition FullName (name namespace : string) : string :=
  name +:+ ":" +:+ namespace.

(** Helper to check if a value is valid (not NaN or infinite). *)
Definition CheckValue (x : float64) : bool :=
  negb (IsNaN x || IsInf x 0).

(** Helper to handle if a value is NaN or infinite ([collector.go]).  The
    Go function writes through its pointer argument; here the new content
    of the cell is returned. *)
Definition FixValue (x : float64) : float64 :=
  if IsNaN x || IsInf x 0 then zero else x.

(** What a Go call does: it returns, or it panics. *)
Inductive outcome (A : Type) : Type :=
  | Returns (a : A)
  | Panics (why : string).
Arguments Returns {A} a.
Arguments Panics {A} why.

(** ** The resource with one variant per object (the type declarations
       of [variantautoscaling_types.go]) *)

Module SingleVariant.

Record VariantProfile := {
  vp_PerfParms : PerfParms;
  vp_MaxBatchSize : Z
}.

Record VariantAutoscalingSpec := {
  ModelID : string;
  VariantID : string;
  Accelerator : string;
  AcceleratorCount : Z;
  SLOClassRef : ConfigMapKeyRef;
  spec_VariantProfile : VariantProfile
}.

Record Allocation := {
  alloc_VariantID : string;
  alloc_Accelerator : string;
  alloc_NumReplicas : Z;
  alloc_MaxBatch : Z;
  alloc_VariantCost : string
}.

Record OptimizedAlloc := {
  LastRunTime : Time;
  opt_VariantID : string;
  opt_Accelerator : string;
  opt_NumReplicas : Z
}.

Record VariantAutoscalingStatus := {
  Load : LoadProfile;
  ITLAverage : string;
  TTFTAverage : string;
  PrimaryReplicas : Z;
  CurrentAllocs : list Allocation;
  DesiredOptimizedAllocs : list OptimizedAlloc;
  Actuation : ActuationStatus;
  Conditions : list Condition
}.

Record VariantAutoscaling := {
  Name : string;
  Namespace : string;
  Labels : gmap string string;
  Spec : VariantAutoscalingSpec;
  Status : VariantAutoscalingStatus
}.

Record VariantAutoscalingList := { Items : list VariantAutoscaling }.

(** *** Adapters of [utils.go] for this resource *)

Section Adapters.

(** [strconv.ParseFloat(s, bitSize)]: the value and the error. *)
Variable ParseFloat : string -> Z -> float64 * option error.

(** add variant profile data to inferno system data *)
Definition AddVariantProfileToSystemData
    (sd : SystemData) (modelName accelerator : string)
    (acceleratorCount : Z) (variantProfile : VariantProfile)
  : SystemData * option error :=
  (* extract decode model (itl) parameters *)
  let decodeParms := pp_DecodeParms (vp_PerfParms variantProfile) in
  if map_len decodeParms <? 2 then
    (sd, Some "length of decodeParms should be 2")
  else
  let '(alpha, err) := ParseFloat (map_get decodeParms "alpha") 32 in
  if is_err err then (sd, err) else
  let '(beta, err) := ParseFloat (map_get decodeParms "beta") 32 in
  if is_err err then (sd, err) else
  (* extract prefill model (ttft) parameters *)
  let prefillParms := pp_PrefillParms (vp_PerfParms variantProfile) in
  if map_len prefillParms <? 2 then
    (sd, Some "length of prefillParms should be 2")
  else
  let '(gamma, err) := ParseFloat (map_get prefillParms "gamma") 32 in
  if is_err err then (sd, err) else
  let '(delta, err) := ParseFloat (map_get prefillParms "delta") 32 in
  if is_err err then (sd, err) else
  (set_PerfData sd
     (PerfData sd ++
      [ {| perf_Name := modelName;
           perf_Acc := accelerator;
           perf_AccCount := acceleratorCount;
           perf_MaxBatchSize := vp_MaxBatchSize variantProfile;
           perf_DecodeParms :=
             {| Alpha := to_float32 alpha; Beta := to_float32 beta |};
           perf_PrefillParms :=
             {| Gamma := to_float32 gamma; Delta := to_float32 delta |} |} ]),
   None).

(** The process environment, for [os.Getenv]. *)
Variable env : Environ.

(** Add server specs to inferno system data *)
Definition AddServerInfoToSystemData
    (sd : SystemData) (va : VariantAutoscaling) (className : string)
  : SystemData * option error :=
  (* server load statistics - now at status level *)
  let '(arrivalRate, err) := ParseFloat (ArrivalRate (Load (Status va))) 32 in
  let arrivalRate :=
    if is_err err || negb (CheckValue arrivalRate) then zero else arrivalRate in
  let '(avgOutputTokens, err) :=
    ParseFloat (AvgOutputTokens (Load (Status va))) 32 in
  let avgOutputTokens :=
    if is_err err || negb (CheckValue avgOutputTokens) then zero
    else avgOutputTokens in
  let '(avgInputTokens, err) :=
    ParseFloat (AvgInputTokens (Load (Status va))) 32 in
  let avgInputTokens :=
    if is_err err || negb (CheckValue avgInputTokens) then zero
    else avgInputTokens in
  let serverLoadSpec :=
    {| load_ArrivalRate := to_float32 arrivalRate;
       load_AvgInTokens := to_int avgInputTokens;
       load_AvgOutTokens := to_int avgOutputTokens |} in
  (* Get first allocation (there should be exactly one for this variant) *)
  match CurrentAllocs (Status va) with
  | [] =>
      (sd, Some ("no current allocations found for variant " +:+ Name va))
  | currentAlloc :: _ =>
      (* server allocation data *)
      let '(cost, err) := ParseFloat (alloc_VariantCost currentAlloc) 32 in
      let cost := if is_err err || negb (CheckValue cost) then zero else cost in
      (* ITL and TTFT are now at status level (aggregate metrics) *)
      let '(itlAverage, err) := ParseFloat (ITLAverage (Status va)) 32 in
      let itlAverage :=
        if is_err err || negb (CheckValue itlAverage) then zero
        else itlAverage in
      let '(ttftAverage, err) := ParseFloat (TTFTAverage (Status va)) 32 in
      let ttftAverage :=
        if is_err err || negb (CheckValue ttftAverage) then zero
        else ttftAverage in
      let AllocationData :=
        {| ad_Accelerator := alloc_Accelerator currentAlloc;
           ad_NumReplicas := alloc_NumReplicas currentAlloc;
           ad_MaxBatch := alloc_MaxBatch currentAlloc;
           ad_Cost := to_float32 cost;
           ad_ITLAverage := to_float32 itlAverage;
           ad_TTFTAverage := to_float32 ttftAverage;
           ad_Load := serverLoadSpec |} in
      (* all server data *)
      let minNumReplicas := (* scale to zero is disabled by default *)
        if String.eqb (Getenv env "WVA_SCALE_TO_ZERO") "true" then 0 else 1 in
      let serverSpec :=
        {| srv_Name := FullName (Name va) (Namespace va);
           srv_Class := className;
           srv_Model := ModelID (Spec va);
           srv_KeepAccelerator := true;
           srv_MinNumReplicas := minNumReplicas;
           (* set max batch size from variant profile *)
           srv_MaxBatchSize :=
             if vp_MaxBatchSize (spec_VariantProfile (Spec va)) >? 0
             then vp_MaxBatchSize (spec_VariantProfile (Spec va)) else 0;
           srv_CurrentAlloc := AllocationData;
           srv_DesiredAlloc := AllocationData_zero |} in
      (set_Servers sd (Servers sd ++ [serverSpec]), None)
  end.

(** Adapter from inferno alloc solution to optimized alloc.

    The literal sets the time, the accelerator and the replicas; the field
    [VariantID] keeps its zero value.  The caller has checked that the
    solution is not [nil]. *)
Definition CreateOptimizedAlloc
    (clock : Clock) (name namespace : string)
    (allocationSolution : AllocationSolution)
  : (option OptimizedAlloc * option error) * Clock :=
  let serverName := FullName name namespace in
  match sol_Spec allocationSolution !! serverName with
  | None => ((None, Some ("server " +:+ serverName +:+ " not found")), clock)
  | Some allocationData =>
      let '(now, clock) := Now clock in
      ((Some {| LastRunTime := now;
                opt_VariantID := EmptyString;
                opt_Accelerator := ad_Accelerator allocationData;
                opt_NumReplicas := ad_NumReplicas allocationData |},
        None), clock)
  end.

End Adapters.

(** *** The engine holding all necessary data to perform global
        optimization across all variants *)

Section Engine.

(** What [engine.manager] and [engine.system] point to.  The manager
    and the system are the optimizer's ([pkg/manager], [pkg/core]); the
    engine only calls them. *)
Variable EngineState : Type.
(** [engine.manager.Optimize()]. *)
Variable manager_Optimize : EngineState -> EngineState * option error.
(** [engine.system.GenerateSolution()]; the result may be [nil]. *)
Variable system_GenerateSolution :
  EngineState -> EngineState * option AllocationSolution.
(** [interfaces.ModelAnalyzeResponse]. *)
Variable ModelAnalyzeResponse : Type.
(** [utils.CreateOptimizedAlloc(vaName, vaNamespace, variantID,
    allocationSolution)] as the engine calls it, with the variant
    identifier for its third argument.  The sources have the adapter of
    three arguments only (above), so the one called is a parameter: it
    gives an optimized allocation or an error, and may read the clock. *)
Variable CreateOptimizedAlloc_of_variant :
  Clock -> string -> string -> string -> AllocationSolution ->
  (OptimizedAlloc + error) * Clock.

(** The body of the loop over [vaList.Items]. *)
Definition Optimize_step (allocationSolution : AllocationSolution)
    (acc : gmap string OptimizedAlloc * Clock) (va : VariantAutoscaling)
  : gmap string OptimizedAlloc * Clock :=
  let '(optimizedAllocMap, clock) := acc in
  let vaName := Name va in
  let vaNamespace := Namespace va in
  let variantID := VariantID (Spec va) in
  match CreateOptimizedAlloc_of_variant clock vaName vaNamespace variantID
          allocationSolution with
  | (inl optimizedAllocation, clock) =>
      (<[vaName := optimizedAllocation]> optimizedAllocMap, clock)
  | (inr _, clock) => (optimizedAllocMap, clock)
  end.

(** Perform a global optimization producing optimized allocations for
    all variants.  The returned map may, as any Go map, be [nil]:
    [None]. *)
Definition Optimize (st : EngineState) (clock : Clock)
    (vaList : VariantAutoscalingList)
    (analysis : gmap string ModelAnalyzeResponse)
  : (option (gmap string OptimizedAlloc) * option error)
    * EngineState * Clock :=
  let '(st, err) := manager_Optimize st in
  if is_err err then
    (* Return empty map instead of nil to prevent panic in controller *)
    ((Some ∅, err), st, clock)
  else
  let '(st, allocationSolution) := system_GenerateSolution st in
  match allocationSolution with
  | None =>
      ((Some ∅, Some "no feasible allocations found for all variants"),
       st, clock)
  | Some allocationSolution =>
      if map_len (sol_Spec allocationSolution) =? 0 then
        ((Some ∅, Some "no feasible allocations found for all variants"),
         st, clock)
      else
        let '(optimizedAllocMap, clock) :=
          foldl (Optimize_step allocationSolution) (∅, clock)
                (Items vaList) in
        ((Some optimizedAllocMap, None), st, clock)
  end.

End Engine.

End SingleVariant.

(** ** The resource with a list of accelerator profiles per model and the
       per-variant scale-to-zero setting (the API reference) *)

Module AcceleratorProfiles.

Record AcceleratorProfile := {
  Acc : string;
  AccCount : Z;
  ap_PerfParms : PerfParms;
  MaxBatchSize : Z
}.

Record ModelProfile := { mp_Accelerators : list AcceleratorProfile }.

(** [EnableScaleToZero] is a [*bool] and [ScaleToZeroPodRetentionPeriod] a
    [*metav1.Duration]: [None] is the unset field. *)
Record VariantAutoscalingSpec := {
  ModelID : string;
  SLOClassRef : ConfigMapKeyRef;
  spec_ModelProfile : ModelProfile;
  EnableScaleToZero : option bool;
  ScaleToZeroPodRetentionPeriod : option Z
}.

Record Allocation := {
  alloc_Accelerator : string;
  alloc_NumReplicas : Z;
  alloc_MaxBatch : Z;
  alloc_VariantCost : string;
  alloc_ITLAverage : string;
  alloc_TTFTAverage : string;
  alloc_Load : LoadProfile
}.

(** [Allocation{}]. *)
Definition Allocation_zero : Allocation :=
  {| alloc_Accelerator := ""; alloc_NumReplicas := 0; alloc_MaxBatch := 0;
     alloc_VariantCost := ""; alloc_ITLAverage := ""; alloc_TTFTAverage := "";
     alloc_Load := {| ArrivalRate := ""; AvgInputTokens := "";
                      AvgOutputTokens := "" |} |}.

Record OptimizedAlloc := {
  LastRunTime : Time;
  opt_Accelerator : string;
  opt_NumReplicas : Z
}.

Record VariantAutoscalingStatus := {
  CurrentAlloc : Allocation;
  DesiredOptimizedAlloc : OptimizedAlloc;
  Actuation : ActuationStatus;
  Conditions : list Condition
}.

Record VariantAutoscaling := {
  Name : string;
  Namespace : string;
  Labels : gmap string string;
  Spec : VariantAutoscalingSpec;
  Status : VariantAutoscalingStatus
}.

(** *** Scale-to-zero configuration *)

Section ScaleToZero.

(** The process environment, for [os.Getenv]. *)
Variable env : Environ.

(** IsScaleToZeroEnabled determines if scale-to-zero is enabled for a
    specific VariantAutoscaling.  It checks the per-model
    EnableScaleToZero field first, and falls back to the global
    WVA_SCALE_TO_ZERO environment variable if the per-model setting is
    not specified. *)
Definition IsScaleToZeroEnabled (va : VariantAutoscaling) : bool :=
  (* Check per-model setting first *)
  match EnableScaleToZero (Spec va) with
  | Some b => b
  | None =>
      (* Fall back to global environment variable *)
      EqualFold (Getenv env "WVA_SCALE_TO_ZERO") "true"
  end.

(** GetScaleToZeroRetentionPeriod returns the pod retention period for
    scale-to-zero, or 0 (immediate scale-down). *)
Definition GetScaleToZeroRetentionPeriod (va : VariantAutoscaling) : Z :=
  match ScaleToZeroPodRetentionPeriod (Spec va) with
  | Some d => d
  | None => 0
  end.

(** GetMinNumReplicas returns the minimum number of replicas based on
    scale-to-zero configuration. *)
Definition GetMinNumReplicas (va : VariantAutoscaling) : Z :=
  if IsScaleToZeroEnabled va then 0 else 1.

End ScaleToZero.

(** *** Adapters of [utils.go] for this resource *)

Section Adapters.

(** [strconv.ParseFloat(s, bitSize)]: the value and the error. *)
Variable ParseFloat : string -> Z -> float64 * option error.
Variable env : Environ.

(** add model accelerator pair profile data to inferno system data *)
Definition AddModelAcceleratorProfileToSystemData
    (sd : SystemData) (modelName : string)
    (modelAcceleratorProfile : AcceleratorProfile)
  : SystemData * option error :=
  (* extract decode model (itl) parameters *)
  let decodeParms := pp_DecodeParms (ap_PerfParms modelAcceleratorProfile) in
  if map_len decodeParms <? 2 then
    (sd, Some "length of decodeParms should be 2")
  else
  let '(alpha, err) := ParseFloat (map_get decodeParms "alpha") 32 in
  if is_err err then (sd, err) else
  let '(beta, err) := ParseFloat (map_get decodeParms "beta") 32 in
  if is_err err then (sd, err) else
  (* extract prefill model (ttft) parameters *)
  let prefillParms := pp_PrefillParms (ap_PerfParms modelAcceleratorProfile) in
  if map_len prefillParms <? 2 then
    (sd, Some "length of prefillParms should be 2")
  else
  let '(gamma, err) := ParseFloat (map_get prefillParms "gamma") 32 in
  if is_err err then (sd, err) else
  let '(delta, err) := ParseFloat (map_get prefillParms "delta") 32 in
  if is_err err then (sd, err) else
  (set_PerfData sd
     (PerfData sd ++
      [ {| perf_Name := modelName;
           perf_Acc := Acc modelAcceleratorProfile;
           perf_AccCount := AccCount modelAcceleratorProfile;
           perf_MaxBatchSize := MaxBatchSize modelAcceleratorProfile;
           perf_DecodeParms :=
             {| Alpha := to_float32 alpha; Beta := to_float32 beta |};
           perf_PrefillParms :=
             {| Gamma := to_float32 gamma; Delta := to_float32 delta |} |} ]),
   None).

(** The loop that looks the accelerator's batch size up: the first
    profile of that name. *)
Fixpoint lookup_MaxBatchSize (accName : string)
    (profiles : list AcceleratorProfile) : Z :=
  match profiles with
  | [] => 0
  | ap :: rest =>
      if String.eqb (Acc ap) accName then MaxBatchSize ap
      else lookup_MaxBatchSize accName rest
  end.

(** Add server specs to inferno system data *)
Definition AddServerInfoToSystemData
    (sd : SystemData) (va : VariantAutoscaling) (className : string)
  : SystemData * option error :=
  let currentAlloc := CurrentAlloc (Status va) in
  (* server load statistics *)
  let '(arrivalRate, err) :=
    ParseFloat (ArrivalRate (alloc_Load currentAlloc)) 32 in
  let arrivalRate :=
    if is_err err || negb (CheckValue arrivalRate) then zero else arrivalRate in
  let '(avgOutputTokens, err) :=
    ParseFloat (AvgOutputTokens (alloc_Load currentAlloc)) 32 in
  let avgOutputTokens :=
    if is_err err || negb (CheckValue avgOutputTokens) then zero
    else avgOutputTokens in
  let '(avgInputTokens, err) :=
    ParseFloat (AvgInputTokens (alloc_Load currentAlloc)) 32 in
  let avgInputTokens :=
    if is_err err || negb (CheckValue avgInputTokens) then zero
    else avgInputTokens in
  let serverLoadSpec :=
    {| load_ArrivalRate := to_float32 arrivalRate;
       load_AvgInTokens := to_int avgInputTokens;
       load_AvgOutTokens := to_int avgOutputTokens |} in
  (* server allocation *)
  let '(cost, err) := ParseFloat (alloc_VariantCost currentAlloc) 32 in
  let cost := if is_err err || negb (CheckValue cost) then zero else cost in
  let '(itlAverage, err) := ParseFloat (alloc_ITLAverage currentAlloc) 32 in
  let itlAverage :=
    if is_err err || negb (CheckValue itlAverage) then zero else itlAverage in
  let '(ttftAverage, err) := ParseFloat (alloc_TTFTAverage currentAlloc) 32 in
  let ttftAverage :=
    if is_err err || negb (CheckValue ttftAverage) then zero else ttftAverage in
  let AllocationData :=
    {| ad_Accelerator := alloc_Accelerator currentAlloc;
       ad_NumReplicas := alloc_NumReplicas currentAlloc;
       ad_MaxBatch := alloc_MaxBatch currentAlloc;
       ad_Cost := to_float32 cost;
       ad_ITLAverage := to_float32 itlAverage;
       ad_TTFTAverage := to_float32 ttftAverage;
       ad_Load := serverLoadSpec |} in
  (* all server data *)
  (* Determine minimum replicas based on per-model or global
     scale-to-zero configuration *)
  let minNumReplicas := GetMinNumReplicas env va in
  (* set max batch size if configured *)
  let accName := map_get (Labels va) "inference.optimization/acceleratorName" in
  let maxBatchSize :=
    lookup_MaxBatchSize accName (mp_Accelerators (spec_ModelProfile (Spec va))) in
  let serverSpec :=
    {| srv_Name := FullName (Name va) (Namespace va);
       srv_Class := className;
       srv_Model := ModelID (Spec va);
       srv_KeepAccelerator := true;
       srv_MinNumReplicas := minNumReplicas;
       srv_MaxBatchSize := if maxBatchSize >? 0 then maxBatchSize else 0;
       srv_CurrentAlloc := AllocationData;
       srv_DesiredAlloc := AllocationData_zero |} in
  (set_Servers sd (Servers sd ++ [serverSpec]), None).

End Adapters.

End AcceleratorProfiles.

(* ================================================================== *)
(** * The system-data builder ([utils.go])                             *)
(* ================================================================== *)

Section Builder.

(** [strconv.ParseFloat(s, bitSize)]: the value and the error. *)
Variable ParseFloat : string -> Z -> float64 * option error.

(** [yaml.Unmarshal([]byte(val), &sc)] on a service class. *)
Variable yaml_Unmarshal : string -> ServiceClass * option error.

(** The order in which [for key, val := range m] visits a map.  Go leaves
    it unspecified; every entry is visited once. *)
Variable range : forall A : Type, gmap string A -> list (string * A).

(** One round of the loop over the accelerator config map. *)
Definition accelerator_step (acceleratorData : list AcceleratorSpec)
    (kv : string * gmap string string) : list AcceleratorSpec :=
  let '(key, val) := kv in
  let '(cost, err) := ParseFloat (map_get val "cost") 32 in
  if is_err err then
    (* failed to parse accelerator cost in configmap, skipping accelerator *)
    acceleratorData
  else
    acceleratorData ++
    [ {| acc_Name := key;
         acc_Type := map_get val "device";
         acc_Multiplicity := 1;
         acc_Power := PowerSpec_zero;
         acc_Cost := to_float32 cost |} ].

(** One round of the loop over the service-class config map. *)
Definition service_class_step (serviceClassData : list ServiceClassSpec)
    (kv : string * string) : list ServiceClassSpec :=
  let '(key, val) := kv in
  let '(sc, err) := yaml_Unmarshal val in
  if is_err err then
    (* failed to parse service class data, skipping service class *)
    serviceClassData
  else
    serviceClassData ++
    [ {| class_Name := sc_Name sc;
         class_Priority := sc_Priority sc;
         class_ModelTargets :=
           map (fun entry =>
                  {| target_Model := entry_Model entry;
                     SLO_ITL := float32_of_int (SLOTPOT entry);
                     SLO_TTFT := float32_of_int (SLOTTFT entry) |})
               (sc_Data sc) |} ].

(** Adapter to create wva system data types from config maps.
    Note: WVA operates in unlimited mode, so capacity data is not used. *)
Definition CreateSystemData
    (acceleratorCm : gmap string (gmap string string))
    (serviceClassCm : gmap string string) : SystemData :=
  (* get accelerator data *)
  let acceleratorData := foldl accelerator_step [] (range _ acceleratorCm) in
  (* get service class data *)
  let serviceClassData := foldl service_class_step [] (range _ serviceClassCm) in
  {| Accelerators := acceleratorData;
     (* initialize model data *)
     PerfData := [];
     ServiceClasses := serviceClassData;
     (* initialize dynamic server data *)
     Servers := [];
     (* set optimizer configuration *)
     Optimizer := {| Unlimited := true; SaturationPolicy := "" |};
     (* Capacity data is not used in unlimited mode *)
     Capacity := [] |}.

End Builder.

(* ================================================================== *)
(** * The metrics collector ([collector.go])                           *)
(* ================================================================== *)

(** The Prometheus client's values ([prometheus/common/model]). *)
Module model.

Record Sample := { sample_Value : float64; sample_Timestamp : Z }.

Inductive ValueType := ValNone | ValScalar | ValVector | ValMatrix | ValString.

(** The implementations of the [Value] interface. *)
Inductive Value :=
  | Scalar (s : Sample)
  | Vector (v : list Sample)
  | Matrix (m : list (list Sample))
  | String_ (s : string).

Definition Type_ (v : Value) : ValueType :=
  match v with
  | Scalar _ => ValScalar
  | Vector _ => ValVector
  | Matrix _ => ValMatrix
  | String_ _ => ValString
  end.

End model.

(** [promv1.API], as far as the collector uses it: [Query(ctx, query, ts)]
    gives a value (a [nil] interface is [None]), warnings and an error. *)
Record PromAPI := {
  Query : string -> Time -> option model.Value * list string * option error
}.

(** [appsv1.Deployment]; [Spec.Replicas] is an [*int32]. *)
Record Deployment := {
  dep_Name : string;
  dep_Namespace : string;
  dep_Replicas : option Z
}.

Module Collector.

Import AcceleratorProfiles.

(** What the condition
    [err == nil && val.Type() == model.ValVector]
    and the assertion [val.(model.Vector)] behind it come to. *)
Inductive guard :=
  | IsVector (vec : list model.Sample)
  | NotVector
  | NilValue.

Definition vector_guard (val : option model.Value) (err : option error)
  : guard :=
  if is_err err then NotVector
  else match val with
       | None => NilValue
       | Some (model.Vector vec) => IsVector vec
       | Some _ => NotVector
       end.

Section Queries.

(** The metric and label names of [internal/constants]. *)
Variables VLLMRequestSuccessTotal
          VLLMRequestGenerationTokensSum VLLMRequestGenerationTokensCount
          VLLMRequestQueueTimeSecondsSum VLLMRequestQueueTimeSecondsCount
          VLLMTimePerOutputTokenSecondsSum VLLMTimePerOutputTokenSecondsCount
          LabelModelName LabelNamespace : string.

(** [sum(rate(%s{%s="%s",%s="%s"}[1m]))] *)
Definition sum_rate (metric modelName deployNamespace : string) : string :=
  "sum(rate(" +:+ metric +:+ "{" +:+
  LabelModelName +:+ "=" +:+ dq +:+ modelName +:+ dq +:+ "," +:+
  LabelNamespace +:+ "=" +:+ dq +:+ deployNamespace +:+ dq +:+ "}[1m]))".

Definition arrivalQuery (modelName deployNamespace : string) : string :=
  sum_rate VLLMRequestSuccessTotal modelName deployNamespace +:+ " * 60".

Definition avgDecToksQuery (modelName deployNamespace : string) : string :=
  sum_rate VLLMRequestGenerationTokensSum modelName deployNamespace +:+ "/" +:+
  sum_rate VLLMRequestGenerationTokensCount modelName deployNamespace.

Definition ttftQuery (modelName deployNamespace : string) : string :=
  sum_rate VLLMRequestQueueTimeSecondsSum modelName deployNamespace +:+ "/" +:+
  sum_rate VLLMRequestQueueTimeSecondsCount modelName deployNamespace.

Definition itlQuery (modelName deployNamespace : string) : string :=
  sum_rate VLLMTimePerOutputTokenSecondsSum modelName deployNamespace +:+ "/" +:+
  sum_rate VLLMTimePerOutputTokenSecondsCount modelName deployNamespace.

Definition AddMetricsToOptStatus
    (clock : Clock) (opt : VariantAutoscaling) (deployment : Deployment)
    (acceleratorCostVal : float64) (promAPI : PromAPI)
  : outcome (Allocation * option error) * Clock :=
  let deployNamespace := dep_Namespace deployment in
  let modelName := ModelID (Spec opt) in
  (* Query 1: Arrival rate (requests per minute) *)
  let '(now, clock) := Now clock in
  let '(val, warn, err) :=
    Query promAPI (arrivalQuery modelName deployNamespace) now in
  match vector_guard val err with
  | NilValue => (Panics "nil pointer dereference", clock)
  | NotVector => (Returns (Allocation_zero, err), clock)
  | IsVector vec =>
  let arrivalVal :=
    match vec with s :: _ => model.sample_Value s | [] => zero end in
  let arrivalVal := FixValue arrivalVal in
  let avgInputTokens := zero in
  (* Query 2: Average token length *)
  let '(now, clock) := Now clock in
  let '(val, _, err) :=
    Query promAPI (avgDecToksQuery modelName deployNamespace) now in
  match vector_guard val err with
  | NilValue => (Panics "nil pointer dereference", clock)
  | NotVector => (Returns (Allocation_zero, err), clock)
  | IsVector vec =>
  let avgOutputTokens :=
    match vec with s :: _ => model.sample_Value s | [] => zero end in
  let avgOutputTokens := FixValue avgOutputTokens in
  (* Query 3: Average waiting time *)
  let '(now, clock) := Now clock in
  let '(val, _, err) :=
    Query promAPI (ttftQuery modelName deployNamespace) now in
  match vector_guard val err with
  | NilValue => (Panics "nil pointer dereference", clock)
  | (NotVector | IsVector _) as g =>
  let ttftAverageTime :=
    match g with
    | IsVector (s :: _) => mul64 (model.sample_Value s) (of_int 1000) (* msec *)
    | _ => zero (* failed to get avg wait time, using 0 *)
    end in
  let ttftAverageTime := FixValue ttftAverageTime in
  (* Query 4: Average ITL *)
  let '(now, clock) := Now clock in
  let '(val, _, err) :=
    Query promAPI (itlQuery modelName deployNamespace) now in
  match vector_guard val err with
  | NilValue => (Panics "nil pointer dereference", clock)
  | (NotVector | IsVector _) as g =>
  let itlAverage :=
    match g with
    | IsVector (s :: _) => mul64 (model.sample_Value s) (of_int 1000) (* msec *)
    | _ => zero (* failed to get avg itl time, using 0 *)
    end in
  let itlAverage := FixValue itlAverage in
  match dep_Replicas deployment with
  | None => (Panics "nil pointer dereference", clock)
  | Some replicas =>
  (* number of replicas *)
  let numReplicas := replicas in
  (* accelerator type *)
  let acc := map_get (Labels opt) "inference.optimization/acceleratorName" in
  (* cost *)
  let discoveredCost := mul64 (of_int replicas) acceleratorCostVal in
  (* max batch size *)
  let maxBatch := 256 in
  (* populate current alloc *)
  let currentAlloc :=
    {| alloc_Accelerator := acc;
       alloc_NumReplicas := numReplicas;
       alloc_MaxBatch := maxBatch;
       alloc_VariantCost := FormatFloat discoveredCost "f" 2 32;
       alloc_TTFTAverage := FormatFloat ttftAverageTime "f" 2 32;
       alloc_ITLAverage := FormatFloat itlAverage "f" 2 32;
       alloc_Load :=
         {| ArrivalRate := FormatFloat arrivalVal "f" 2 32;
            AvgInputTokens := FormatFloat avgInputTokens "f" 2 32;
            AvgOutputTokens := FormatFloat avgOutputTokens "f" 2 32 |} |} in
  (Returns (currentAlloc, None), clock)
  end end end end end.

End Queries.

End Collector.

(* ================================================================== *)
(** * Reference instances of the library functions                     *)
(* ================================================================== *)

(** The adapters are parametric in [strconv.ParseFloat], in the YAML
    decoder and in the order of map iteration.  The instances below make
    them run.  [Reference.ParseFloat] follows [strconv.ParseFloat] on plain
    decimal numerals ([12], [0.25], [-3.5], [.5], [7.]) and on the
    spellings of infinity and NaN; it rejects the other spellings Go
    accepts (exponents, hexadecimal, digit separators), which nothing here
    uses. *)

Module Reference.

Definition digit_of (c : ascii) : option Z :=
  let n := nat_of_ascii c in
  if (Nat.leb 48 n && Nat.leb n 57)%bool then Some (Z.of_nat n - 48) else None.

(** Reads a run of digits: their value after [acc], how many were read,
    and the rest of the string. *)
Fixpoint read_digits (s : string) (acc : Z) (n : nat) : Z * nat * string :=
  match s with
  | String c r =>
      match digit_of c with
      | Some d => read_digits r (10 * acc + d) (S n)
      | None => (acc, n, s)
      end
  | EmptyString => (acc, n, s)
  end.

Definition syntax_error (s : string) : option error :=
  Some
    ("strconv.ParseFloat: parsing " +:+ dq +:+ s +:+ dq +:+ ": invalid syntax").
Definition range_error (s : string) : option error :=
  Some ("strconv.ParseFloat: parsing " +:+ dq +:+ s +:+ dq +:+
        ": value out of range").

(** The nearest value of [bitSize] bits to [n / 10^k], ties to even. *)
Definition nearest (bitSize : Z) (neg : bool) (n : Z) (k : nat) : spec_float :=
  let '(prec, emax) :=
    if bitSize =? 32 then (prec32, emax32) else (prec64, emax64) in
  match n with
  | Z.pos m =>
      SFdiv prec emax (S754_finite neg m 0)
            (S754_finite false (Z.to_pos (10 ^ Z.of_nat k)) 0)
  | _ => S754_zero neg
  end.

Definition ParseFloat (s : string) (bitSize : Z) : float64 * option error :=
  let '(neg, body, signed) :=
    match s with
    | String "+" r => (false, r, true)
    | String "-" r => (true, r, true)
    | _ => (false, s, false)
    end in
  let low := ToLower body in
  if String.eqb low "inf" || String.eqb low "infinity" then
    (S754_infinity neg, None)
  else if String.eqb low "nan" && negb signed then (S754_nan, None)
  else
    let '(ip, ni, rest) := read_digits body 0 0 in
    let '(n, nf, rest) :=
      match rest with
      | String "." r => let '(v, k, rest') := read_digits r ip 0 in (v, k, rest')
      | _ => (ip, O, rest)
      end in
    if (Nat.eqb (ni + nf) 0 || negb (String.eqb rest ""))%bool then
      (zero, syntax_error s)
    else
      match nearest bitSize neg n nf with
      | S754_infinity sg => (S754_infinity sg, range_error s)
      | v => (of_float32 v, None)
      end.

(** A decoder that accepts nothing, for runs without service classes. *)
Definition yaml_Unmarshal (val : string) : ServiceClass * option error :=
  ({| sc_Name := ""; sc_Priority := 0; sc_Data := [] |},
   Some "yaml: unmarshal errors").

(** Map iteration in the order of [map_to_list]. *)
Definition range (A : Type) (m : gmap string A) : list (string * A) :=
  map_to_list m.

(** A clock that reads [t0], [t0 + 1], ... *)
Definition clock_from (t0 : Time) : Clock :=
  {| readings := fun n => t0 + Z.of_nat n; reads := 0 |}.

End Reference.

(* ================================================================== *)
(** * Notions of the design document                                   *)
(* ================================================================== *)

(** The definitions of this part follow the words of the design document,
    not the code; the properties compare the code with them. *)

Definition finiteb (x : float64) : bool :=
  match x with
  | S754_zero _ | S754_finite _ _ _ => true
  | _ => false
  end.

(** "Sanitized to zero": the parsed value when the string parses to a
    finite number, zero when it does not parse or is NaN or infinite. *)
Definition sanitized (parsed : float64 * option error) : float64 :=
  match parsed with
  | (v, None) => if finiteb v then v else zero
  | (_, Some _) => zero
  end.

(** The numeric strings of a variant's status that enter the system data:
    load, cost, ITL and TTFT. *)
Definition numeric_inputs (va : SingleVariant.VariantAutoscaling)
    (currentAlloc : SingleVariant.Allocation) : list string :=
  [ ArrivalRate (SingleVariant.Load (SingleVariant.Status va));
    AvgOutputTokens (SingleVariant.Load (SingleVariant.Status va));
    AvgInputTokens (SingleVariant.Load (SingleVariant.Status va));
    SingleVariant.alloc_VariantCost currentAlloc;
    SingleVariant.ITLAverage (SingleVariant.Status va);
    SingleVariant.TTFTAverage (SingleVariant.Status va) ].


(** The decimal strings of the design document, [^\d+(\.\d+)?$]: digits,
    with or without a point and digits after them. *)
Definition is_digit (c : ascii) : bool :=
  (Nat.leb 48 (nat_of_ascii c) && Nat.leb (nat_of_ascii c) 57)%bool.

Fixpoint skip_digits (s : string) : string :=
  match s with
  | String c r => if is_digit c then skip_digits r else s
  | EmptyString => s
  end.

Definition starts_with_digit (s : string) : bool :=
  match s with
  | String c _ => is_digit c
  | EmptyString => false
  end.

Definition decimal_string (s : string) : bool :=
  starts_with_digit s &&
  match skip_digits s with
  | EmptyString => true
  | String "." r =>
      starts_with_digit r &&
      match skip_digits r with EmptyString => true | _ => false end
  | _ => false
  end.

(** A coefficient map pair is malformed when a map has fewer than two
    entries, or the entry for alpha, beta, gamma or delta does not parse. *)
Definition unparseable (ParseFloat : string -> Z -> float64 * option error)
    (m : gmap string string) (k : string) : Prop :=
  is_err (snd (ParseFloat (map_get m k) 32)) = true.

Definition malformed (ParseFloat : string -> Z -> float64 * option error)
    (pp : PerfParms) : Prop :=
  (size (pp_DecodeParms pp) < 2)%nat \/
  (size (pp_PrefillParms pp) < 2)%nat \/
  unparseable ParseFloat (pp_DecodeParms pp) "alpha" \/
  unparseable ParseFloat (pp_DecodeParms pp) "beta" \/
  unparseable ParseFloat (pp_PrefillParms pp) "gamma" \/
  unparseable ParseFloat (pp_PrefillParms pp) "delta".


(** What an optimized allocation holds of the solution: the accelerator
    and the replicas decided for the variant. *)
Definition decision (a : SingleVariant.OptimizedAlloc) : string * Z :=
  (SingleVariant.opt_Accelerator a, SingleVariant.opt_NumReplicas a).

(** The message of the engine for an empty solution. *)
Definition no_feasible_allocations : error :=
  "no feasible allocations found for all variants".


(** The solution "is nil or has an empty server map". *)
Definition empty_solution (sol : option AllocationSolution) : Prop :=
  sol = None \/ exists s, sol = Some s /\ sol_Spec s = ∅.

(** The decisions in the optimized allocations of a call. *)
Definition decisions (result : option (gmap string SingleVariant.OptimizedAlloc))
  : option (gmap string (string * Z)) :=
  match result with
  | Some m => Some (decision <$> m)
  | None => None
  end.

(** The adapter the engine calls is not among the sources.  It extends the
    adapter of the source when it fails where that one fails, and else
    gives an allocation with the time, the accelerator and the replicas
    that one gives, reading the clock as that one does; of the field
    [VariantID] nothing is asked. *)
Definition extends_adapter
    (create : Clock -> string -> string -> string -> AllocationSolution ->
              (SingleVariant.OptimizedAlloc + error) * Clock) : Prop :=
  forall clock name namespace variantID sol,
    match SingleVariant.CreateOptimizedAlloc clock name namespace sol with
    | ((Some a, None), clock') =>
        exists a',
          create clock name namespace variantID sol = (inl a', clock') /\
          SingleVariant.LastRunTime a' = SingleVariant.LastRunTime a /\
          decision a' = decision a
    | (_, clock') =>
        exists e, create clock name namespace variantID sol = (inr e, clock')
    end.


(** "One AcceleratorSpec per configured accelerator whose cost parses": the
    spec of the accelerator [key] configured by [val], or none when its cost
    does not parse. *)
Definition accelerator_of (ParseFloat : string -> Z -> float64 * option error)
    (kv : string * gmap string string) : option AcceleratorSpec :=
  match ParseFloat (map_get (snd kv) "cost") 32 with
  | (cost, None) =>
      Some {| acc_Name := fst kv;
              acc_Type := map_get (snd kv) "device";
              acc_Multiplicity := 1;
              acc_Power := PowerSpec_zero;
              acc_Cost := to_float32 cost |}
  | (_, Some _) => None
  end.

(** "Scale-to-zero is enabled by the per-variant field when it is set, and
    otherwise by the global setting." *)
Definition scale_to_zero_enabled (per_variant : option bool) (global : bool)
  : bool :=
  match per_variant with
  | Some b => b
  | None => global
  end.

(** "The minimum-replica floor is 0 if scale-to-zero is enabled, else 1." *)
Definition replica_floor (enabled : bool) : Z := if enabled then 0 else 1.


(* ================================================================== *)
(** * Sample inputs                                                    *)
(* ================================================================== *)

(** Concrete inputs on which the definitions run: the objects of the
    collector's tests, and a few more of the same kind. *)

Module Sample.

(** The metric and label names vLLM exports. *)
Definition VLLMRequestSuccessTotal := "vllm:request_success_total".
Definition VLLMRequestGenerationTokensSum := "vllm:request_generation_tokens_sum".
Definition VLLMRequestGenerationTokensCount :=
  "vllm:request_generation_tokens_count".
Definition VLLMRequestQueueTimeSecondsSum := "vllm:request_queue_time_seconds_sum".
Definition VLLMRequestQueueTimeSecondsCount :=
  "vllm:request_queue_time_seconds_count".
Definition VLLMTimePerOutputTokenSecondsSum :=
  "vllm:time_per_output_token_seconds_sum".
Definition VLLMTimePerOutputTokenSecondsCount :=
  "vllm:time_per_output_token_seconds_count".
Definition LabelModelName := "model_name".
Definition LabelNamespace := "namespace".

Definition AddMetricsToOptStatus :=
  Collector.AddMetricsToOptStatus
    VLLMRequestSuccessTotal
    VLLMRequestGenerationTokensSum VLLMRequestGenerationTokensCount
    VLLMRequestQueueTimeSecondsSum VLLMRequestQueueTimeSecondsCount
    VLLMTimePerOutputTokenSecondsSum VLLMTimePerOutputTokenSecondsCount
    LabelModelName LabelNamespace.

Definition arrivalQuery :=
  Collector.arrivalQuery VLLMRequestSuccessTotal LabelModelName LabelNamespace.

Definition avgDecToksQuery :=
  Collector.avgDecToksQuery VLLMRequestGenerationTokensSum
    VLLMRequestGenerationTokensCount LabelModelName LabelNamespace.
Definition ttftQuery :=
  Collector.ttftQuery VLLMRequestQueueTimeSecondsSum
    VLLMRequestQueueTimeSecondsCount LabelModelName LabelNamespace.
Definition itlQuery :=
  Collector.itlQuery VLLMTimePerOutputTokenSecondsSum
    VLLMTimePerOutputTokenSecondsCount LabelModelName LabelNamespace.

(** An empty system data. *)
Definition sd0 : SystemData :=
  {| Accelerators := []; PerfData := []; ServiceClasses := []; Servers := [];
     Optimizer := {| Unlimited := true; SaturationPolicy := "" |};
     Capacity := [] |}.

(** Coefficient maps: complete, with an entry that is no number, and with
    one entry only. *)
Definition decode_ok : gmap string string :=
  {[ "alpha" := "1.5"; "beta" := "0.25" ]}.
Definition prefill_ok : gmap string string :=
  {[ "gamma" := "2"; "delta" := "0.5" ]}.
Definition decode_not_a_number : gmap string string :=
  {[ "alpha" := "abc"; "beta" := "0.25" ]}.
Definition decode_short : gmap string string := {[ "alpha" := "1.5" ]}.
Definition decode_nan : gmap string string :=
  {[ "alpha" := "NaN"; "beta" := "0.25" ]}.

Definition parms_ok : PerfParms :=
  {| pp_DecodeParms := decode_ok; pp_PrefillParms := prefill_ok |}.
Definition parms_not_a_number : PerfParms :=
  {| pp_DecodeParms := decode_not_a_number; pp_PrefillParms := prefill_ok |}.
Definition parms_short : PerfParms :=
  {| pp_DecodeParms := decode_short; pp_PrefillParms := prefill_ok |}.

Definition profile_ok : SingleVariant.VariantProfile :=
  {| SingleVariant.vp_PerfParms := parms_ok;
     SingleVariant.vp_MaxBatchSize := 4 |}.
Definition profile_nan : SingleVariant.VariantProfile :=
  {| SingleVariant.vp_PerfParms :=
       {| pp_DecodeParms := decode_nan; pp_PrefillParms := prefill_ok |};
     SingleVariant.vp_MaxBatchSize := 4 |}.
Definition profile_not_a_number : SingleVariant.VariantProfile :=
  {| SingleVariant.vp_PerfParms := parms_not_a_number;
     SingleVariant.vp_MaxBatchSize := 4 |}.

Definition acc_profile_ok : AcceleratorProfiles.AcceleratorProfile :=
  {| AcceleratorProfiles.Acc := "A100"; AcceleratorProfiles.AccCount := 1;
     AcceleratorProfiles.ap_PerfParms := parms_ok;
     AcceleratorProfiles.MaxBatchSize := 4 |}.
Definition acc_profile_nan : AcceleratorProfiles.AcceleratorProfile :=
  {| AcceleratorProfiles.Acc := "A100"; AcceleratorProfiles.AccCount := 1;
     AcceleratorProfiles.ap_PerfParms :=
       {| pp_DecodeParms := decode_nan; pp_PrefillParms := prefill_ok |};
     AcceleratorProfiles.MaxBatchSize := 4 |}.
Definition acc_profile_short : AcceleratorProfiles.AcceleratorProfile :=
  {| AcceleratorProfiles.Acc := "A100"; AcceleratorProfiles.AccCount := 1;
     AcceleratorProfiles.ap_PerfParms := parms_short;
     AcceleratorProfiles.MaxBatchSize := 4 |}.

(** A variant (one per object) in namespace [default], with a status whose
    TTFT average is not finite and whose ITL average is no number. *)
Definition allocation : SingleVariant.Allocation :=
  {| SingleVariant.alloc_VariantID := "default/default-A100-1";
     SingleVariant.alloc_Accelerator := "A100";
     SingleVariant.alloc_NumReplicas := 2;
     SingleVariant.alloc_MaxBatch := 256;
     SingleVariant.alloc_VariantCost := "80.00" |}.

Definition variant_with (allocs : list SingleVariant.Allocation)
  : SingleVariant.VariantAutoscaling :=
  {| SingleVariant.Name := "test";
     SingleVariant.Namespace := "default";
     SingleVariant.Labels :=
       {[ "inference.optimization/acceleratorName" := "A100" ]};
     SingleVariant.Spec :=
       {| SingleVariant.ModelID := "default/default";
          SingleVariant.VariantID := "default/default-A100-1";
          SingleVariant.Accelerator := "A100";
          SingleVariant.AcceleratorCount := 1;
          SingleVariant.SLOClassRef :=
            {| ref_Name := "service-classes"; ref_Key := "premium" |};
          SingleVariant.spec_VariantProfile := profile_ok |};
     SingleVariant.Status :=
       {| SingleVariant.Load :=
            {| ArrivalRate := "10.50"; AvgInputTokens := "";
               AvgOutputTokens := "150.00" |};
          SingleVariant.ITLAverage := "n/a";
          SingleVariant.TTFTAverage := "+Inf";
          SingleVariant.PrimaryReplicas := 2;
          SingleVariant.CurrentAllocs := allocs;
          SingleVariant.DesiredOptimizedAllocs := [];
          SingleVariant.Actuation := {| Applied := false |};
          SingleVariant.Conditions := [] |} |}.

Definition variant : SingleVariant.VariantAutoscaling :=
  variant_with [allocation].
Definition variant_without_allocation : SingleVariant.VariantAutoscaling :=
  variant_with [].

(** The same variant as a resource with accelerator profiles, with and
    without its own scale-to-zero setting. *)
Definition model_variant (enable : option bool)
  : AcceleratorProfiles.VariantAutoscaling :=
  {| AcceleratorProfiles.Name := "test";
     AcceleratorProfiles.Namespace := "default";
     AcceleratorProfiles.Labels :=
       {[ "inference.optimization/acceleratorName" := "A100" ]};
     AcceleratorProfiles.Spec :=
       {| AcceleratorProfiles.ModelID := "default/default";
          AcceleratorProfiles.SLOClassRef :=
            {| ref_Name := "service-classes"; ref_Key := "premium" |};
          AcceleratorProfiles.spec_ModelProfile :=
            {| AcceleratorProfiles.mp_Accelerators := [acc_profile_ok] |};
          AcceleratorProfiles.EnableScaleToZero := enable;
          AcceleratorProfiles.ScaleToZeroPodRetentionPeriod := None |};
     AcceleratorProfiles.Status :=
       {| AcceleratorProfiles.CurrentAlloc :=
            {| AcceleratorProfiles.alloc_Accelerator := "A100";
               AcceleratorProfiles.alloc_NumReplicas := 2;
               AcceleratorProfiles.alloc_MaxBatch := 256;
               AcceleratorProfiles.alloc_VariantCost := "80.00";
               AcceleratorProfiles.alloc_ITLAverage := "50.00";
               AcceleratorProfiles.alloc_TTFTAverage := "500.00";
               AcceleratorProfiles.alloc_Load :=
                 {| ArrivalRate := "10.50"; AvgInputTokens := "0.00";
                    AvgOutputTokens := "150.00" |} |};
          AcceleratorProfiles.DesiredOptimizedAlloc :=
            {| AcceleratorProfiles.LastRunTime := 0;
               AcceleratorProfiles.opt_Accelerator := "";
               AcceleratorProfiles.opt_NumReplicas := 0 |};
          AcceleratorProfiles.Actuation := {| Applied := false |};
          AcceleratorProfiles.Conditions := [] |} |}.

(** The deployment of the tests: two replicas. *)
Definition deployment : Deployment :=
  {| dep_Name := "test"; dep_Namespace := "default"; dep_Replicas := Some 2 |}.

(** The accelerator cost of the tests: 40. *)
Definition accCost : float64 := of_int 40.

Definition one_sample (v : float64) : option model.Value :=
  Some (model.Vector [ {| model.sample_Value := v; model.sample_Timestamp := 0 |} ]).

(** The Prometheus of the test that collects metrics successfully: 10.5
    requests per minute, 150 tokens per request, 0.5 s of waiting, 0.05 s
    per token. *)
Definition prom_ok : PromAPI :=
  {| Query := fun query _ =>
       if String.eqb query (arrivalQuery "default/default" "default")
       then (one_sample (f_ratio 105 10), [], None)
       else if String.eqb query (avgDecToksQuery "default/default" "default")
       then (one_sample (of_int 150), [], None)
       else if String.eqb query (ttftQuery "default/default" "default")
       then (one_sample (f_ratio 5 10), [], None)
       else if String.eqb query (itlQuery "default/default" "default")
       then (one_sample (f_ratio 5 100), [], None)
       else (Some (model.Vector []), [], None) |}.

(** A Prometheus whose arrival-rate query fails, the others finding no
    data. *)
Definition prom_arrival_fails : PromAPI :=
  {| Query := fun query _ =>
       if String.eqb query (arrivalQuery "default/default" "default")
       then (None, [], Some "prometheus connection failed")
       else (Some (model.Vector []), [], None) |}.

(** A Prometheus that has no data point for any query. *)
Definition prom_empty : PromAPI :=
  {| Query := fun _ _ => (Some (model.Vector []), [], None) |}.

(** A Prometheus that answers the arrival-rate and token queries and fails
    on the latency queries. *)
Definition prom_latency_fails : PromAPI :=
  {| Query := fun query _ =>
       if String.eqb query (arrivalQuery "default/default" "default")
       then (one_sample (f_ratio 105 10), [], None)
       else if String.eqb query (avgDecToksQuery "default/default" "default")
       then (one_sample (of_int 150), [], None)
       else (None, [], Some "query timed out") |}.

(** An accelerator config map: one accelerator with a cost, one whose cost
    is no number. *)
Definition a100_config : gmap string string :=
  {[ "device" := "NVIDIA-A100-PCIE-80GB"; "cost" := "40.00" ]}.
Definition g2_config : gmap string string :=
  {[ "device" := "Intel-Gaudi-2-96GB"; "cost" := "free" ]}.
Definition acceleratorCm : gmap string (gmap string string) :=
  {[ "A100" := a100_config; "G2" := g2_config ]}.

(** Accelerators whose cost is spelled as no number is, and as a decimal
    number too large for a [float32] (ten to the 39). *)
Definition nan_config : gmap string string :=
  {[ "device" := "AMD-MI300X-192GB"; "cost" := "NaN" ]}.
Definition huge_config : gmap string string :=
  {[ "device" := "NVIDIA-H100-80GB";
     "cost" := "1000000000000000000000000000000000000000" ]}.

(** An engine whose optimizer succeeds with the solution [sol]. *)
Definition optimizer_ok (st : unit) : unit * option error := (st, None).
Definition solution_of (sol : option AllocationSolution) (st : unit)
  : unit * option AllocationSolution := (st, sol).

Definition allocationData : AllocationData :=
  {| ad_Accelerator := "A100"; ad_NumReplicas := 3; ad_MaxBatch := 256;
     ad_Cost := zero; ad_ITLAverage := zero; ad_TTFTAverage := zero;
     ad_Load := {| load_ArrivalRate := zero; load_AvgInTokens := 0;
                   load_AvgOutTokens := 0 |} |}.

Definition solution : AllocationSolution :=
  {| sol_Spec := {[ "test:default" := allocationData ]} |}.

Definition vaList : SingleVariant.VariantAutoscalingList :=
  {| SingleVariant.Items := [variant] |}.

(** An adapter for the engine: that of the source, which has no use for
    the variant identifier. *)
Definition adapter (clock : Clock) (name namespace variantID : string)
    (sol : AllocationSolution)
  : (SingleVariant.OptimizedAlloc + error) * Clock :=
  match SingleVariant.CreateOptimizedAlloc clock name namespace sol with
  | ((Some a, None), clock) => (inl a, clock)
  | ((_, Some e), clock) => (inr e, clock)
  | ((None, None), clock) => (inr "no allocation", clock)
  end.

Definition Optimize (sol : option AllocationSolution) :=
  SingleVariant.Optimize unit optimizer_ok (solution_of sol) unit adapter tt.

End Sample.


(* ================================================================== *)
(** * Further code of [utils.go]                                       *)
(* ================================================================== *)

(** ** Resource names *)

(** A Go string read as its sequence of runes (code points); a byte that
    is no UTF-8 is the rune U+FFFD, as Go's decoding gives it. *)
Definition rune := Z.

Definition rune_of_ascii (c : ascii) : rune := Z.of_nat (nat_of_ascii c).

(** The runes of a string of ASCII characters. *)
Fixpoint runes (s : string) : list rune :=
  match s with
  | EmptyString => []
  | String c r => rune_of_ascii c :: runes r
  end.

(** [unicode.ToLower]: the letters A-Z of ASCII go to a-z and the rest of
    ASCII stays; above ASCII the case tables of Unicode decide,
    [tables]. *)
Definition unicode_ToLower (tables : rune -> rune) (r : rune) : rune :=
  if r <=? 127 then
    if (65 <=? r) && (r <=? 90) then r + 32 else r
  else tables r.

(** The character class [a-z0-9-] of the regular expression. *)
Definition name_rune (r : rune) : bool :=
  ((97 <=? r) && (r <=? 122)) || ((48 <=? r) && (r <=? 57)) || (r =? 45).

(** [strings.TrimLeft(s, "-")]. *)
Fixpoint TrimLeft_hyphen (l : list rune) : list rune :=
  match l with
  | r :: rest => if r =? 45 then TrimLeft_hyphen rest else l
  | [] => []
  end.

(** [strings.Trim(s, "-")]. *)
Definition Trim_hyphen (l : list rune) : list rune :=
  reverse (TrimLeft_hyphen (reverse (TrimLeft_hyphen l))).

(** SuggestResourceNameFromVariantID transforms a variant_id into a valid
    Kubernetes resource name.
      - Convert to lowercase
      - Replace slashes (/) with hyphens (-)
      - Replace dots (.) with hyphens (-)
      - Remove any remaining invalid characters *)
Definition SuggestResourceNameFromVariantID (tables : rune -> rune)
    (variantID : list rune) : list rune :=
  (* Convert to lowercase *)
  let name := map (unicode_ToLower tables) variantID in
  (* Replace slashes with hyphens *)
  let name := map (fun r => if r =? 47 then 45 else r) name in
  (* Replace dots with hyphens *)
  let name := map (fun r => if r =? 46 then 45 else r) name in
  (* Remove any characters that aren't lowercase letters, numbers, or
     hyphens *)
  let name := List.filter name_rune name in
  (* Ensure it doesn't start or end with hyphen *)
  Trim_hyphen name.

(** ** Service-level objectives *)

Section FindSLO.

Variable yaml_Unmarshal : string -> ServiceClass * option error.
Variable range : forall A : Type, gmap string A -> list (string * A).
(** [%q] of [fmt]: the quoted form of a string. *)
Variable Quote : string -> string.

(** The inner loop: the first entry of the class for the model. *)
Fixpoint find_entry (data : list ServiceClassEntry) (targetModel : string)
  : option ServiceClassEntry :=
  match data with
  | [] => None
  | entry :: rest =>
      if String.eqb (entry_Model entry) targetModel then Some entry
      else find_entry rest targetModel
  end.

(** The outer loop, over the entries of the config map in the order of the
    visit. *)
Fixpoint FindModelSLO_loop (entries : list (string * string))
    (targetModel : string)
  : option ServiceClassEntry * string * option error :=
  match entries with
  | [] =>
      (None, "",
       Some ("model " +:+ Quote targetModel +:+ " not found in any service class"))
  | (key, val) :: rest =>
      let '(sc, err) := yaml_Unmarshal val in
      match err with
      | Some e => (None, "", Some ("failed to parse " +:+ key +:+ ": " +:+ e))
      | None =>
          match find_entry (sc_Data sc) targetModel with
          | Some entry => (Some entry, sc_Name sc, None)
          | None => FindModelSLO_loop rest targetModel
          end
      end
  end.

(** Helper to find SLOs for a model variant *)
Definition FindModelSLO (cmData : gmap string string) (targetModel : string)
  : option ServiceClassEntry * string (* class name *) * option error :=
  FindModelSLO_loop (range _ cmData) targetModel.

End FindSLO.

(** GetConfigValue retrieves a value from a ConfigMap with a default
    fallback *)
Definition GetConfigValue (data : gmap string string) (key def : string)
  : string :=
  match data !! key with
  | Some v => v
  | None => def
  end.

(** [strings.Contains(s, ":")]. *)
Fixpoint has_colon (s : string) : bool :=
  match s with
  | EmptyString => false
  | String c r => Ascii.eqb c ":" || has_colon r
  end.

(** ** Retries with backoff *)

(** [wait.Backoff] with the fields the configurations set ([Cap], which
    would end the retries early, is left at zero by all of them): only
    [Steps] bears on what is returned; the durations are in nanoseconds. *)
Record Backoff := {
  Duration : Z;
  Factor : float64;
  Jitter : float64;
  Steps : Z
}.

(** Standard backoff for most operations *)
Definition StandardBackoff : Backoff :=
  {| Duration := 100 * 1000000; Factor := of_int 2; Jitter := f_ratio 1 10;
     Steps := 5 |}.

(** Slow backoff for operations that need more time *)
Definition ReconcileBackoff : Backoff :=
  {| Duration := 500 * 1000000; Factor := of_int 2; Jitter := zero;
     Steps := 5 |}.

(** Prometheus validation backoff with longer intervals:
    5s, 10s, 20s, 40s, 80s, 160s = ~5 minutes total *)
Definition PrometheusBackoff : Backoff :=
  {| Duration := 5 * 1000000000; Factor := of_int 2; Jitter := f_ratio 1 10;
     Steps := 6 |}.

(** [wait.ErrWaitTimeout]. *)
Definition ErrWaitTimeout : error := "timed out waiting for the condition".

(** [wait.ExponentialBackoffWithContext] of the Kubernetes client library,
    for a context that is not cancelled: the condition is tried up to
    [Steps] times, with a sleep between two tries; a try that reports an
    error, or that it is done, ends the loop with what it reports, and
    [ErrWaitTimeout] is returned when the tries are used up.  The condition
    works on a state [W] (what the closure captures and the API server). *)
Fixpoint backoff_loop {W : Type} (steps : nat)
    (condition : W -> (bool * option error) * W) (w : W) : option error * W :=
  match steps with
  | O => (Some ErrWaitTimeout, w)
  | S steps' =>
      let '((ok, err), w) := condition w in
      if is_err err || ok then (err, w)
      else backoff_loop steps' condition w
  end.

Definition ExponentialBackoffWithContext {W : Type} (backoff : Backoff)
    (condition : W -> (bool * option error) * W) (w : W) : option error * W :=
  backoff_loop (Z.to_nat (Steps backoff)) condition w.

(** What the API server answers to a [Get]: the object, or an error. *)
Inductive answer (Obj : Type) : Type :=
  | Found (obj : Obj)
  | Failed (err : error).
Arguments Found {Obj} obj.
Arguments Failed {Obj} err.

(** [client.Client] for objects of one kind: the [n]-th call of [Get]
    receives [answers n] for the key it asks. *)
Record Client (Obj : Type) := {
  answers : nat -> string -> string -> answer Obj;
  calls : nat
}.
Arguments answers {Obj} c n name namespace.
Arguments calls {Obj} c.

(** [c.Get(ctx, objKey, obj)]: on success the object is written to
    [obj]. *)
Definition Get {Obj : Type} (c : Client Obj) (name namespace : string)
  : answer Obj * Client Obj :=
  (answers c (calls c) name namespace,
   {| answers := answers c; calls := S (calls c) |}).

(** The status writer of a client: the [n]-th [Status().Update] returns
    [update_answers n]. *)
Record StatusWriter := {
  update_answers : nat -> option error;
  updates : nat
}.

Definition Status_Update (c : StatusWriter) : option error * StatusWriter :=
  (update_answers c (updates c),
   {| update_answers := update_answers c; updates := S (updates c) |}).

Section Resources.

(** The tests of [apierrors] on an error. *)
Variables IsNotFound IsInvalid IsForbidden : error -> bool.

(** The condition [GetResourceWithBackoff] hands to the backoff loop; it
    works on the client and on the object [obj] points to. *)
Definition get_condition {Obj : Type} (name namespace : string)
  : Client Obj * Obj -> (bool * option error) * (Client Obj * Obj) :=
  fun '(c, obj) =>
    let '(ans, c) := Get c name namespace in
    match ans with
    | Failed err =>
        if IsNotFound err then
          ((false, Some err), (c, obj)) (* Don't retry on notFound errors *)
        else
          ((false, None), (c, obj)) (* Retry on transient errors *)
    | Found obj' => ((true, None), (c, obj'))
    end.

(** GetResourceWithBackoff performs a Get operation with exponential
    backoff retry logic *)
Definition GetResourceWithBackoff {Obj : Type} (c : Client Obj)
    (name namespace : string) (obj : Obj) (backoff : Backoff)
    (resourceType : string) : option error * (Client Obj * Obj) :=
  ExponentialBackoffWithContext backoff (get_condition name namespace)
    (c, obj).

(** Helper functions for common resource types with standard backoff *)
Definition GetDeploymentWithBackoff {Obj : Type} (c : Client Obj)
    (name namespace : string) (deploy : Obj)
  : option error * (Client Obj * Obj) :=
  GetResourceWithBackoff c name namespace deploy StandardBackoff "Deployment".

Definition GetConfigMapWithBackoff {Obj : Type} (c : Client Obj)
    (name namespace : string) (cm : Obj)
  : option error * (Client Obj * Obj) :=
  GetResourceWithBackoff c name namespace cm StandardBackoff "ConfigMap".

Definition GetVariantAutoscalingWithBackoff {Obj : Type} (c : Client Obj)
    (name namespace : string) (va : Obj)
  : option error * (Client Obj * Obj) :=
  GetResourceWithBackoff c name namespace va StandardBackoff
    "VariantAutoscaling".

(** The condition [UpdateStatusWithBackoff] hands to the backoff loop. *)
Definition update_condition
  : StatusWriter -> (bool * option error) * StatusWriter :=
  fun c =>
    let '(err, c) := Status_Update c in
    match err with
    | Some e =>
        if IsInvalid e || IsForbidden e then
          ((false, Some e), c) (* Don't retry on permanent errors *)
        else ((false, None), c) (* Retry on transient errors *)
    | None => ((true, None), c)
    end.

(** UpdateStatusWithBackoff performs a Status Update operation with
    exponential backoff retry logic *)
Definition UpdateStatusWithBackoff (c : StatusWriter) (backoff : Backoff)
    (resourceType : string) : option error * StatusWriter :=
  ExponentialBackoffWithContext backoff update_condition c.

End Resources.

(** The condition [ValidatePrometheusAPIWithBackoff] hands to the backoff
    loop. *)
Definition validate_condition (promAPI : PromAPI)
  : Clock -> (bool * option error) * Clock :=
  fun clock =>
    (* Test with a simple query that should always work *)
    let query := "up" in
    let '(now, clock) := Now clock in
    let '(_, _, err) := Query promAPI query now in
    match err with
    | Some _ => ((false, None), clock) (* Retry on transient errors *)
    | None => ((true, None), clock)
    end.

(** ValidatePrometheusAPIWithBackoff validates Prometheus API connectivity
    with retry logic *)
Definition ValidatePrometheusAPIWithBackoff (clock : Clock) (promAPI : PromAPI)
    (backoff : Backoff) : option error * Clock :=
  ExponentialBackoffWithContext backoff (validate_condition promAPI) clock.

(** ValidatePrometheusAPI validates Prometheus API connectivity using
    standard Prometheus backoff *)
Definition ValidatePrometheusAPI (clock : Clock) (promAPI : PromAPI)
  : option error * Clock :=
  ValidatePrometheusAPIWithBackoff clock promAPI PrometheusBackoff.

(** ** The inventory of accelerators ([collector.go]) *)

Module Inventory.

(** [corev1.Node], as far as the inventory reads it; [Allocatable] holds
    the [Value()] of each quantity. *)
Record Node := {
  node_Name : string;
  node_Labels : gmap string string;
  node_Allocatable : gmap string Z
}.

Record AcceleratorModelInfo := {
  Count : Z;
  Memory : string
}.

Definition vendors : list string := [ "nvidia.com"; "amd.com"; "intel.com" ].

(** The body of the loop over the vendors, for one node. *)
Definition vendor_step (node : Node)
    (inv : gmap string (gmap string AcceleratorModelInfo)) (vendor : string)
  : gmap string (gmap string AcceleratorModelInfo) :=
  let nodeName := node_Name node in
  let prodKey := vendor +:+ "/gpu.product" in
  let memKey := vendor +:+ "/gpu.memory" in
  match node_Labels node !! prodKey with
  | Some model =>
      (* found a GPU of this vendor *)
      let mem := map_get (node_Labels node) memKey in
      let count :=
        match node_Allocatable node !! (vendor +:+ "/gpu") with
        | Some cap => cap
        | None => 0
        end in
      let inner := default ∅ (inv !! nodeName) in
      <[nodeName := <[model := {| Count := count; Memory := mem |}]> inner]> inv
  | None => inv
  end.

(** CollectInventory lists all Nodes and builds a map[nodeName][model]->info.
    [listed] is what [r.List] gives: the nodes, or an error. *)
Definition CollectInventoryK8S (listed : list Node * option error)
  : option (gmap string (gmap string AcceleratorModelInfo)) * option error :=
  let '(nodes, err) := listed in
  match err with
  | Some e => (None, Some ("failed to list nodes: " +:+ e))
  | None =>
      (Some (foldl (fun inv node => foldl (vendor_step node) inv vendors)
                   ∅ nodes),
       None)
  end.

End Inventory.

(** ** The actuator ([actuator.go]) *)

Module Actuator.

Import SingleVariant.

(** [appsv1.Deployment] with its status; [Spec.Replicas] is a pointer. *)
Record DeploymentObject := {
  Spec_Replicas : option Z;
  Status_Replicas : Z
}.

(** [var deploy appsv1.Deployment]. *)
Definition DeploymentObject_zero : DeploymentObject :=
  {| Spec_Replicas := None; Status_Replicas := 0 |}.

(** The conversion [int32(n)]: the low 32 bits, signed. *)
Definition int32 (n : Z) : Z := (n + 2 ^ 31) mod 2 ^ 32 - 2 ^ 31.

(** One call of [MetricsEmitter.EmitReplicaMetrics]: the current and the
    desired replicas, the accelerator and the variant identifier. *)
Record EmitCall := {
  emit_current : Z;
  emit_desired : Z;
  emit_accelerator : string;
  emit_variantID : string
}.

Section Emit.

Variable IsNotFound : error -> bool.

(** getCurrentDeploymentReplicas gets the real current replica count from
    the actual Deployment *)
Definition getCurrentDeploymentReplicas (c : Client DeploymentObject)
    (va : VariantAutoscaling) : (Z * option error) * Client DeploymentObject :=
  let '(err, (c, deploy)) :=
    GetDeploymentWithBackoff IsNotFound c (Name va) (Namespace va)
      DeploymentObject_zero in
  match err with
  | Some e =>
      ((0, Some ("failed to get Deployment " +:+ Namespace va +:+ "/" +:+
                 Name va +:+ ": " +:+ e)), c)
  | None =>
      (* Prefer status replicas (actual current state) *)
      if Status_Replicas deploy >=? 0 then ((Status_Replicas deploy, None), c)
      else
        (* Fallback to spec if status not ready *)
        match Spec_Replicas deploy with
        | Some r => ((r, None), c)
        | None => ((1, None), c) (* Final fallback *)
        end
  end.

(** fallback to current allocation matching this variantID *)
Fixpoint fallback_replicas (currentAllocs : list Allocation)
    (variantID : string) : Z :=
  match currentAllocs with
  | [] => 0
  | currentAlloc :: rest =>
      if String.eqb (alloc_VariantID currentAlloc) variantID
      then int32 (alloc_NumReplicas currentAlloc)
      else fallback_replicas rest variantID
  end.

(** The body of the loop over the desired allocations.  What
    [EmitReplicaMetrics] returns is logged and changes nothing; the calls
    made are kept in the order they are made. *)
Definition EmitMetrics_step (va : VariantAutoscaling)
    (acc : list EmitCall * Client DeploymentObject)
    (desiredAlloc : OptimizedAlloc)
  : list EmitCall * Client DeploymentObject :=
  let '(emitted, c) := acc in
  if opt_NumReplicas desiredAlloc <? 0 then (emitted, c)
  else
    (* Get real current replicas from Deployment *)
    let '((currentReplicas, err), c) := getCurrentDeploymentReplicas c va in
    let currentReplicas :=
      match err with
      | Some _ =>
          fallback_replicas (CurrentAllocs (Status va))
                            (opt_VariantID desiredAlloc)
      | None => currentReplicas
      end in
    ((emitted ++
      [ {| emit_current := currentReplicas;
           emit_desired := int32 (opt_NumReplicas desiredAlloc);
           emit_accelerator := opt_Accelerator desiredAlloc;
           emit_variantID := opt_VariantID desiredAlloc |} ])%list,
     c).

Definition EmitMetrics (c : Client DeploymentObject)
    (VariantAutoscaling : VariantAutoscaling)
  : option error * list EmitCall * Client DeploymentObject :=
  (* Check if we have desired allocations *)
  match DesiredOptimizedAllocs (Status VariantAutoscaling) with
  | [] => (None, [], c)
  | allocs =>
      let '(emitted, c) :=
        foldl (EmitMetrics_step VariantAutoscaling) ([], c) allocs in
      (None, emitted, c)
  end.

End Emit.

End Actuator.

(** ** Notions for the retries *)

(** The client, and the status writer, after [n] more calls. *)
Definition Client_after {Obj : Type} (c : Client Obj) (n : nat) : Client Obj :=
  {| answers := answers c; calls := n + calls c |}.

Definition StatusWriter_after (c : StatusWriter) (n : nat) : StatusWriter :=
  {| update_answers := update_answers c; updates := n + updates c |}.

(** ** Notions for the engine *)

(** What the solution holds for a variant: the accelerator and the
    replicas it gives the server of the variant, if it gives any. *)
Definition solved (sol : AllocationSolution)
    (va : SingleVariant.VariantAutoscaling) : option (string * Z) :=
  match sol_Spec sol !! FullName (SingleVariant.Name va)
                                 (SingleVariant.Namespace va) with
  | Some a => Some (ad_Accelerator a, ad_NumReplicas a)
  | None => None
  end.

(** The decision recorded under [name]: that of the last variant of the
    list that has this name and a server in the solution. *)
Fixpoint chosen (sol : AllocationSolution)
    (items : list SingleVariant.VariantAutoscaling) (name : string)
  : option (string * Z) :=
  match items with
  | [] => None
  | va :: rest =>
      match chosen sol rest name with
      | Some d => Some d
      | None =>
          if String.eqb (SingleVariant.Name va) name then solved sol va
          else None
      end
  end.

(* ================================================================== *)
(** * Inputs for the further code                                      *)
(* ================================================================== *)

Module Cases.

(** The case tables of Unicode where they reach ASCII: the Kelvin sign
    goes to [k] and the dotted capital I to [i]; the other runes used here
    are lower case already. *)
Definition tables (r : rune) : rune :=
  if r =? 8490 then 107 else if r =? 304 then 105 else r.

(** A decoder for two service-class documents, named by their content. *)
Definition premium : ServiceClass :=
  {| sc_Name := "Premium"; sc_Priority := 1;
     sc_Data := [ {| entry_Model := "default/default"; SLOTPOT := 24;
                     SLOTTFT := 500 |};
                  {| entry_Model := "meta/llama0-70b"; SLOTPOT := 80;
                     SLOTTFT := 500 |} ] |}.
Definition freemium : ServiceClass :=
  {| sc_Name := "Freemium"; sc_Priority := 10;
     sc_Data := [ {| entry_Model := "ibm/granite-13b"; SLOTPOT := 200;
                     SLOTTFT := 2000 |} ] |}.

Definition yaml_Unmarshal (val : string) : ServiceClass * option error :=
  if String.eqb val "premium-document" then (premium, None)
  else if String.eqb val "freemium-document" then (freemium, None)
  else ({| sc_Name := ""; sc_Priority := 0; sc_Data := [] |},
        Some "yaml: unmarshal errors").

Definition serviceClassCm : gmap string string :=
  {[ "premium.yaml" := "premium-document";
     "freemium.yaml" := "freemium-document" ]}.

Definition Quote (s : string) : string := dq +:+ s +:+ dq.

(** A Prometheus without traffic: no request in the window, and the
    quotients of two rates are NaN. *)
Definition prom_idle : PromAPI :=
  {| Query := fun query _ =>
       if String.eqb query (Sample.arrivalQuery "default/default" "default")
       then (Sample.one_sample zero, [], None)
       else (Sample.one_sample S754_nan, [], None) |}.

(** A Prometheus that answers every query, also [up], with a scalar. *)
Definition prom_scalar : PromAPI :=
  {| Query := fun _ _ =>
       (Some (model.Scalar {| model.sample_Value := of_int 1;
                              model.sample_Timestamp := 0 |}), [], None) |}.

(** A Prometheus that is not reachable before the time 3. *)
Definition prom_late : PromAPI :=
  {| Query := fun _ now =>
       if now <? 3 then (None, [], Some "connection refused")
       else (Some (model.Vector []), [], None) |}.

(** The tests of [apierrors], on errors named by their reason. *)
Definition IsNotFound (e : error) : bool := String.eqb e "NotFound".
Definition IsInvalid (e : error) : bool := String.eqb e "Invalid".
Definition IsForbidden (e : error) : bool := String.eqb e "Forbidden".

(** A deployment with two replicas running of three asked for. *)
Definition ready : Actuator.DeploymentObject :=
  {| Actuator.Spec_Replicas := Some 3; Actuator.Status_Replicas := 2 |}.

(** API servers: one that times out twice and then serves the deployment,
    one that serves it at once, one that does not have it, one that times
    out twice and then does not have it, and one that times out always. *)
Definition flaky : Client Actuator.DeploymentObject :=
  {| answers := fun n _ _ =>
       if (n <? 2)%nat then Failed "Timeout" else Found ready;
     calls := 0 |}.
Definition serving : Client Actuator.DeploymentObject :=
  {| answers := fun _ _ _ => Found ready; calls := 0 |}.
Definition missing : Client Actuator.DeploymentObject :=
  {| answers := fun _ _ _ => Failed "NotFound"; calls := 0 |}.
Definition flaky_missing : Client Actuator.DeploymentObject :=
  {| answers := fun n _ _ =>
       if (n <? 2)%nat then Failed "Timeout" else Failed "NotFound";
     calls := 0 |}.
Definition down : Client Actuator.DeploymentObject :=
  {| answers := fun _ _ _ => Failed "Timeout"; calls := 0 |}.

(** Status writers: one that meets a conflict once and then accepts the
    update, one that refuses it after a conflict, one that always meets a
    conflict. *)
Definition writer_conflict_once : StatusWriter :=
  {| update_answers := fun n => if (n <? 1)%nat then Some "Conflict" else None;
     updates := 0 |}.
Definition writer_forbidden : StatusWriter :=
  {| update_answers := fun n =>
       if (n <? 1)%nat then Some "Conflict" else Some "Forbidden";
     updates := 0 |}.
Definition writer_conflicts : StatusWriter :=
  {| update_answers := fun _ => Some "Conflict"; updates := 0 |}.

(** The variant of the samples after an optimization: three replicas asked
    for its own variant, a second allocation for a variant it has no
    current allocation of, and an allocation with a negative count. *)
Definition desired : list SingleVariant.OptimizedAlloc :=
  [ {| SingleVariant.LastRunTime := 7;
       SingleVariant.opt_VariantID := "default/default-A100-1";
       SingleVariant.opt_Accelerator := "A100";
       SingleVariant.opt_NumReplicas := 3 |};
    {| SingleVariant.LastRunTime := 7;
       SingleVariant.opt_VariantID := "default/default-H100-1";
       SingleVariant.opt_Accelerator := "H100";
       SingleVariant.opt_NumReplicas := 1 |};
    {| SingleVariant.LastRunTime := 7;
       SingleVariant.opt_VariantID := "default/default-L40S-1";
       SingleVariant.opt_Accelerator := "L40S";
       SingleVariant.opt_NumReplicas := -1 |} ].

Definition optimized : SingleVariant.VariantAutoscaling :=
  let va := Sample.variant in
  let status := SingleVariant.Status va in
  {| SingleVariant.Name := SingleVariant.Name va;
     SingleVariant.Namespace := SingleVariant.Namespace va;
     SingleVariant.Labels := SingleVariant.Labels va;
     SingleVariant.Spec := SingleVariant.Spec va;
     SingleVariant.Status :=
       {| SingleVariant.Load := SingleVariant.Load status;
          SingleVariant.ITLAverage := SingleVariant.ITLAverage status;
          SingleVariant.TTFTAverage := SingleVariant.TTFTAverage status;
          SingleVariant.PrimaryReplicas := SingleVariant.PrimaryReplicas status;
          SingleVariant.CurrentAllocs := SingleVariant.CurrentAllocs status;
          SingleVariant.DesiredOptimizedAllocs := desired;
          SingleVariant.Actuation := SingleVariant.Actuation status;
          SingleVariant.Conditions := SingleVariant.Conditions status |} |}.

(** Nodes: one with eight NVIDIA A100, one with an AMD and an Intel
    accelerator of which the Intel one is not allocatable, one without
    accelerators. *)
Definition gpu_node : Inventory.Node :=
  {| Inventory.node_Name := "node-1";
     Inventory.node_Labels :=
       {[ "nvidia.com/gpu.product" := "A100";
          "nvidia.com/gpu.memory" := "40960";
          "kubernetes.io/arch" := "amd64" ]};
     Inventory.node_Allocatable := {[ "nvidia.com/gpu" := 8; "cpu" := 64 ]} |}.
Definition mixed_node : Inventory.Node :=
  {| Inventory.node_Name := "node-2";
     Inventory.node_Labels :=
       {[ "amd.com/gpu.product" := "MI300X";
          "amd.com/gpu.memory" := "196608";
          "intel.com/gpu.product" := "Gaudi2" ]};
     Inventory.node_Allocatable := {[ "amd.com/gpu" := 4 ]} |}.
Definition cpu_node : Inventory.Node :=
  {| Inventory.node_Name := "node-3";
     Inventory.node_Labels := {[ "kubernetes.io/arch" := "amd64" ]};
     Inventory.node_Allocatable := {[ "cpu" := 64 ]} |}.
Definition nodes : list Inventory.Node := [ gpu_node; mixed_node; cpu_node ].

(** The inventory of these nodes. *)
Definition a100_info : Inventory.AcceleratorModelInfo :=
  {| Inventory.Count := 8; Inventory.Memory := "40960" |}.
Definition inventory
  : gmap string (gmap string Inventory.AcceleratorModelInfo) :=
  {[ "node-1" := {[ "A100" := a100_info ]};
     "node-2" :=
       {[ "MI300X" := {| Inventory.Count := 4; Inventory.Memory := "196608" |};
          "Gaudi2" := {| Inventory.Count := 0; Inventory.Memory := "" |} ]} ]}.

End Cases.

(* ================================================================== *)
(** * Properties                                                       *)
(* ================================================================== *)

(** ** Floating-point facts *)

Lemma digits2_pos_bound (m : positive) :
  Z.pos m < 2 ^ Z.pos (digits2_pos m).
Proof.
  induction m as [m IH | m IH |]; cbn [digits2_pos].
  - rewrite Pos2Z.inj_succ, Z.pow_succ_r by lia. lia.
  - rewrite Pos2Z.inj_succ, Z.pow_succ_r by lia. lia.
  - reflexivity.
Qed.

(** A binary64 mantissa has at most 53 bits, and the exponent of a
    binary64 value is at most 971. *)
Lemma bounded64_inv (m : positive) (e : Z) :
  bounded prec64 emax64 m e = true ->
  Z.pos m < 2 ^ 53 /\ e <= 971.
Proof.
  unfold bounded, canonical_mantissa, fexp, emin, prec64, emax64.
  intros H. apply andb_true_iff in H as [Hc He].
  apply Z.eqb_eq in Hc. apply Z.leb_le in He.
  split; [| lia].
  pose proof (digits2_pos_bound m) as Hd.
  assert (Z.pos (digits2_pos m) <= 53) as Hle by lia.
  eapply Z.lt_le_trans; [exact Hd |].
  apply Z.pow_le_mono_r; lia.
Qed.

Lemma MaxFloat64_eq : MaxFloat64 = S754_finite false 9007199254740991 971.
Proof. vm_compute. reflexivity. Qed.

Lemma SFltb_above (M m : positive) (E e : Z) (s : bool) :
  e <= E -> (Z.pos m <= Z.pos M) ->
  SFltb (S754_finite false M E) (S754_finite s m e) = false.
Proof.
  intros He Hm. unfold SFltb, SFcompare.
  destruct s; [reflexivity |].
  destruct (Z.compare_spec E e) as [Heq | Hlt | Hgt]; try reflexivity; try lia.
  change (Pos.compare_cont Eq M m) with (Pos.compare M m).
  destruct (Pos.compare_spec M m) as [Hpe | Hpl | Hpg]; try reflexivity.
  lia.
Qed.

Lemma SFltb_below (M m : positive) (E e : Z) (s : bool) :
  e <= E -> (Z.pos m <= Z.pos M) ->
  SFltb (S754_finite s m e) (S754_finite true M E) = false.
Proof.
  intros He Hm. unfold SFltb, SFcompare.
  destruct s; [| reflexivity].
  destruct (Z.compare_spec e E) as [Heq | Hlt | Hgt]; try reflexivity; try lia.
  change (Pos.compare_cont Eq m M) with (Pos.compare m M).
  destruct (Pos.compare_spec m M) as [Hpe | Hpl | Hpg]; try reflexivity.
  lia.
Qed.

Lemma SFeqb_refl_finite (s : bool) (m : positive) (e : Z) :
  SFeqb (S754_finite s m e) (S754_finite s m e) = true.
Proof.
  unfold SFeqb, SFcompare.
  rewrite Z.compare_refl.
  change (Pos.compare_cont Eq m m) with (Pos.compare m m).
  rewrite Pos.compare_refl. destruct s; reflexivity.
Qed.

(** [math.IsNaN] holds of NaN only. *)
Lemma IsNaN_true_iff (x : float64) : IsNaN x = true <-> is_nan x.
Proof.
  unfold IsNaN, fne, is_nan. destruct x as [s | s | | s m e].
  - destruct s; cbn; split; discriminate.
  - destruct s; cbn; split; discriminate.
  - cbn. split; reflexivity.
  - rewrite SFeqb_refl_finite. cbn. split; discriminate.
Qed.

(** [math.IsInf(x, 0)] holds of the two infinities only. *)
Lemma IsInf_true_iff (x : float64) :
  is_float64 x = true -> (IsInf x 0 = true <-> is_inf x).
Proof.
  intros Hv. unfold IsInf, is_inf, fgt, flt. rewrite MaxFloat64_eq.
  change (0 >=? 0) with true. change (0 <=? 0) with true. cbn [andb].
  destruct x as [s | s | | s m e].
  - destruct s; cbn; split; try discriminate; intros [? ?]; discriminate.
  - destruct s; cbn; split; eauto.
  - cbn. split; try discriminate. intros [? ?]; discriminate.
  - apply bounded64_inv in Hv as [Hm He].
    cbn [SFopp negb].
    rewrite SFltb_above, SFltb_below by lia.
    cbn. split; try discriminate. intros [? ?]; discriminate.
Qed.

Lemma not_finite_iff (x : float64) : ~ is_finite x <-> (is_nan x \/ is_inf x).
Proof.
  unfold is_finite, is_nan, is_inf.
  destruct x as [s | s | | s m e]; split; try tauto; eauto.
  - intros [? | [? ?]]; discriminate.
  - intros [? | [? ?]]; discriminate.
Qed.

(** [CheckValue] holds exactly of the finite values. *)
Lemma CheckValue_true_iff (x : float64) :
  is_float64 x = true -> (CheckValue x = true <-> is_finite x).
Proof.
  intros Hv. unfold CheckValue.
  rewrite negb_true_iff, orb_false_iff.
  pose proof (IsNaN_true_iff x) as Hn.
  pose proof (IsInf_true_iff x Hv) as Hi.
  pose proof (not_finite_iff x) as Hf.
  split.
  - intros [H1 H2].
    destruct x as [s | s | | s m e]; cbn; try exact I.
    + rewrite (proj2 Hi) in H2; [discriminate | eexists; reflexivity].
    + rewrite (proj2 Hn) in H1; [discriminate | reflexivity].
  - intros Hfin. split.
    + destruct (IsNaN x); [| reflexivity].
      exfalso. apply (proj2 Hf); [left; apply Hn; reflexivity | exact Hfin].
    + destruct (IsInf x 0); [| reflexivity].
      exfalso. apply (proj2 Hf); [right; apply Hi; reflexivity | exact Hfin].
Qed.

Lemma CheckValue_false_iff (x : float64) :
  is_float64 x = true -> (CheckValue x = false <-> (is_nan x \/ is_inf x)).
Proof.
  intros Hv. rewrite <- not_finite_iff, <- (CheckValue_true_iff x Hv).
  destruct (CheckValue x); split; intros H; try reflexivity; try discriminate.
  exfalso. apply H. reflexivity.
Qed.

(** [FixValue] and [CheckValue] make the same test. *)
Lemma FixValue_CheckValue (x : float64) :
  FixValue x = if CheckValue x then x else zero.
Proof.
  unfold FixValue, CheckValue. destruct (IsNaN x || IsInf x 0); reflexivity.
Qed.

Lemma finiteb_is_finite (x : float64) : finiteb x = true <-> is_finite x.
Proof.
  destruct x as [s | s | | s m e]; cbn; split; try tauto; try discriminate.
Qed.

(** The test the builder makes on every numeric string is sanitization. *)
Lemma sanitize_step (v : float64) (err : option error) :
  is_float64 v = true ->
  (if is_err err || negb (CheckValue v) then zero else v) = sanitized (v, err).
Proof.
  intros Hv. destruct err as [e |]; cbn [is_err orb sanitized]; [reflexivity |].
  pose proof (CheckValue_true_iff v Hv) as Hc.
  pose proof (finiteb_is_finite v) as Hf.
  destruct (CheckValue v), (finiteb v); cbn; try reflexivity.
  - exfalso. assert (false = true) by (apply Hf, Hc; reflexivity). discriminate.
  - exfalso. assert (false = true) by (apply Hc, Hf; reflexivity). discriminate.
Qed.

Lemma sanitized_finite (parsed : float64 * option error) :
  is_finite (sanitized parsed).
Proof.
  destruct parsed as [v [e |]]; cbn; [exact I |].
  destruct (finiteb v) eqn:E; [apply finiteb_is_finite, E | exact I].
Qed.

(** ** Sanitization of numeric values *)

Section Sanitization.

Variable ParseFloat : string -> Z -> float64 * option error.
Variable env : Environ.

Import SingleVariant.

(** C4.  For a [float64] value [x], [FixValue] puts 0 in place of [x]
    when [x] is NaN or an infinity and leaves [x] as it is otherwise;
    [CheckValue] holds exactly when [x] is finite.  The load, cost, ITL
    and TTFT values that [AddServerInfoToSystemData] puts into the system
    data are the sanitized ones: zero when the string does not parse or
    parses to a non-finite value. *)
Theorem C4_sanitization
    (x : float64) (sd : SystemData) (va : VariantAutoscaling)
    (className : string) (currentAlloc : Allocation) (rest : list Allocation) :
  is_float64 x = true ->
  CurrentAllocs (Status va) = currentAlloc :: rest ->
  Forall (fun s => is_float64 (fst (ParseFloat s 32)) = true)
         (numeric_inputs va currentAlloc) ->
  ((is_nan x \/ is_inf x) -> FixValue x = zero) /\
  (~ (is_nan x \/ is_inf x) -> FixValue x = x) /\
  (CheckValue x = true <-> is_finite x) /\
  exists srv : ServerSpec,
    AddServerInfoToSystemData ParseFloat env sd va className
      = (set_Servers sd (Servers sd ++ [srv]), None) /\
    let alloc := srv_CurrentAlloc srv in
    let clean s := sanitized (ParseFloat s 32) in
    load_ArrivalRate (ad_Load alloc)
      = to_float32 (clean (ArrivalRate (Load (Status va)))) /\
    load_AvgInTokens (ad_Load alloc)
      = to_int (clean (AvgInputTokens (Load (Status va)))) /\
    load_AvgOutTokens (ad_Load alloc)
      = to_int (clean (AvgOutputTokens (Load (Status va)))) /\
    ad_Cost alloc = to_float32 (clean (alloc_VariantCost currentAlloc)) /\
    ad_ITLAverage alloc = to_float32 (clean (ITLAverage (Status va))) /\
    ad_TTFTAverage alloc = to_float32 (clean (TTFTAverage (Status va))).
Proof.
  intros Hx Hallocs Hvalid.
  split; [| split; [| split]].
  - intros Hbad. rewrite FixValue_CheckValue.
    apply (CheckValue_false_iff x Hx) in Hbad. rewrite Hbad. reflexivity.
  - intros Hgood. rewrite FixValue_CheckValue.
    destruct (CheckValue x) eqn:E; [reflexivity |].
    exfalso. apply Hgood. apply (CheckValue_false_iff x Hx). exact E.
  - apply CheckValue_true_iff, Hx.
  - unfold numeric_inputs in Hvalid.
    repeat match goal with
           | H : Forall _ (_ :: _) |- _ =>
               apply Forall_cons_1 in H; destruct H as [? H]
           end.
    unfold AddServerInfoToSystemData. rewrite Hallocs.
    destruct (ParseFloat (ArrivalRate (Load (Status va))) 32) as [v1 e1].
    destruct (ParseFloat (AvgOutputTokens (Load (Status va))) 32) as [v2 e2].
    destruct (ParseFloat (AvgInputTokens (Load (Status va))) 32) as [v3 e3].
    destruct (ParseFloat (alloc_VariantCost currentAlloc) 32) as [v4 e4].
    destruct (ParseFloat (ITLAverage (Status va)) 32) as [v5 e5].
    destruct (ParseFloat (TTFTAverage (Status va)) 32) as [v6 e6].
    cbn [fst] in *.
    eexists. split; [reflexivity |].
    cbn [srv_CurrentAlloc ad_Load ad_Cost ad_ITLAverage ad_TTFTAverage
         load_ArrivalRate load_AvgInTokens load_AvgOutTokens].
    rewrite !sanitize_step by assumption.
    repeat split; reflexivity.
Qed.

End Sanitization.

(** ** Performance profiles *)

(** Splits on the checks of an add-profile body, in the order the code
    makes them; each failed check ends the call. *)
Ltac profile_checks :=
  repeat lazymatch goal with
    | |- context [map_len ?m <? 2] => destruct (map_len m <? 2) eqn:?
    | |- context [let '(_, _) := ?p in _] =>
        let v := fresh "v" in let e := fresh "e" in
        destruct p as [v [e |]] eqn:?; cbn [is_err]
    end.

Section Profiles.

Variable ParseFloat : string -> Z -> float64 * option error.

Lemma map_len_lt_2 {A} (m : gmap string A) :
  (map_len m <? 2) = true <-> (size m < 2)%nat.
Proof. unfold map_len. rewrite Z.ltb_lt. lia. Qed.

(** The add-profile call for a variant fails, and leaves the system data
    as it was, exactly when the profile is malformed. *)
Lemma AddVariantProfile_malformed
    (sd : SystemData) (modelName accelerator : string) (count : Z)
    (vp : SingleVariant.VariantProfile) :
  malformed ParseFloat (SingleVariant.vp_PerfParms vp) ->
  exists e,
    SingleVariant.AddVariantProfileToSystemData ParseFloat
      sd modelName accelerator count vp = (sd, Some e).
Proof.
  unfold malformed, unparseable, SingleVariant.AddVariantProfileToSystemData.
  intros Hbad.
  profile_checks; eauto.
  exfalso.
  repeat match goal with
         | H : (map_len _ <? 2) = false |- _ =>
             apply Z.ltb_ge in H; unfold map_len in H
         | H : ParseFloat ?s 32 = _ |- _ => rewrite H in Hbad; clear H
         end.
  cbn in Hbad.
  destruct Hbad as [H | [H | [H | [H | [H | H]]]]];
    try discriminate; lia.
Qed.

Lemma AddModelAcceleratorProfile_malformed
    (sd : SystemData) (modelName : string)
    (ap : AcceleratorProfiles.AcceleratorProfile) :
  malformed ParseFloat (AcceleratorProfiles.ap_PerfParms ap) ->
  exists e,
    AcceleratorProfiles.AddModelAcceleratorProfileToSystemData ParseFloat
      sd modelName ap = (sd, Some e).
Proof.
  unfold malformed, unparseable,
    AcceleratorProfiles.AddModelAcceleratorProfileToSystemData.
  intros Hbad.
  profile_checks; eauto.
  exfalso.
  repeat match goal with
         | H : (map_len _ <? 2) = false |- _ =>
             apply Z.ltb_ge in H; unfold map_len in H
         | H : ParseFloat ?s 32 = _ |- _ => rewrite H in Hbad; clear H
         end.
  cbn in Hbad.
  destruct Hbad as [H | [H | [H | [H | [H | H]]]]];
    try discriminate; lia.
Qed.

End Profiles.

Section ProfileOutcomes.

Variable ParseFloat : string -> Z -> float64 * option error.
Variable env : Environ.

(** A call that reports an error has not touched the system data. *)
Lemma AddVariantProfile_error_unchanged
    (sd sd' : SystemData) (modelName accelerator : string) (count : Z)
    (vp : SingleVariant.VariantProfile) (e : error) :
  SingleVariant.AddVariantProfileToSystemData ParseFloat
    sd modelName accelerator count vp = (sd', Some e) ->
  sd' = sd.
Proof.
  unfold SingleVariant.AddVariantProfileToSystemData.
  profile_checks; intros H; inversion H; reflexivity.
Qed.

Lemma AddModelAcceleratorProfile_error_unchanged
    (sd sd' : SystemData) (modelName : string)
    (ap : AcceleratorProfiles.AcceleratorProfile) (e : error) :
  AcceleratorProfiles.AddModelAcceleratorProfileToSystemData ParseFloat
    sd modelName ap = (sd', Some e) ->
  sd' = sd.
Proof.
  unfold AcceleratorProfiles.AddModelAcceleratorProfileToSystemData.
  profile_checks; intros H; inversion H; reflexivity.
Qed.

(** A call that reports no error has appended one entry, and only that. *)
Lemma AddVariantProfile_ok_appends
    (sd sd' : SystemData) (modelName accelerator : string) (count : Z)
    (vp : SingleVariant.VariantProfile) :
  SingleVariant.AddVariantProfileToSystemData ParseFloat
    sd modelName accelerator count vp = (sd', None) ->
  exists entry,
    sd' = set_PerfData sd (PerfData sd ++ [entry]) /\
    perf_Name entry = modelName /\ perf_Acc entry = accelerator /\
    perf_AccCount entry = count /\
    perf_MaxBatchSize entry = SingleVariant.vp_MaxBatchSize vp.
Proof.
  unfold SingleVariant.AddVariantProfileToSystemData.
  profile_checks; intros H; inversion H; subst.
  eexists. split; [reflexivity |]. cbn. repeat split; reflexivity.
Qed.

(** A well-formed profile is added. *)
Lemma AddVariantProfile_wellformed
    (sd : SystemData) (modelName accelerator : string) (count : Z)
    (vp : SingleVariant.VariantProfile) :
  ~ malformed ParseFloat (SingleVariant.vp_PerfParms vp) ->
  snd (SingleVariant.AddVariantProfileToSystemData ParseFloat
         sd modelName accelerator count vp) = None.
Proof.
  unfold malformed, unparseable, SingleVariant.AddVariantProfileToSystemData.
  intros Hgood.
  profile_checks; try reflexivity; exfalso; apply Hgood;
    repeat match goal with
           | H : (map_len _ <? 2) = true |- _ => apply map_len_lt_2 in H
           | H : ParseFloat ?s 32 = _ |- _ => rewrite H
           end; cbn; tauto.
Qed.

(** The builder of a server entry fails when the variant has no current
    allocation, and only then; it has then not touched the system data. *)
Lemma AddServerInfo_no_allocs
    (sd : SystemData) (va : SingleVariant.VariantAutoscaling)
    (className : string) :
  SingleVariant.CurrentAllocs (SingleVariant.Status va) = [] ->
  SingleVariant.AddServerInfoToSystemData ParseFloat env sd va className
    = (sd, Some ("no current allocations found for variant "
                 +:+ SingleVariant.Name va)).
Proof.
  intros Hnone. unfold SingleVariant.AddServerInfoToSystemData.
  rewrite Hnone.
  repeat match goal with
         | |- context [let '(_, _) := ?p in _] => destruct p as [? ?]
         end.
  reflexivity.
Qed.

Lemma AddServerInfo_error_unchanged
    (sd sd' : SystemData) (va : SingleVariant.VariantAutoscaling)
    (className : string) (e : error) :
  SingleVariant.AddServerInfoToSystemData ParseFloat env sd va className
    = (sd', Some e) ->
  sd' = sd /\ SingleVariant.CurrentAllocs (SingleVariant.Status va) = [].
Proof.
  unfold SingleVariant.AddServerInfoToSystemData.
  destruct (SingleVariant.CurrentAllocs (SingleVariant.Status va))
    as [| currentAlloc rest].
  - repeat match goal with
           | |- context [let '(_, _) := ?p in _] => destruct p as [? ?]
           end.
    intros H; inversion H. split; reflexivity.
  - repeat match goal with
           | |- context [let '(_, _) := ?p in _] => destruct p as [? ?]
           end.
    intros H; inversion H.
Qed.

(** The builder of the resource with accelerator profiles has no error
    path. *)
Lemma AddServerInfo_profiles_no_error
    (sd : SystemData) (va : AcceleratorProfiles.VariantAutoscaling)
    (className : string) :
  snd (AcceleratorProfiles.AddServerInfoToSystemData ParseFloat env
         sd va className) = None.
Proof.
  unfold AcceleratorProfiles.AddServerInfoToSystemData.
  repeat match goal with
         | |- context [let '(_, _) := ?p in _] => destruct p as [? ?]
         end.
  reflexivity.
Qed.

(** C3 (as amended).  A performance profile whose decode or prefill map
    has fewer than two entries, or whose alpha, beta, gamma or delta entry
    [strconv.ParseFloat] rejects, is rejected with an error and adds no
    performance data; what the system data holds of other variants stays,
    and a profile added afterwards is added as if the rejected one had not
    been presented.  This holds of both add-profile operations.  (What the
    parser accepts is added: also NaN and the infinities, which are no
    decimal numbers.) *)
Theorem C3_malformed_profile_rejected
    (sd : SystemData) (modelName accelerator : string) (count : Z)
    (vp : SingleVariant.VariantProfile)
    (ap : AcceleratorProfiles.AcceleratorProfile) :
  (malformed ParseFloat (SingleVariant.vp_PerfParms vp) ->
     let r := SingleVariant.AddVariantProfileToSystemData ParseFloat
                sd modelName accelerator count vp in
     is_err (snd r) = true /\ fst r = sd /\
     forall modelName' accelerator' count' vp',
       SingleVariant.AddVariantProfileToSystemData ParseFloat
         (fst r) modelName' accelerator' count' vp'
       = SingleVariant.AddVariantProfileToSystemData ParseFloat
           sd modelName' accelerator' count' vp')
  /\
  (malformed ParseFloat (AcceleratorProfiles.ap_PerfParms ap) ->
     let r := AcceleratorProfiles.AddModelAcceleratorProfileToSystemData
                ParseFloat sd modelName ap in
     is_err (snd r) = true /\ fst r = sd /\
     forall modelName' ap',
       AcceleratorProfiles.AddModelAcceleratorProfileToSystemData ParseFloat
         (fst r) modelName' ap'
       = AcceleratorProfiles.AddModelAcceleratorProfileToSystemData ParseFloat
           sd modelName' ap').
Proof.
  split; intros Hbad.
  - destruct (AddVariantProfile_malformed ParseFloat
                sd modelName accelerator count vp Hbad) as [e He].
    cbn zeta. rewrite He. cbn. repeat split; reflexivity.
  - destruct (AddModelAcceleratorProfile_malformed ParseFloat
                sd modelName ap Hbad) as [e He].
    cbn zeta. rewrite He. cbn. repeat split; reflexivity.
Qed.

(** C10.  The operations that change the system data do so only when they
    succeed: when an add-profile operation or the server-entry builder
    returns an error, the system data is what it was before the call.
    The builder's error is the one of a variant without current
    allocations. *)
Theorem C10_atomic_on_error
    (sd sd' : SystemData) (e : error) :
  (forall modelName accelerator count vp,
      SingleVariant.AddVariantProfileToSystemData ParseFloat
        sd modelName accelerator count vp = (sd', Some e) -> sd' = sd) /\
  (forall modelName ap,
      AcceleratorProfiles.AddModelAcceleratorProfileToSystemData ParseFloat
        sd modelName ap = (sd', Some e) -> sd' = sd) /\
  (forall va className,
      SingleVariant.AddServerInfoToSystemData ParseFloat env sd va className
        = (sd', Some e) -> sd' = sd) /\
  (forall va className,
      AcceleratorProfiles.AddServerInfoToSystemData ParseFloat env
        sd va className = (sd', Some e) -> sd' = sd).
Proof.
  repeat split.
  - intros. eapply AddVariantProfile_error_unchanged; eassumption.
  - intros. eapply AddModelAcceleratorProfile_error_unchanged; eassumption.
  - intros va className H.
    apply AddServerInfo_error_unchanged in H. apply H.
  - intros va className H.
    pose proof (AddServerInfo_profiles_no_error sd va className) as Hn.
    rewrite H in Hn. discriminate.
Qed.

End ProfileOutcomes.

(** ** The optimization engine *)

Section EngineProperties.

Import SingleVariant.

Variable EngineState : Type.
Variable manager_Optimize : EngineState -> EngineState * option error.
Variable system_GenerateSolution :
  EngineState -> EngineState * option AllocationSolution.
Variable ModelAnalyzeResponse : Type.
Variable CreateOptimizedAlloc_of_variant :
  Clock -> string -> string -> string -> AllocationSolution ->
  (OptimizedAlloc + error) * Clock.

Local Abbreviation Optimize :=
  (Optimize EngineState manager_Optimize system_GenerateSolution
            ModelAnalyzeResponse CreateOptimizedAlloc_of_variant).

Lemma map_len_0 {A} (m : gmap string A) : (map_len m =? 0) = true <-> m = ∅.
Proof.
  unfold map_len. rewrite Z.eqb_eq, <- map_size_empty_iff. lia.
Qed.

(** C1.  When the manager's optimization step succeeds and the solution
    generated after it is nil or has no server, [Optimize] returns the
    error "no feasible allocations found for all variants" and no
    optimized allocation.  The failure cannot be taken for a result: a
    call that returns no error had a solution with at least one server. *)
Theorem C1_empty_solution_is_an_error
    (st st1 st2 : EngineState) (clock : Clock)
    (vaList : VariantAutoscalingList)
    (analysis : gmap string ModelAnalyzeResponse)
    (sol : option AllocationSolution) :
  manager_Optimize st = (st1, None) ->
  system_GenerateSolution st1 = (st2, sol) ->
  (empty_solution sol ->
     Optimize st clock vaList analysis
       = ((Some ∅, Some no_feasible_allocations), st2, clock)) /\
  (snd (fst (fst (Optimize st clock vaList analysis))) = None ->
     exists s, sol = Some s /\ sol_Spec s <> ∅).
Proof.
  intros Hopt Hgen. unfold Optimize, SingleVariant.Optimize.
  rewrite Hopt. cbn [is_err]. rewrite Hgen.
  split.
  - intros [-> | (s & -> & Hs)]; [reflexivity |].
    rewrite (proj2 (map_len_0 (sol_Spec s)) Hs). reflexivity.
  - destruct sol as [s |]; [| cbn; discriminate].
    destruct (map_len (sol_Spec s) =? 0) eqn:E; [cbn; discriminate |].
    intros _. exists s. split; [reflexivity |].
    intros Hs. apply map_len_0 in Hs. congruence.
Qed.

(** C9.  [Optimize] never returns a nil map: the map is there on the path
    where the manager fails, on the path of the nil or empty solution
    (where it is empty) and on the path of success. *)
Theorem C9_map_never_nil
    (st : EngineState) (clock : Clock) (vaList : VariantAutoscalingList)
    (analysis : gmap string ModelAnalyzeResponse) :
  let '(result, err, _, _) := Optimize st clock vaList analysis in
  exists m : gmap string OptimizedAlloc,
    result = Some m /\ (err <> None -> m = ∅).
Proof.
  unfold SingleVariant.Optimize.
  destruct (manager_Optimize st) as [st1 [e |]]; cbn [is_err].
  - eexists; split; [reflexivity | reflexivity].
  - destruct (system_GenerateSolution st1) as [st2 [s |]].
    + destruct (map_len (sol_Spec s) =? 0).
      * eexists; split; reflexivity.
      * destruct (foldl _ _ _) as [m c].
        eexists; split; [reflexivity | intros H; congruence].
    + eexists; split; reflexivity.
Qed.

End EngineProperties.


(** ** The system-data builder *)

Section BuilderProperties.

Variable ParseFloat : string -> Z -> float64 * option error.
Variable yaml_Unmarshal : string -> ServiceClass * option error.
Variable range : forall A : Type, gmap string A -> list (string * A).

(** The loop over the accelerators keeps, in the order of the visit, the
    accelerators whose cost parses. *)
Lemma accelerator_loop (l : list (string * gmap string string)) :
  forall acc,
    foldl (accelerator_step ParseFloat) acc l
    = (acc ++ omap (accelerator_of ParseFloat) l)%list.
Proof.
  induction l as [| [key val] l IH]; intros acc; cbn [foldl omap list_omap].
  - rewrite app_nil_r. reflexivity.
  - rewrite IH. unfold accelerator_step, accelerator_of. cbn [fst snd].
    destruct (ParseFloat (map_get val "cost") 32) as [cost [e |]];
      cbn [is_err]; [reflexivity |].
    rewrite <- app_assoc. reflexivity.
Qed.

Lemma accelerator_of_name (kv : string * gmap string string)
    (spec : AcceleratorSpec) :
  accelerator_of ParseFloat kv = Some spec -> acc_Name spec = fst kv.
Proof.
  unfold accelerator_of.
  destruct (ParseFloat (map_get (snd kv) "cost") 32) as [cost [e |]];
    intros H; inversion H; reflexivity.
Qed.

Lemma accelerator_names_NoDup (l : list (string * gmap string string)) :
  NoDup (l.*1) ->
  NoDup (acc_Name <$> omap (accelerator_of ParseFloat) l).
Proof.
  induction l as [| kv l IH]; cbn [omap list_omap fmap list_fmap].
  - intros _. constructor.
  - intros Hnd. apply NoDup_cons in Hnd as [Hnotin Hnd].
    destruct (accelerator_of ParseFloat kv) as [spec |] eqn:E; [| auto].
    cbn [fmap list_fmap]. apply NoDup_cons. split; [| auto].
    intros Hin. apply Hnotin.
    apply list_elem_of_fmap in Hin as (spec' & Hname & Hin).
    apply list_elem_of_omap in Hin as (kv' & Hin & E').
    apply accelerator_of_name in E. apply accelerator_of_name in E'.
    apply list_elem_of_fmap. exists kv'. split; [congruence | exact Hin].
Qed.

(** C7 (as amended).  The builder, which has no error to return, puts into
    the system data one AcceleratorSpec for each configured accelerator
    whose cost [strconv.ParseFloat] accepts (with its name, device,
    multiplicity 1 and the cost read, which is NaN or infinite when the
    cost is spelled so), no two of one name, and none for an accelerator
    whose cost the parser rejects. *)
Theorem C7_accelerators_of_parseable_costs
    (acceleratorCm : gmap string (gmap string string))
    (serviceClassCm : gmap string string) :
  range _ acceleratorCm ≡ₚ map_to_list acceleratorCm ->
  let sd := CreateSystemData ParseFloat yaml_Unmarshal range
              acceleratorCm serviceClassCm in
  (forall spec : AcceleratorSpec,
      spec ∈ Accelerators sd <->
      exists val, acceleratorCm !! acc_Name spec = Some val /\
                  accelerator_of ParseFloat (acc_Name spec, val) = Some spec) /\
  NoDup (acc_Name <$> Accelerators sd) /\
  (forall key val,
      acceleratorCm !! key = Some val ->
      if is_err (snd (ParseFloat (map_get val "cost") 32))
      then key ∉ (acc_Name <$> Accelerators sd)
      else exists spec, spec ∈ Accelerators sd /\ acc_Name spec = key /\
                        acc_Type spec = map_get val "device" /\
                        acc_Multiplicity spec = 1 /\
                        acc_Cost spec
                        = to_float32 (fst (ParseFloat (map_get val "cost") 32))).
Proof.
  intros Hperm sd.
  assert (Accelerators sd ≡ₚ
          omap (accelerator_of ParseFloat) (map_to_list acceleratorCm)) as Hacc.
  { subst sd. cbn [CreateSystemData Accelerators].
    rewrite accelerator_loop. cbn [app]. rewrite Hperm. reflexivity. }
  assert (forall spec : AcceleratorSpec,
             spec ∈ Accelerators sd <->
             exists val, acceleratorCm !! acc_Name spec = Some val /\
                accelerator_of ParseFloat (acc_Name spec, val) = Some spec)
    as Hmem.
  { intros spec. rewrite Hacc, list_elem_of_omap. split.
    - intros ([key val] & Hin & E).
      pose proof (accelerator_of_name _ _ E) as Hn. cbn in Hn. subst key.
      apply elem_of_map_to_list in Hin. eauto.
    - intros (val & Hl & E). exists (acc_Name spec, val).
      split; [apply elem_of_map_to_list, Hl | exact E]. }
  split; [exact Hmem |]. split.
  - rewrite Hacc. apply accelerator_names_NoDup, NoDup_fst_map_to_list.
  - intros key val Hl.
    destruct (ParseFloat (map_get val "cost") 32) as [cost [e |]] eqn:E;
      cbn [snd fst is_err].
    + intros Hin. apply list_elem_of_fmap in Hin as (spec & Hname & Hin).
      apply Hmem in Hin as (val' & Hl' & E').
      rewrite <- Hname, Hl in Hl'. inversion Hl'; subst val'.
      unfold accelerator_of in E'. cbn [fst snd] in E'.
      rewrite E in E'. discriminate.
    + exists {| acc_Name := key;
                acc_Type := map_get val "device";
                acc_Multiplicity := 1;
                acc_Power := PowerSpec_zero;
                acc_Cost := to_float32 cost |}.
      split; [| cbn; repeat split; reflexivity].
      apply Hmem. cbn [acc_Name]. exists val. split; [exact Hl |].
      unfold accelerator_of. cbn [fst snd]. rewrite E. reflexivity.
Qed.

End BuilderProperties.

(** ** The minimum-replica floor *)

Section ReplicaFloor.

Variable ParseFloat : string -> Z -> float64 * option error.
Variable env : Environ.

(** C8.  The minimum-replica floor of the server entry is 0 when
    scale-to-zero is enabled for the variant and 1 otherwise.  For the
    resource that has the per-variant [EnableScaleToZero] field, the field
    decides when it is set and the global WVA_SCALE_TO_ZERO setting when it
    is not; this is what [GetMinNumReplicas] computes and what the builder
    stores.  The resource with one variant per object has no such field, and
    its builder follows the global setting. *)
Theorem C8_minimum_replica_floor
    (sd : SystemData) (className : string)
    (va : AcceleratorProfiles.VariantAutoscaling)
    (va' : SingleVariant.VariantAutoscaling) :
  let global := EqualFold (Getenv env "WVA_SCALE_TO_ZERO") "true" in
  let enabled :=
    scale_to_zero_enabled
      (AcceleratorProfiles.EnableScaleToZero (AcceleratorProfiles.Spec va))
      global in
  AcceleratorProfiles.IsScaleToZeroEnabled env va = enabled /\
  AcceleratorProfiles.GetMinNumReplicas env va = replica_floor enabled /\
  (exists srv,
      AcceleratorProfiles.AddServerInfoToSystemData ParseFloat env
        sd va className = (set_Servers sd (Servers sd ++ [srv]), None) /\
      srv_MinNumReplicas srv = replica_floor enabled) /\
  (SingleVariant.CurrentAllocs (SingleVariant.Status va') <> [] ->
   exists srv,
      SingleVariant.AddServerInfoToSystemData ParseFloat env
        sd va' className = (set_Servers sd (Servers sd ++ [srv]), None) /\
      srv_MinNumReplicas srv
      = replica_floor
          (scale_to_zero_enabled None
             (String.eqb (Getenv env "WVA_SCALE_TO_ZERO") "true"))).
Proof.
  intros global enabled.
  assert (AcceleratorProfiles.IsScaleToZeroEnabled env va = enabled) as Hen.
  { unfold AcceleratorProfiles.IsScaleToZeroEnabled, enabled,
      scale_to_zero_enabled.
    destruct (AcceleratorProfiles.EnableScaleToZero _); reflexivity. }
  assert (AcceleratorProfiles.GetMinNumReplicas env va = replica_floor enabled)
    as Hmin.
  { unfold AcceleratorProfiles.GetMinNumReplicas. rewrite Hen. reflexivity. }
  split; [exact Hen |]. split; [exact Hmin |]. split.
  - unfold AcceleratorProfiles.AddServerInfoToSystemData.
    repeat match goal with
           | |- context [let '(_, _) := ?p in _] => destruct p as [? ?]
           end.
    eexists. split; [reflexivity |]. cbn [srv_MinNumReplicas]. exact Hmin.
  - intros Hallocs. unfold SingleVariant.AddServerInfoToSystemData.
    destruct (SingleVariant.CurrentAllocs (SingleVariant.Status va'))
      as [| currentAlloc rest]; [congruence |].
    repeat match goal with
           | |- context [let '(_, _) := ?p in _] => destruct p as [? ?]
           end.
    eexists. split; [reflexivity |]. reflexivity.
Qed.

End ReplicaFloor.

(** ** The metrics collector *)

Section CollectorProperties.

Import AcceleratorProfiles.

Variables VLLMRequestSuccessTotal
          VLLMRequestGenerationTokensSum VLLMRequestGenerationTokensCount
          VLLMRequestQueueTimeSecondsSum VLLMRequestQueueTimeSecondsCount
          VLLMTimePerOutputTokenSecondsSum VLLMTimePerOutputTokenSecondsCount
          LabelModelName LabelNamespace : string.

Local Abbreviation AddMetricsToOptStatus :=
  (Collector.AddMetricsToOptStatus
     VLLMRequestSuccessTotal
     VLLMRequestGenerationTokensSum VLLMRequestGenerationTokensCount
     VLLMRequestQueueTimeSecondsSum VLLMRequestQueueTimeSecondsCount
     VLLMTimePerOutputTokenSecondsSum VLLMTimePerOutputTokenSecondsCount
     LabelModelName LabelNamespace).
Local Abbreviation arrivalQuery :=
  (Collector.arrivalQuery VLLMRequestSuccessTotal LabelModelName LabelNamespace).
Local Abbreviation avgDecToksQuery :=
  (Collector.avgDecToksQuery VLLMRequestGenerationTokensSum
     VLLMRequestGenerationTokensCount LabelModelName LabelNamespace).
Local Abbreviation ttftQuery :=
  (Collector.ttftQuery VLLMRequestQueueTimeSecondsSum
     VLLMRequestQueueTimeSecondsCount LabelModelName LabelNamespace).
Local Abbreviation itlQuery :=
  (Collector.itlQuery VLLMTimePerOutputTokenSecondsSum
     VLLMTimePerOutputTokenSecondsCount LabelModelName LabelNamespace).

Lemma FixValue_zero : FixValue zero = zero.
Proof. reflexivity. Qed.

Lemma FormatFloat_zero : FormatFloat zero "f" 2 32 = "0.00".
Proof. reflexivity. Qed.

(** C6.  When every query finds an empty vector, the collection succeeds
    and the arrival rate, the average input and output tokens and the ITL
    and TTFT averages of the allocation it returns all read "0.00".  (The
    deployment has its replica count set, as the API server sets it.) *)
Theorem C6_empty_vectors_read_zero
    (clock : Clock) (opt : VariantAutoscaling) (deployment : Deployment)
    (acceleratorCostVal : float64) (promAPI : PromAPI) (replicas : Z) :
  (forall query t, exists warn,
      Query promAPI query t = (Some (model.Vector []), warn, None)) ->
  dep_Replicas deployment = Some replicas ->
  exists alloc,
    fst (AddMetricsToOptStatus clock opt deployment acceleratorCostVal promAPI)
      = Returns (alloc, None) /\
    ArrivalRate (alloc_Load alloc) = "0.00" /\
    AvgInputTokens (alloc_Load alloc) = "0.00" /\
    AvgOutputTokens (alloc_Load alloc) = "0.00" /\
    alloc_ITLAverage alloc = "0.00" /\
    alloc_TTFTAverage alloc = "0.00".
Proof.
  intros Hempty Hreplicas. unfold Collector.AddMetricsToOptStatus.
  cbn [Now].
  repeat match goal with
         | |- context [Query promAPI ?q ?t] =>
             let w := fresh "warn" in let H := fresh "Hq" in
             destruct (Hempty q t) as [w H]; rewrite H; clear H;
             cbn [Collector.vector_guard is_err Now]
         end.
  rewrite Hreplicas. cbn [fst].
  eexists. split; [reflexivity |].
  cbn [alloc_Load ArrivalRate AvgInputTokens AvgOutputTokens
       alloc_ITLAverage alloc_TTFTAverage].
  rewrite !FixValue_zero, !FormatFloat_zero. repeat split; reflexivity.
Qed.

(** C5 (as amended).  A failure of the waiting-time (TTFT) query or of the
    ITL query does not fail the collection: the value reads "0.00" and the
    allocation is populated (accelerator, replicas, batch size, cost) from
    the deployment.  A failure of the arrival-rate query, or of the token
    query, fails the collection: the error is returned with an empty
    allocation. *)
Theorem C5_latency_failures_tolerated
    (clock : Clock) (opt : VariantAutoscaling) (deployment : Deployment)
    (acceleratorCostVal : float64) (promAPI : PromAPI) :
  let modelName := ModelID (Spec opt) in
  let ns := dep_Namespace deployment in
  let t0 := readings clock (reads clock) in
  let t1 := readings clock (S (reads clock)) in
  let t2 := readings clock (S (S (reads clock))) in
  let t3 := readings clock (S (S (S (reads clock)))) in
  let result :=
    fst (AddMetricsToOptStatus clock opt deployment acceleratorCostVal promAPI)
  in
  (forall vec1 w1 vec2 w2 val3 w3 err3 val4 w4 err4 replicas,
      Query promAPI (arrivalQuery modelName ns) t0
        = (Some (model.Vector vec1), w1, None) ->
      Query promAPI (avgDecToksQuery modelName ns) t1
        = (Some (model.Vector vec2), w2, None) ->
      Query promAPI (ttftQuery modelName ns) t2 = (val3, w3, err3) ->
      Query promAPI (itlQuery modelName ns) t3 = (val4, w4, err4) ->
      (is_err err3 = true \/ val3 <> None) ->
      (is_err err4 = true \/ val4 <> None) ->
      dep_Replicas deployment = Some replicas ->
      exists alloc,
        result = Returns (alloc, None) /\
        alloc_Accelerator alloc
          = map_get (Labels opt) "inference.optimization/acceleratorName" /\
        alloc_NumReplicas alloc = replicas /\
        alloc_MaxBatch alloc = 256 /\
        alloc_VariantCost alloc
          = FormatFloat (mul64 (of_int replicas) acceleratorCostVal) "f" 2 32 /\
        (is_err err3 = true -> alloc_TTFTAverage alloc = "0.00") /\
        (is_err err4 = true -> alloc_ITLAverage alloc = "0.00")) /\
  (forall val w e,
      Query promAPI (arrivalQuery modelName ns) t0 = (val, w, Some e) ->
      result = Returns (Allocation_zero, Some e)) /\
  (forall vec1 w1 val w e,
      Query promAPI (arrivalQuery modelName ns) t0
        = (Some (model.Vector vec1), w1, None) ->
      Query promAPI (avgDecToksQuery modelName ns) t1 = (val, w, Some e) ->
      result = Returns (Allocation_zero, Some e)).
Proof.
  intros modelName ns t0 t1 t2 t3 result.
  subst result t0 t1 t2 t3 modelName ns.
  unfold Collector.AddMetricsToOptStatus. cbn [Now readings reads].
  split; [| split].
  - intros vec1 w1 vec2 w2 val3 w3 err3 val4 w4 err4 replicas
      H1 H2 H3 H4 Hq3 Hq4 Hreplicas.
    rewrite H1. cbn [Collector.vector_guard is_err].
    rewrite H2. cbn [Collector.vector_guard is_err].
    rewrite H3, H4, Hreplicas.
    assert (Collector.vector_guard val3 err3 <> Collector.NilValue) as G3.
    { unfold Collector.vector_guard.
      destruct err3 as [e |]; cbn [is_err]; [discriminate |].
      destruct Hq3 as [Hq3 | Hq3]; [discriminate |].
      destruct val3 as [[| | |] |]; congruence. }
    assert (Collector.vector_guard val4 err4 <> Collector.NilValue) as G4.
    { unfold Collector.vector_guard.
      destruct err4 as [e |]; cbn [is_err]; [discriminate |].
      destruct Hq4 as [Hq4 | Hq4]; [discriminate |].
      destruct val4 as [[| | |] |]; congruence. }
    assert (is_err err3 = true ->
            Collector.vector_guard val3 err3 = Collector.NotVector) as F3.
    { intros E. unfold Collector.vector_guard. rewrite E. reflexivity. }
    assert (is_err err4 = true ->
            Collector.vector_guard val4 err4 = Collector.NotVector) as F4.
    { intros E. unfold Collector.vector_guard. rewrite E. reflexivity. }
    destruct (Collector.vector_guard val3 err3) as [v3 | |] eqn:E3;
      [| | congruence];
      (destruct (Collector.vector_guard val4 err4) as [v4 | |] eqn:E4;
       [| | congruence]);
      cbn [fst]; eexists; (split; [reflexivity |]);
      cbn [alloc_Accelerator alloc_NumReplicas alloc_MaxBatch alloc_VariantCost
           alloc_TTFTAverage alloc_ITLAverage];
      repeat split;
      try (intros E; specialize (F3 E); discriminate);
      try (intros E; specialize (F4 E); discriminate);
      intros _; rewrite FixValue_zero; apply FormatFloat_zero.
  - intros val w e H1. rewrite H1. reflexivity.
  - intros vec1 w1 val w e H1 H2.
    rewrite H1. cbn [Collector.vector_guard is_err].
    rewrite H2. reflexivity.
Qed.

End CollectorProperties.

(* ================================================================== *)
(** * Runs on the sample inputs                                        *)
(* ================================================================== *)

(** ** The values the collector's tests expect *)

Example format_80 : FormatFloat (mul64 (of_int 2) (of_int 40)) "f" 2 32 = "80.00".
Proof. vm_compute. reflexivity. Qed.

Example format_neg : FormatFloat (f_ratio (-153) 10) "f" 2 32 = "-15.30".
Proof. vm_compute. reflexivity. Qed.

Example format_nan : FormatFloat S754_nan "f" 2 32 = "NaN".
Proof. reflexivity. Qed.

Example FixValue_examples :
  FixValue S754_nan = zero /\
  FixValue (S754_infinity false) = zero /\
  FixValue (S754_infinity true) = zero /\
  FixValue (f_ratio 425 10) = f_ratio 425 10 /\
  FixValue zero = zero /\
  FixValue (f_ratio (-153) 10) = f_ratio (-153) 10.
Proof. vm_compute. repeat split; reflexivity. Qed.

(** "should collect metrics successfully" *)
Example collects_metrics :
  fst (Sample.AddMetricsToOptStatus (Reference.clock_from 0)
         (Sample.model_variant None) Sample.deployment Sample.accCost
         Sample.prom_ok)
  = Returns
      ({| AcceleratorProfiles.alloc_Accelerator := "A100";
          AcceleratorProfiles.alloc_NumReplicas := 2;
          AcceleratorProfiles.alloc_MaxBatch := 256;
          AcceleratorProfiles.alloc_VariantCost := "80.00";
          AcceleratorProfiles.alloc_ITLAverage := "50.00";
          AcceleratorProfiles.alloc_TTFTAverage := "500.00";
          AcceleratorProfiles.alloc_Load :=
            {| ArrivalRate := "10.50"; AvgInputTokens := "0.00";
               AvgOutputTokens := "150.00" |} |}, None).
Proof. vm_compute. reflexivity. Qed.

(** The reference parser on the strings of a status. *)
Example parses :
  Reference.ParseFloat "80.00" 32 = (of_int 80, None) /\
  Reference.ParseFloat "+Inf" 32 = (S754_infinity false, None) /\
  Reference.ParseFloat "NaN" 32 = (S754_nan, None) /\
  is_err (snd (Reference.ParseFloat "n/a" 32)) = true /\
  is_err (snd (Reference.ParseFloat "" 32)) = true /\
  is_err (snd (Reference.ParseFloat "abc" 32)) = true.
Proof. vm_compute. repeat split; reflexivity. Qed.

(** ** The engine on a sample *)

(** The engine on an optimizer that succeeds without a solution. *)
Lemma C1_witness :
  Sample.optimizer_ok tt = (tt, None) /\
  Sample.solution_of None tt = (tt, None) /\
  empty_solution None /\
  Sample.Optimize None (Reference.clock_from 0) Sample.vaList ∅
  = ((Some ∅, Some no_feasible_allocations), tt, Reference.clock_from 0).
Proof.
  split; [reflexivity |]. split; [reflexivity |].
  split; [left; reflexivity |].
  apply (proj1 (C1_empty_solution_is_an_error
                  unit Sample.optimizer_ok (Sample.solution_of None) unit
                  Sample.adapter
                  tt tt tt (Reference.clock_from 0) Sample.vaList ∅ None
                  eq_refl eq_refl)).
  left; reflexivity.
Defined.

(** Two runs on the same engine state and the same variants, one with the
    clock at 0 and one with the clock at 100: the optimized allocations
    differ, in [LastRunTime]. *)
Example runs_differ_in_LastRunTime :
  let run t :=
    fst (fst (fst (Sample.Optimize (Some Sample.solution)
                     (Reference.clock_from t) Sample.vaList ∅))) in
  let stamp (result : option (gmap string SingleVariant.OptimizedAlloc)) :=
    match result with
    | Some m => SingleVariant.LastRunTime <$> m !! "test"
    | None => None
    end in
  stamp (run 0) = Some 0 /\ stamp (run 100) = Some 100 /\ run 0 <> run 100 /\
  decisions (run 0) = decisions (run 100).
Proof.
  cbv zeta.
  assert (match fst (fst (fst (Sample.Optimize (Some Sample.solution)
                           (Reference.clock_from 0) Sample.vaList ∅))) with
          | Some m => SingleVariant.LastRunTime <$> m !! "test"
          | None => None
          end = Some 0) as H0 by (vm_compute; reflexivity).
  assert (match fst (fst (fst (Sample.Optimize (Some Sample.solution)
                           (Reference.clock_from 100) Sample.vaList ∅))) with
          | Some m => SingleVariant.LastRunTime <$> m !! "test"
          | None => None
          end = Some 100) as H100 by (vm_compute; reflexivity).
  split; [exact H0 |]. split; [exact H100 |]. split.
  - intros Heq. rewrite Heq in H0.
    assert (Some 0 = Some 100) as Habs by (rewrite <- H0; exact H100).
    clear - Habs. inversion Habs.
  - vm_compute. reflexivity.
Qed.

(** ** The add-profile operations on samples *)

(** C3, counterexample.  The entry "NaN" is no decimal number; the profile
    that has it for alpha is added by both operations, without an error,
    with NaN for the coefficient. *)
Lemma C3_NaN_coefficient_is_accepted :
  decimal_string "NaN" = false /\
  pp_DecodeParms (SingleVariant.vp_PerfParms Sample.profile_nan) !! "alpha"
  = Some "NaN" /\
  (let r := SingleVariant.AddVariantProfileToSystemData Reference.ParseFloat
              Sample.sd0 "default/default" "A100" 1 Sample.profile_nan in
   snd r = None /\
   perf_DecodeParms <$> PerfData (fst r)
   = [ {| Alpha := S754_nan; Beta := to_float32 (f_ratio 1 4) |} ]) /\
  (let r := AcceleratorProfiles.AddModelAcceleratorProfileToSystemData
              Reference.ParseFloat Sample.sd0 "default/default"
              Sample.acc_profile_nan in
   snd r = None /\
   perf_DecodeParms <$> PerfData (fst r)
   = [ {| Alpha := S754_nan; Beta := to_float32 (f_ratio 1 4) |} ]).
Proof. vm_compute. repeat split; reflexivity. Qed.

Lemma C3_witness :
  malformed Reference.ParseFloat Sample.parms_not_a_number /\
  malformed Reference.ParseFloat Sample.parms_short /\
  (let r := SingleVariant.AddVariantProfileToSystemData Reference.ParseFloat
              Sample.sd0 "default/default" "A100" 1
              Sample.profile_not_a_number in
   is_err (snd r) = true /\ fst r = Sample.sd0) /\
  (let r := AcceleratorProfiles.AddModelAcceleratorProfileToSystemData
              Reference.ParseFloat Sample.sd0 "default/default"
              Sample.acc_profile_short in
   is_err (snd r) = true /\ fst r = Sample.sd0).
Proof.
  assert (malformed Reference.ParseFloat Sample.parms_not_a_number) as H1.
  { right; right; left. vm_compute. reflexivity. }
  assert (malformed Reference.ParseFloat Sample.parms_short) as H2.
  { left. vm_compute. lia. }
  split; [exact H1 |]. split; [exact H2 |].
  pose proof (C3_malformed_profile_rejected Reference.ParseFloat
                Sample.sd0 "default/default" "A100" 1
                Sample.profile_not_a_number Sample.acc_profile_short)
    as [Hv Hm].
  specialize (Hv H1). specialize (Hm H2). cbv zeta in Hv, Hm.
  destruct Hv as (He & Hsd & _). destruct Hm as (He' & Hsd' & _).
  cbv zeta. repeat split; assumption.
Defined.

(** A rejected profile, and after it one that is added. *)
Example rejected_then_added :
  let '(sd1, err1) :=
    SingleVariant.AddVariantProfileToSystemData Reference.ParseFloat
      Sample.sd0 "default/default" "A100" 1 Sample.profile_not_a_number in
  let '(sd2, err2) :=
    SingleVariant.AddVariantProfileToSystemData Reference.ParseFloat
      sd1 "default/default" "H100" 1 Sample.profile_ok in
  is_err err1 = true /\ err2 = None /\
  perf_Acc <$> PerfData sd2 = ["H100"].
Proof. vm_compute. repeat split; reflexivity. Qed.

(** The spellings of NaN and of the infinities are numbers to
    [strconv.ParseFloat]: a coefficient so spelled is added as it is. *)
Example nan_coefficient_is_added :
  let '(sd1, err1) :=
    SingleVariant.AddVariantProfileToSystemData Reference.ParseFloat
      Sample.sd0 "default/default" "A100" 1 Sample.profile_nan in
  err1 = None /\
  (Alpha <$> (perf_DecodeParms <$> PerfData sd1)) = [S754_nan].
Proof. vm_compute. split; reflexivity. Qed.

(** ** Sanitization on a sample *)

(** The status of [Sample.variant] has a TTFT average that is infinite, an
    ITL average that is no number and no average of input tokens: zero
    enters the system data for the three. *)
Lemma C4_witness :
  is_float64 S754_nan = true /\
  SingleVariant.CurrentAllocs (SingleVariant.Status Sample.variant)
    = [Sample.allocation] /\
  Forall (fun s => is_float64 (fst (Reference.ParseFloat s 32)) = true)
         (numeric_inputs Sample.variant Sample.allocation) /\
  FixValue S754_nan = zero /\
  CheckValue S754_nan = false /\
  exists srv,
    SingleVariant.AddServerInfoToSystemData Reference.ParseFloat ∅
      Sample.sd0 Sample.variant "premium"
      = (set_Servers Sample.sd0 [srv], None) /\
    ad_TTFTAverage (srv_CurrentAlloc srv) = zero /\
    ad_ITLAverage (srv_CurrentAlloc srv) = zero /\
    load_AvgInTokens (ad_Load (srv_CurrentAlloc srv)) = 0 /\
    load_AvgOutTokens (ad_Load (srv_CurrentAlloc srv)) = 150 /\
    ad_Cost (srv_CurrentAlloc srv) = to_float32 (of_int 80).
Proof.
  assert (Forall (fun s => is_float64 (fst (Reference.ParseFloat s 32)) = true)
                 (numeric_inputs Sample.variant Sample.allocation)) as Hvalid.
  { repeat constructor; vm_compute; reflexivity. }
  split; [reflexivity |]. split; [reflexivity |]. split; [exact Hvalid |].
  destruct (C4_sanitization Reference.ParseFloat ∅ S754_nan Sample.sd0
              Sample.variant "premium" Sample.allocation []
              eq_refl eq_refl Hvalid)
    as (Hfix & _ & Hcheck & srv & Hsrv & Har & Hin & Hout & Hcost & Hitl & Httft).
  split; [apply Hfix; left; reflexivity |].
  split.
  { destruct (CheckValue S754_nan) eqn:E; [| reflexivity].
    exfalso. apply (proj1 Hcheck). reflexivity. }
  exists srv. split; [exact Hsrv |].
  cbv zeta in Har, Hin, Hout, Hcost, Hitl, Httft.
  rewrite Httft, Hitl, Hin, Hout, Hcost.
  vm_compute. repeat split; reflexivity.
Defined.

(** ** The collector on samples *)

(** C5, counterexample ("should handle Prometheus Query errors").  The
    arrival-rate query fails: the collection returns the error and an empty
    allocation, not a populated one. *)
Lemma C5_arrival_error_fails_collection :
  fst (fst (Query Sample.prom_arrival_fails
              (Sample.arrivalQuery "default/default" "default") 0))
    = None /\
  snd (Query Sample.prom_arrival_fails
         (Sample.arrivalQuery "default/default" "default") 0)
    = Some "prometheus connection failed" /\
  fst (Sample.AddMetricsToOptStatus (Reference.clock_from 0)
         (Sample.model_variant None) Sample.deployment Sample.accCost
         Sample.prom_arrival_fails)
  = Returns (AcceleratorProfiles.Allocation_zero,
             Some "prometheus connection failed").
Proof. vm_compute. repeat split; reflexivity. Qed.

(** The latency queries fail, the others answer: the allocation is
    populated and the latencies read "0.00". *)
Lemma C5_witness :
  snd (Query Sample.prom_latency_fails
         (Sample.ttftQuery "default/default" "default") 2)
    = Some "query timed out" /\
  snd (Query Sample.prom_latency_fails
         (Sample.itlQuery "default/default" "default") 3)
    = Some "query timed out" /\
  exists alloc,
    fst (Sample.AddMetricsToOptStatus (Reference.clock_from 0)
           (Sample.model_variant None) Sample.deployment Sample.accCost
           Sample.prom_latency_fails)
    = Returns (alloc, None) /\
    AcceleratorProfiles.alloc_Accelerator alloc = "A100" /\
    AcceleratorProfiles.alloc_NumReplicas alloc = 2 /\
    AcceleratorProfiles.alloc_MaxBatch alloc = 256 /\
    AcceleratorProfiles.alloc_VariantCost alloc = "80.00" /\
    AcceleratorProfiles.alloc_TTFTAverage alloc = "0.00" /\
    AcceleratorProfiles.alloc_ITLAverage alloc = "0.00".
Proof.
  split; [vm_compute; reflexivity |]. split; [vm_compute; reflexivity |].
  pose proof (C5_latency_failures_tolerated
                Sample.VLLMRequestSuccessTotal
                Sample.VLLMRequestGenerationTokensSum
                Sample.VLLMRequestGenerationTokensCount
                Sample.VLLMRequestQueueTimeSecondsSum
                Sample.VLLMRequestQueueTimeSecondsCount
                Sample.VLLMTimePerOutputTokenSecondsSum
                Sample.VLLMTimePerOutputTokenSecondsCount
                Sample.LabelModelName Sample.LabelNamespace
                (Reference.clock_from 0) (Sample.model_variant None)
                Sample.deployment Sample.accCost Sample.prom_latency_fails)
    as H.
  cbv zeta in H. destruct H as [H _].
  destruct (H _ [] _ [] None [] (Some "query timed out")
              None [] (Some "query timed out") 2
              ltac:(vm_compute; reflexivity) ltac:(vm_compute; reflexivity)
              ltac:(vm_compute; reflexivity) ltac:(vm_compute; reflexivity)
              ltac:(left; reflexivity) ltac:(left; reflexivity)
              ltac:(reflexivity))
    as (alloc & Hr & Hacc & Hn & Hb & Hcost & Httft & Hitl).
  exists alloc. split; [exact Hr |].
  split; [rewrite Hacc; vm_compute; reflexivity |].
  split; [exact Hn |]. split; [exact Hb |].
  split; [rewrite Hcost; vm_compute; reflexivity |].
  split; [apply Httft; reflexivity | apply Hitl; reflexivity].
Defined.

(** "should handle empty metric results gracefully" *)
Lemma C6_witness :
  (forall query t, exists warn,
      Query Sample.prom_empty query t = (Some (model.Vector []), warn, None)) /\
  dep_Replicas Sample.deployment = Some 2 /\
  exists alloc,
    fst (Sample.AddMetricsToOptStatus (Reference.clock_from 0)
           (Sample.model_variant None) Sample.deployment Sample.accCost
           Sample.prom_empty)
    = Returns (alloc, None) /\
    ArrivalRate (AcceleratorProfiles.alloc_Load alloc) = "0.00" /\
    AvgInputTokens (AcceleratorProfiles.alloc_Load alloc) = "0.00" /\
    AvgOutputTokens (AcceleratorProfiles.alloc_Load alloc) = "0.00" /\
    AcceleratorProfiles.alloc_ITLAverage alloc = "0.00" /\
    AcceleratorProfiles.alloc_TTFTAverage alloc = "0.00".
Proof.
  assert (forall query t, exists warn,
             Query Sample.prom_empty query t
             = (Some (model.Vector []), warn, None)) as Hempty.
  { intros query t. exists []. reflexivity. }
  split; [exact Hempty |]. split; [reflexivity |].
  exact (C6_empty_vectors_read_zero
           Sample.VLLMRequestSuccessTotal
           Sample.VLLMRequestGenerationTokensSum
           Sample.VLLMRequestGenerationTokensCount
           Sample.VLLMRequestQueueTimeSecondsSum
           Sample.VLLMRequestQueueTimeSecondsCount
           Sample.VLLMTimePerOutputTokenSecondsSum
           Sample.VLLMTimePerOutputTokenSecondsCount
           Sample.LabelModelName Sample.LabelNamespace
           (Reference.clock_from 0) (Sample.model_variant None)
           Sample.deployment Sample.accCost Sample.prom_empty 2
           Hempty eq_refl).
Defined.

(** ** The builder on samples *)

(** Of the two configured accelerators, the one whose cost is a number is
    in the system data and the other is not. *)
Lemma C7_witness :
  Permutation (Reference.range (gmap string string) Sample.acceleratorCm)
              (map_to_list Sample.acceleratorCm) /\
  (let sd := CreateSystemData Reference.ParseFloat Reference.yaml_Unmarshal
               Reference.range Sample.acceleratorCm ∅ in
   NoDup (acc_Name <$> Accelerators sd) /\
   ("G2" ∉ (acc_Name <$> Accelerators sd)) /\
   exists spec, spec ∈ Accelerators sd /\ acc_Name spec = "A100" /\
                acc_Type spec = "NVIDIA-A100-PCIE-80GB" /\
                acc_Multiplicity spec = 1 /\
                acc_Cost spec = to_float32 (of_int 40)).
Proof.
  split; [reflexivity |].
  destruct (C7_accelerators_of_parseable_costs
              Reference.ParseFloat Reference.yaml_Unmarshal Reference.range
              Sample.acceleratorCm ∅ (reflexivity _))
    as (_ & Hnodup & Hall).
  assert (Sample.acceleratorCm !! "G2" = Some Sample.g2_config) as Hg2
    by (vm_compute; reflexivity).
  assert (Sample.acceleratorCm !! "A100" = Some Sample.a100_config) as Ha100
    by (vm_compute; reflexivity).
  apply Hall in Hg2. apply Hall in Ha100.
  replace (is_err (snd (Reference.ParseFloat
                          (map_get Sample.g2_config "cost") 32)))
    with true in Hg2 by (vm_compute; reflexivity).
  replace (is_err (snd (Reference.ParseFloat
                          (map_get Sample.a100_config "cost") 32)))
    with false in Ha100 by (vm_compute; reflexivity).
  cbv zeta. split; [exact Hnodup |]. split; [exact Hg2 |].
  destruct Ha100 as (spec & Hin & Hname & Htype & Hmult & Hcost).
  exists spec. split; [exact Hin |]. split; [exact Hname |].
  split; [rewrite Htype; vm_compute; reflexivity |].
  split; [exact Hmult |].
  rewrite Hcost. vm_compute. reflexivity.
Defined.

(** C7, counterexample.  The cost "NaN" is no decimal number; the
    accelerator that has it is not skipped: it gets a specification, whose
    cost is NaN. *)
Lemma C7_NaN_cost_is_kept :
  decimal_string "NaN" = false /\
  Sample.nan_config !! "cost" = Some "NaN" /\
  Accelerators
    (CreateSystemData Reference.ParseFloat Reference.yaml_Unmarshal
       Reference.range {[ "MI300X" := Sample.nan_config ]} ∅)
  = [ {| acc_Name := "MI300X"; acc_Type := "AMD-MI300X-192GB";
         acc_Multiplicity := 1; acc_Power := PowerSpec_zero;
         acc_Cost := S754_nan |} ].
Proof. vm_compute. repeat split; reflexivity. Qed.

(** A cost that is a decimal number, and too large for a [float32], is
    rejected by the parser: the accelerator is skipped. *)
Example huge_cost_is_skipped :
  decimal_string "1000000000000000000000000000000000000000" = true /\
  Accelerators
    (CreateSystemData Reference.ParseFloat Reference.yaml_Unmarshal
       Reference.range {[ "H100" := Sample.huge_config ]} ∅)
  = [].
Proof. vm_compute. split; reflexivity. Qed.

Example decimal_strings :
  decimal_string "40.00" = true /\ decimal_string "7" = true /\
  decimal_string "" = false /\ decimal_string "4." = false /\
  decimal_string ".5" = false /\ decimal_string "abc" = false /\
  decimal_string "+Inf" = false.
Proof. vm_compute. repeat split; reflexivity. Qed.

Example builds_system_data :
  acc_Name <$> Accelerators
    (CreateSystemData Reference.ParseFloat Reference.yaml_Unmarshal
       Reference.range Sample.acceleratorCm ∅) = ["A100"].
Proof. vm_compute. reflexivity. Qed.

(** The floor with the global setting on: a variant that sets
    [EnableScaleToZero] to false keeps one replica, a variant that does not
    set it may go to zero. *)
Lemma C8_witness :
  let env : Environ := {[ "WVA_SCALE_TO_ZERO" := "true" ]} in
  SingleVariant.CurrentAllocs (SingleVariant.Status Sample.variant) <> [] /\
  AcceleratorProfiles.GetMinNumReplicas env (Sample.model_variant (Some false))
    = 1 /\
  AcceleratorProfiles.GetMinNumReplicas env (Sample.model_variant None) = 0 /\
  (exists srv,
      AcceleratorProfiles.AddServerInfoToSystemData Reference.ParseFloat env
        Sample.sd0 (Sample.model_variant (Some false)) "premium"
        = (set_Servers Sample.sd0 [srv], None) /\
      srv_MinNumReplicas srv = 1) /\
  (exists srv,
      SingleVariant.AddServerInfoToSystemData Reference.ParseFloat env
        Sample.sd0 Sample.variant "premium"
        = (set_Servers Sample.sd0 [srv], None) /\
      srv_MinNumReplicas srv = 0).
Proof.
  cbv zeta.
  assert (SingleVariant.CurrentAllocs (SingleVariant.Status Sample.variant)
          <> []) as Hallocs by discriminate.
  split; [exact Hallocs |].
  pose proof (C8_minimum_replica_floor Reference.ParseFloat
                {[ "WVA_SCALE_TO_ZERO" := "true" ]} Sample.sd0 "premium"
                (Sample.model_variant (Some false)) Sample.variant) as Hoff.
  pose proof (C8_minimum_replica_floor Reference.ParseFloat
                {[ "WVA_SCALE_TO_ZERO" := "true" ]} Sample.sd0 "premium"
                (Sample.model_variant None) Sample.variant) as Hunset.
  cbv zeta in Hoff, Hunset.
  destruct Hoff as (_ & Hmin_off & (srv & Hsrv & Hfloor) & Hsingle).
  destruct Hunset as (_ & Hmin_unset & _ & _).
  destruct (Hsingle Hallocs) as (srv' & Hsrv' & Hfloor').
  split; [rewrite Hmin_off; reflexivity |].
  split; [rewrite Hmin_unset; vm_compute; reflexivity |].
  split.
  - exists srv. split; [exact Hsrv |]. rewrite Hfloor. reflexivity.
  - exists srv'. split; [exact Hsrv' |]. rewrite Hfloor'.
    vm_compute. reflexivity.
Defined.

(** The global setting is read without regard to case where the variant
    has the per-variant field, and literally where it has not. *)
Example global_setting_spelling :
  let env : Environ := {[ "WVA_SCALE_TO_ZERO" := "TRUE" ]} in
  AcceleratorProfiles.GetMinNumReplicas env (Sample.model_variant None) = 0 /\
  srv_MinNumReplicas <$>
    Servers (fst (SingleVariant.AddServerInfoToSystemData Reference.ParseFloat
                    env Sample.sd0 Sample.variant "premium")) = [1].
Proof. vm_compute. split; reflexivity. Qed.

(** A variant without current allocation: the builder reports it and the
    system data is as before. *)
Lemma C10_witness :
  SingleVariant.AddServerInfoToSystemData Reference.ParseFloat ∅
    Sample.sd0 Sample.variant_without_allocation "premium"
  = (Sample.sd0, Some "no current allocations found for variant test") /\
  SingleVariant.AddVariantProfileToSystemData Reference.ParseFloat
    Sample.sd0 "default/default" "A100" 1 Sample.profile_not_a_number
  = (Sample.sd0, snd (Reference.ParseFloat "abc" 32)) /\
  Sample.sd0 = Sample.sd0.
Proof.
  split; [vm_compute; reflexivity |]. split; [vm_compute; reflexivity |].
  exact (proj1 (proj2 (proj2 (C10_atomic_on_error Reference.ParseFloat ∅
                                Sample.sd0 Sample.sd0
                                "no current allocations found for variant test")))
           Sample.variant_without_allocation "premium"
           ltac:(vm_compute; reflexivity)).
Defined.

(* ================================================================== *)
(** * Properties of the further code                                   *)
(* ================================================================== *)

(** ** Resource names *)

(** Splits on the comparisons of integers of the goal and of the
    hypotheses. *)
Ltac split_comparisons :=
  repeat match goal with
    | |- context [?a <=? ?b] => destruct (Z.leb_spec a b)
    | |- context [?a =? ?b] => destruct (Z.eqb_spec a b)
    | H : context [?a <=? ?b] |- _ => destruct (Z.leb_spec a b)
    | H : context [?a =? ?b] |- _ => destruct (Z.eqb_spec a b)
    end;
  cbn in *; try lia; try congruence.

Lemma TrimLeft_hyphen_decomp (l : list rune) :
  exists k, l = (k ++ TrimLeft_hyphen l)%list /\ Forall (fun r => r = 45) k.
Proof.
  induction l as [| r l (k & Hl & Hk)]; cbn [TrimLeft_hyphen].
  - exists []. split; [reflexivity | constructor].
  - destruct (Z.eqb_spec r 45) as [-> | Hne].
    + exists (45 :: k). split; [cbn; f_equal; exact Hl | constructor; auto].
    + exists []. split; [reflexivity | constructor].
Qed.

Lemma TrimLeft_hyphen_head (l : list rune) :
  head (TrimLeft_hyphen l) <> Some 45.
Proof.
  induction l as [| r l IH]; cbn [TrimLeft_hyphen]; [discriminate |].
  destruct (Z.eqb_spec r 45) as [-> | Hne]; [exact IH |].
  cbn. congruence.
Qed.

Lemma TrimLeft_hyphen_id (l : list rune) :
  head l <> Some 45 -> TrimLeft_hyphen l = l.
Proof.
  destruct l as [| r l]; cbn [TrimLeft_hyphen head]; [reflexivity |].
  intros H. destruct (Z.eqb_spec r 45) as [-> | Hne]; [| reflexivity].
  exfalso. apply H. reflexivity.
Qed.

Lemma TrimLeft_hyphen_last (l : list rune) :
  TrimLeft_hyphen l <> [] -> last (TrimLeft_hyphen l) = last l.
Proof.
  intros Hne. destruct (TrimLeft_hyphen_decomp l) as (k & Hl & _).
  rewrite Hl at 2. rewrite last_app.
  destruct (last (TrimLeft_hyphen l)) eqn:E; [reflexivity |].
  apply last_None in E. contradiction.
Qed.

Lemma TrimLeft_hyphen_Forall (P : rune -> Prop) (l : list rune) :
  Forall P l -> Forall P (TrimLeft_hyphen l).
Proof.
  intros H. destruct (TrimLeft_hyphen_decomp l) as (k & Hl & _).
  rewrite Hl in H. apply Forall_app in H. apply H.
Qed.

Lemma TrimLeft_hyphen_length (l : list rune) :
  (length (TrimLeft_hyphen l) <= length l)%nat.
Proof.
  destruct (TrimLeft_hyphen_decomp l) as (k & Hl & _).
  rewrite Hl at 2. rewrite length_app. lia.
Qed.

Lemma Trim_hyphen_head (l : list rune) : head (Trim_hyphen l) <> Some 45.
Proof.
  unfold Trim_hyphen. rewrite head_reverse.
  destruct (TrimLeft_hyphen (reverse (TrimLeft_hyphen l))) as [| r t] eqn:E;
    [discriminate |].
  rewrite <- E, TrimLeft_hyphen_last by (rewrite E; discriminate).
  rewrite last_reverse. apply TrimLeft_hyphen_head.
Qed.

Lemma Trim_hyphen_last (l : list rune) : last (Trim_hyphen l) <> Some 45.
Proof.
  unfold Trim_hyphen. rewrite last_reverse. apply TrimLeft_hyphen_head.
Qed.

Lemma Trim_hyphen_idempotent (l : list rune) :
  Trim_hyphen (Trim_hyphen l) = Trim_hyphen l.
Proof.
  pose proof (Trim_hyphen_head l) as Hh.
  unfold Trim_hyphen at 1. rewrite (TrimLeft_hyphen_id _ Hh).
  unfold Trim_hyphen. rewrite reverse_involutive.
  rewrite (TrimLeft_hyphen_id (TrimLeft_hyphen _))
    by apply TrimLeft_hyphen_head.
  reflexivity.
Qed.

Lemma Trim_hyphen_Forall (P : rune -> Prop) (l : list rune) :
  Forall P l -> Forall P (Trim_hyphen l).
Proof.
  intros H. unfold Trim_hyphen.
  apply Forall_reverse, TrimLeft_hyphen_Forall, Forall_reverse,
    TrimLeft_hyphen_Forall, H.
Qed.

Lemma filter_name_rune_Forall (l : list rune) :
  Forall (fun r => name_rune r = true) (List.filter name_rune l).
Proof.
  apply Forall_forall. intros r Hin.
  apply list_elem_of_In, filter_In in Hin. apply Hin.
Qed.

Lemma filter_all (l : list rune) :
  Forall (fun r => name_rune r = true) l -> List.filter name_rune l = l.
Proof.
  induction 1 as [| r l Hr _ IH]; cbn; [reflexivity |].
  rewrite Hr, IH. reflexivity.
Qed.

Lemma map_fixed (g : rune -> rune) (l : list rune) :
  Forall (fun r => g r = r) l -> map g l = l.
Proof.
  induction 1 as [| r l Hr _ IH]; cbn; [reflexivity |].
  rewrite Hr, IH. reflexivity.
Qed.

Section ResourceNames.

Variable tables : rune -> rune.

Lemma suggested_name_runes (variantID : list rune) :
  Forall (fun r => name_rune r = true)
         (SuggestResourceNameFromVariantID tables variantID).
Proof.
  unfold SuggestResourceNameFromVariantID.
  apply Trim_hyphen_Forall, filter_name_rune_Forall.
Qed.

(** X1.  Whatever the variant identifier, the suggested resource name is
    made of lower-case letters, digits and hyphens only, neither starts
    nor ends with a hyphen, and has no more runes than the identifier.
    (It may be empty, and it is not cut to the 63 characters of a DNS
    label.) *)
Theorem suggested_name_characters (variantID : list rune) :
  let name := SuggestResourceNameFromVariantID tables variantID in
  Forall (fun r => name_rune r = true) name /\
  head name <> Some 45 /\ last name <> Some 45 /\
  (length name <= length variantID)%nat.
Proof.
  cbv zeta. unfold SuggestResourceNameFromVariantID.
  split; [| split; [| split]].
  - apply suggested_name_runes.
  - apply Trim_hyphen_head.
  - apply Trim_hyphen_last.
  - unfold Trim_hyphen. rewrite length_reverse.
    etransitivity; [apply TrimLeft_hyphen_length |].
    rewrite length_reverse.
    etransitivity; [apply TrimLeft_hyphen_length |].
    etransitivity; [apply List.filter_length_le |].
    rewrite !length_map. reflexivity.
Qed.

(** X2.  Suggesting a name from a suggested name gives it back: the
    transformation is idempotent. *)
Theorem suggested_name_idempotent (variantID : list rune) :
  SuggestResourceNameFromVariantID tables
    (SuggestResourceNameFromVariantID tables variantID)
  = SuggestResourceNameFromVariantID tables variantID.
Proof.
  pose proof (suggested_name_runes variantID) as Hall.
  set (name := SuggestResourceNameFromVariantID tables variantID) in *.
  unfold SuggestResourceNameFromVariantID at 1.
  rewrite (map_fixed (unicode_ToLower tables) name).
  2: { eapply Forall_impl; [exact Hall |]. intros r Hr. cbv beta in *.
       unfold name_rune, unicode_ToLower in *. split_comparisons. }
  rewrite (map_fixed _ name).
  2: { eapply Forall_impl; [exact Hall |]. intros r Hr. cbv beta in *.
       unfold name_rune in *. split_comparisons. }
  rewrite (map_fixed _ name).
  2: { eapply Forall_impl; [exact Hall |]. intros r Hr. cbv beta in *.
       unfold name_rune in *. split_comparisons. }
  rewrite (filter_all name Hall).
  subst name. unfold SuggestResourceNameFromVariantID.
  apply Trim_hyphen_idempotent.
Qed.

End ResourceNames.

(** The table of [TestSuggestResourceNameFromVariantID]. *)
Example suggested_names :
  let suggest s := SuggestResourceNameFromVariantID Cases.tables (runes s) in
  suggest "meta/llama-3.1-8b-A100-1" = runes "meta-llama-3-1-8b-a100-1" /\
  suggest "Meta/Llama-3.1-8B-A100-1" = runes "meta-llama-3-1-8b-a100-1" /\
  suggest "model@name/variant_1" = runes "modelname-variant1" /\
  suggest "-model/variant-" = runes "model-variant" /\
  suggest "vllm-deployment" = runes "vllm-deployment" /\
  suggest "org/team/model-A100-1" = runes "org-team-model-a100-1" /\
  suggest "model_name_variant_1" = runes "modelnamevariant1" /\
  suggest "model name variant 1" = runes "modelnamevariant1" /\
  suggest "" = runes "" /\
  suggest "@#$%" = runes "".
Proof. vm_compute. repeat split; reflexivity. Qed.

(** A name is not shortened: an identifier of 64 letters is its own
    suggested name, one character more than a DNS label may have. *)
Example suggested_name_of_64 :
  SuggestResourceNameFromVariantID Cases.tables (repeat 97 64) = repeat 97 64.
Proof. vm_compute. reflexivity. Qed.

(** A letter above ASCII whose lower case is in ASCII stays in the name:
    the Kelvin sign becomes [k]. *)
Example suggested_name_kelvin :
  SuggestResourceNameFromVariantID Cases.tables [8490; 56; 115]
  = runes "k8s".
Proof. vm_compute. reflexivity. Qed.

(** ** Full names *)

Lemma append_nil_l (s : string) : "" +:+ s = s.
Proof. reflexivity. Qed.

Lemma append_cons (c : ascii) (r s : string) :
  String c r +:+ s = String c (r +:+ s).
Proof. reflexivity. Qed.

(** X3.  The full name of a resource identifies it: when neither name
    holds a colon (no Kubernetes name does), two resources with the same
    full name have the same name and the same namespace. *)
Theorem FullName_injective (name1 namespace1 name2 namespace2 : string) :
  has_colon name1 = false ->
  has_colon name2 = false ->
  FullName name1 namespace1 = FullName name2 namespace2 ->
  name1 = name2 /\ namespace1 = namespace2.
Proof.
  unfold FullName. revert name2.
  induction name1 as [| c1 r1 IH]; intros [| c2 r2] H1 H2 Heq;
    rewrite ?append_nil_l, ?append_cons, ?append_nil_l in Heq;
    cbn [has_colon] in H1, H2.
  - inversion Heq. split; reflexivity.
  - inversion Heq; subst c2. discriminate.
  - inversion Heq; subst c1. discriminate.
  - inversion Heq; subst c2.
    apply orb_false_iff in H1 as [_ H1]. apply orb_false_iff in H2 as [_ H2].
    destruct (IH r2 H1 H2) as [-> ->]; [assumption |]. split; reflexivity.
Qed.

Lemma FullName_injective_witness :
  has_colon "test" = false /\
  FullName "test" "default" = FullName "test" "default" /\
  ("test" = "test" /\ "default" = "default").
Proof.
  split; [reflexivity |]. split; [reflexivity |].
  exact (FullName_injective "test" "default" "test" "default"
           eq_refl eq_refl eq_refl).
Defined.

(** With a colon in a name, two resources can share a full name. *)
Example FullName_with_colon : FullName "a:b" "c" = FullName "a" "b:c".
Proof. reflexivity. Qed.

(** ** Service-level objectives *)

Section FindSLOProperties.

Variable yaml_Unmarshal : string -> ServiceClass * option error.
Variable range : forall A : Type, gmap string A -> list (string * A).
Variable Quote : string -> string.

Local Abbreviation find_slo := (FindModelSLO yaml_Unmarshal range Quote).
Local Abbreviation find_slo_loop := (FindModelSLO_loop yaml_Unmarshal Quote).

Lemma find_entry_Some (data : list ServiceClassEntry) (targetModel : string)
    (entry : ServiceClassEntry) :
  find_entry data targetModel = Some entry ->
  entry ∈ data /\ entry_Model entry = targetModel.
Proof.
  induction data as [| e data IH]; cbn; [discriminate |].
  destruct (String.eqb_spec (entry_Model e) targetModel) as [Heq | Hne].
  - intros H; inversion H; subst e. split; [left | exact Heq].
  - intros H. destruct (IH H) as [Hin Hm]. split; [right; exact Hin | exact Hm].
Qed.

Lemma find_entry_None (data : list ServiceClassEntry) (targetModel : string) :
  find_entry data targetModel = None <->
  forall entry, entry ∈ data -> entry_Model entry <> targetModel.
Proof.
  induction data as [| e data IH]; cbn.
  - split; [intros _ entry Hin; inversion Hin | reflexivity].
  - destruct (String.eqb_spec (entry_Model e) targetModel) as [Heq | Hne].
    + split; [discriminate |]. intros H. exfalso. apply (H e); [left | exact Heq].
    + rewrite IH. split.
      * intros H entry Hin. apply elem_of_cons in Hin as [-> | Hin]; auto.
      * intros H entry Hin. apply H. right. exact Hin.
Qed.

(** What the loop returns, by cases. *)
Lemma FindModelSLO_loop_cases (entries : list (string * string))
    (targetModel : string) :
  let result := find_slo_loop entries targetModel in
  (exists entry key val sc,
      result = (Some entry, sc_Name sc, None) /\
      (key, val) ∈ entries /\ yaml_Unmarshal val = (sc, None) /\
      entry ∈ sc_Data sc /\ entry_Model entry = targetModel) \/
  (exists key val sc e,
      result = (None, "", Some ("failed to parse " +:+ key +:+ ": " +:+ e)) /\
      (key, val) ∈ entries /\ yaml_Unmarshal val = (sc, Some e)) \/
  (result = (None, "",
             Some ("model " +:+ Quote targetModel +:+
                   " not found in any service class")) /\
   forall key val, (key, val) ∈ entries ->
     exists sc, yaml_Unmarshal val = (sc, None) /\
       forall entry, entry ∈ sc_Data sc -> entry_Model entry <> targetModel).
Proof.
  induction entries as [| [key val] entries IH]; cbn [FindModelSLO_loop].
  - right; right. split; [reflexivity |]. intros key val Hin. inversion Hin.
  - cbv zeta in *.
    destruct (yaml_Unmarshal val) as [sc [e |]] eqn:Hy.
    + right; left. exists key, val, sc, e.
      split; [reflexivity |]. split; [left | exact Hy].
    + destruct (find_entry (sc_Data sc) targetModel) as [entry |] eqn:Hf.
      * left. apply find_entry_Some in Hf as [Hin Hm].
        exists entry, key, val, sc.
        split; [reflexivity |]. split; [left |]. split; [exact Hy |].
        split; [exact Hin | exact Hm].
      * destruct IH as [(entry & k & v & sc' & Hr & Hin & Hy' & He & Hm)
                       | [(k & v & sc' & e & Hr & Hin & Hy')
                         | (Hr & Hall)]].
        -- left. exists entry, k, v, sc'.
           split; [exact Hr |]. split; [right; exact Hin |].
           split; [exact Hy' |]. split; [exact He | exact Hm].
        -- right; left. exists k, v, sc', e.
           split; [exact Hr |]. split; [right; exact Hin | exact Hy'].
        -- right; right. split; [exact Hr |].
           intros k v Hin.
           apply elem_of_cons in Hin as [Heq | Hin]; [| exact (Hall k v Hin)].
           inversion Heq; subst k v. exists sc. split; [exact Hy |].
           apply find_entry_None, Hf.
Qed.

(** X4.  What [FindModelSLO] finds is right: the entry it returns is an
    entry for the model asked for, it is listed by a service class of the
    config map that decodes, and the class name returned is that class's;
    no error comes with it. *)
Theorem FindModelSLO_found
    (cmData : gmap string string) (targetModel : string)
    (entry : ServiceClassEntry) (className : string) (err : option error) :
  range _ cmData ≡ₚ map_to_list cmData ->
  find_slo cmData targetModel = (Some entry, className, err) ->
  err = None /\ entry_Model entry = targetModel /\
  exists key val sc,
    cmData !! key = Some val /\ yaml_Unmarshal val = (sc, None) /\
    className = sc_Name sc /\ entry ∈ sc_Data sc.
Proof.
  intros Hperm Hfound. unfold FindModelSLO in Hfound.
  destruct (FindModelSLO_loop_cases (range _ cmData) targetModel)
    as [(e & key & val & sc & Hr & Hin & Hy & He & Hm)
       | [(key & val & sc & e & Hr & _) | (Hr & _)]];
    cbv zeta in Hr; rewrite Hr in Hfound; inversion Hfound; subst.
  split; [reflexivity |]. split; [reflexivity |].
  exists key, val, sc. rewrite Hperm in Hin.
  apply elem_of_map_to_list in Hin. auto.
Qed.

(** X5.  When every value of the config map decodes, [FindModelSLO] fails
    exactly when no service class lists the model, with the error that says
    so; otherwise it returns an entry.  The order in which the map is
    visited does not matter for that. *)
Theorem FindModelSLO_complete
    (cmData : gmap string string) (targetModel : string) :
  range _ cmData ≡ₚ map_to_list cmData ->
  (forall key val, cmData !! key = Some val ->
     snd (yaml_Unmarshal val) = None) ->
  let listed :=
    exists key val entry,
      cmData !! key = Some val /\
      entry ∈ sc_Data (fst (yaml_Unmarshal val)) /\
      entry_Model entry = targetModel in
  (listed ->
     exists entry className,
       find_slo cmData targetModel = (Some entry, className, None)) /\
  (~ listed ->
     find_slo cmData targetModel
     = (None, "",
        Some ("model " +:+ Quote targetModel +:+
              " not found in any service class"))).
Proof.
  intros Hperm Hparse listed. unfold FindModelSLO.
  destruct (FindModelSLO_loop_cases (range _ cmData) targetModel)
    as [(e & key & val & sc & Hr & Hin & Hy & He & Hm)
       | [(key & val & sc & e & Hr & Hin & Hy) | (Hr & Hall)]];
    cbv zeta in Hr; rewrite Hr.
  - split; [eauto |]. intros Hno. exfalso. apply Hno.
    rewrite Hperm in Hin. apply elem_of_map_to_list in Hin.
    exists key, val, e. rewrite Hy. auto.
  - exfalso. rewrite Hperm in Hin. apply elem_of_map_to_list in Hin.
    specialize (Hparse key val Hin). rewrite Hy in Hparse. discriminate.
  - split; [| reflexivity].
    intros (key & val & entry & Hl & Hin & Hm). exfalso.
    apply elem_of_map_to_list in Hl. rewrite <- Hperm in Hl.
    destruct (Hall key val Hl) as (sc & Hy & Hnone).
    rewrite Hy in Hin. exact (Hnone entry Hin Hm).
Qed.

End FindSLOProperties.

Lemma FindModelSLO_found_witness :
  Permutation (Reference.range string Cases.serviceClassCm)
              (map_to_list Cases.serviceClassCm) /\
  exists entry,
    FindModelSLO Cases.yaml_Unmarshal Reference.range Cases.Quote
      Cases.serviceClassCm "ibm/granite-13b" = (Some entry, "Freemium", None) /\
    entry_Model entry = "ibm/granite-13b" /\ SLOTPOT entry = 200.
Proof.
  split; [reflexivity |].
  eexists. split; [vm_compute; reflexivity |].
  split; [| reflexivity].
  refine (proj1 (proj2 (FindModelSLO_found
                          Cases.yaml_Unmarshal Reference.range Cases.Quote
                          Cases.serviceClassCm "ibm/granite-13b" _ "Freemium"
                          None (reflexivity _) _))).
  vm_compute. reflexivity.
Defined.

Lemma FindModelSLO_complete_witness :
  Permutation (Reference.range string Cases.serviceClassCm)
              (map_to_list Cases.serviceClassCm) /\
  (forall key val, Cases.serviceClassCm !! key = Some val ->
     snd (Cases.yaml_Unmarshal val) = None) /\
  FindModelSLO Cases.yaml_Unmarshal Reference.range Cases.Quote
    Cases.serviceClassCm "unknown/model"
  = (None, "",
     Some ("model " +:+ Cases.Quote "unknown/model" +:+
           " not found in any service class")).
Proof.
  assert (forall key val, Cases.serviceClassCm !! key = Some val ->
            snd (Cases.yaml_Unmarshal val) = None) as Hparse.
  { intros key val H. apply elem_of_map_to_list in H.
    set (l := map_to_list Cases.serviceClassCm) in H.
    vm_compute in l. subst l.
    repeat (apply elem_of_cons in H as [H | H];
            [inversion H; subst; reflexivity |]).
    inversion H. }
  split; [reflexivity |]. split; [exact Hparse |].
  apply (FindModelSLO_complete
           Cases.yaml_Unmarshal Reference.range Cases.Quote
           Cases.serviceClassCm "unknown/model" (reflexivity _) Hparse).
  intros (key & val & entry & Hl & Hin & Hm).
  apply elem_of_map_to_list in Hl.
  set (l := map_to_list Cases.serviceClassCm) in Hl.
  vm_compute in l. subst l.
  repeat (apply elem_of_cons in Hl as [Hl | Hl];
          [inversion Hl; subst; vm_compute in Hin;
           repeat (apply elem_of_cons in Hin as [Hin | Hin];
                   [subst entry; discriminate |]);
           inversion Hin |]).
  inversion Hl.
Defined.

(** Two classes that list one model: which of them is found depends on the
    order of the visit. *)
Example FindModelSLO_order :
  let first := {| sc_Name := "Gold"; sc_Priority := 1;
                  sc_Data := [ {| entry_Model := "m"; SLOTPOT := 10;
                                  SLOTTFT := 100 |} ] |} in
  let second := {| sc_Name := "Bronze"; sc_Priority := 9;
                   sc_Data := [ {| entry_Model := "m"; SLOTPOT := 90;
                                   SLOTTFT := 900 |} ] |} in
  let decode val := if String.eqb val "gold" then (first, None)
                    else (second, @None error) in
  snd (fst (FindModelSLO_loop decode Cases.Quote
              [("a", "gold"); ("b", "bronze")] "m")) = "Gold" /\
  snd (fst (FindModelSLO_loop decode Cases.Quote
              [("b", "bronze"); ("a", "gold")] "m")) = "Bronze".
Proof. vm_compute. split; reflexivity. Qed.

(** ** The entries of the engine's result *)

Section EngineEntries.

Import SingleVariant.

Variable EngineState : Type.
Variable manager_Optimize : EngineState -> EngineState * option error.
Variable system_GenerateSolution :
  EngineState -> EngineState * option AllocationSolution.
Variable ModelAnalyzeResponse : Type.
Variable create :
  Clock -> string -> string -> string -> AllocationSolution ->
  (OptimizedAlloc + error) * Clock.

Hypothesis create_extends : extends_adapter create.

Local Abbreviation optimize :=
  (Optimize EngineState manager_Optimize system_GenerateSolution
     ModelAnalyzeResponse create).

Lemma Optimize_step_lookup
    (sol : AllocationSolution) (va : VariantAutoscaling)
    (m : gmap string OptimizedAlloc) (c : Clock) (name : string) :
  decision <$> (fst (Optimize_step create sol (m, c) va) !! name)
  = match (if String.eqb (Name va) name then solved sol va else None) with
    | Some d => Some d
    | None => decision <$> (m !! name)
    end.
Proof.
  unfold Optimize_step, solved.
  pose proof (create_extends c (Name va) (Namespace va) (VariantID (Spec va))
                sol) as Hext.
  unfold CreateOptimizedAlloc in Hext.
  destruct (sol_Spec sol !! FullName (Name va) (Namespace va)) as [a |];
    cbn [Now fst snd] in Hext.
  - destruct Hext as (a' & -> & _ & Hd). cbn [fst].
    destruct (String.eqb_spec (Name va) name) as [<- | Hne].
    + rewrite lookup_insert_eq. cbn [fmap option_fmap option_map].
      rewrite Hd. reflexivity.
    + rewrite lookup_insert_ne by exact Hne. reflexivity.
  - destruct Hext as (e & ->). cbn [fst].
    destruct (String.eqb (Name va) name); reflexivity.
Qed.

Lemma Optimize_loop_lookup
    (sol : AllocationSolution) (items : list VariantAutoscaling)
    (name : string) :
  forall (m : gmap string OptimizedAlloc) (c : Clock),
    decision <$> (fst (foldl (Optimize_step create sol) (m, c) items) !! name)
    = match chosen sol items name with
      | Some d => Some d
      | None => decision <$> (m !! name)
      end.
Proof.
  induction items as [| va items IH]; intros m c; [reflexivity |].
  cbn [foldl chosen].
  pose proof (Optimize_step_lookup sol va m c name) as Hstep.
  destruct (Optimize_step create sol (m, c) va) as [m' c'].
  rewrite IH. cbn [fst] in Hstep.
  destruct (chosen sol items name) as [d |]; [reflexivity |].
  exact Hstep.
Qed.

Lemma Optimize_success
    (st st1 st2 : EngineState) (clock : Clock)
    (vaList : VariantAutoscalingList)
    (analysis : gmap string ModelAnalyzeResponse)
    (sol : AllocationSolution) :
  manager_Optimize st = (st1, None) ->
  system_GenerateSolution st1 = (st2, Some sol) ->
  sol_Spec sol <> ∅ ->
  exists m clock',
    optimize st clock vaList analysis = ((Some m, None), st2, clock') /\
    forall name,
      decision <$> (m !! name) = chosen sol (Items vaList) name.
Proof.
  intros Hopt Hgen Hne. unfold Optimize. rewrite Hopt. cbn [is_err].
  rewrite Hgen.
  destruct (map_len (sol_Spec sol) =? 0) eqn:E.
  { apply map_len_0 in E. contradiction. }
  pose proof (Optimize_loop_lookup sol (Items vaList)) as Hloop.
  destruct (foldl (Optimize_step create sol) (∅, clock) (Items vaList))
    as [m clock'] eqn:Hfold.
  exists m, clock'. split; [reflexivity |].
  intros name. specialize (Hloop name ∅ clock). rewrite Hfold in Hloop.
  cbn [fst] in Hloop. rewrite Hloop.
  destruct (chosen sol (Items vaList) name); [reflexivity |].
  rewrite lookup_empty. reflexivity.
Qed.

(** X6.  The adapter of four arguments the engine calls is not among the
    sources; let it extend the adapter of the source (utils.go:775-792).
    When the optimizer succeeds with a solution that has a server,
    [Optimize] returns no error and a map that holds, under each name, the
    accelerator and the replicas the solution gives the last variant of
    the list with that name whose server ([name:namespace]) is in the
    solution.  A variant whose server is not in the solution is left out
    without an error. *)
Theorem Optimize_entries
    (st st1 st2 : EngineState) (clock : Clock)
    (vaList : VariantAutoscalingList)
    (analysis : gmap string ModelAnalyzeResponse)
    (sol : AllocationSolution) :
  manager_Optimize st = (st1, None) ->
  system_GenerateSolution st1 = (st2, Some sol) ->
  sol_Spec sol <> ∅ ->
  exists m clock',
    optimize st clock vaList analysis = ((Some m, None), st2, clock') /\
    forall name,
      decision <$> (m !! name) = chosen sol (Items vaList) name.
Proof. exact (Optimize_success st st1 st2 clock vaList analysis sol). Qed.

Lemma chosen_None (sol : AllocationSolution)
    (items : list VariantAutoscaling) (name : string) :
  chosen sol items name = None <->
  forall va, va ∈ items -> Name va = name -> solved sol va = None.
Proof.
  induction items as [| va items IH]; cbn [chosen].
  - split; [intros _ va Hin; inversion Hin | reflexivity].
  - destruct (chosen sol items name) as [d |] eqn:E.
    + split; [discriminate |]. intros H.
      assert (Some d = None) as Habs; [| discriminate].
      apply IH. intros va' Hin. apply H. right. exact Hin.
    + destruct (String.eqb_spec (Name va) name) as [Heq | Hne].
      * split.
        -- intros Hs va' Hin Hn.
           apply elem_of_cons in Hin as [-> | Hin]; [exact Hs |].
           exact (proj1 IH eq_refl va' Hin Hn).
        -- intros H. apply H; [left | exact Heq].
      * split; [| reflexivity]. intros _ va' Hin Hn.
        apply elem_of_cons in Hin as [-> | Hin]; [contradiction |].
        exact (proj1 IH eq_refl va' Hin Hn).
Qed.

Lemma chosen_unique (sol : AllocationSolution)
    (items : list VariantAutoscaling) (va : VariantAutoscaling) :
  NoDup (Name <$> items) -> va ∈ items ->
  chosen sol items (Name va) = solved sol va.
Proof.
  induction items as [| va' items IH]; cbn [chosen fmap list_fmap].
  - intros _ Hin. inversion Hin.
  - intros Hnd Hin. apply NoDup_cons in Hnd as [Hnotin Hnd].
    apply elem_of_cons in Hin as [-> | Hin].
    + assert (chosen sol items (Name va') = None) as ->.
      { apply chosen_None. intros v Hv Hn. exfalso. apply Hnotin.
        rewrite <- Hn. apply list_elem_of_fmap_2. exact Hv. }
      rewrite String.eqb_refl. reflexivity.
    + rewrite (IH Hnd Hin).
      destruct (solved sol va) as [d |]; [reflexivity |].
      destruct (String.eqb_spec (Name va') (Name va)) as [Heq | Hne];
        [| reflexivity].
      exfalso. apply Hnotin. rewrite Heq. apply list_elem_of_fmap_2. exact Hin.
Qed.

(** X7.  With the adapter the engine calls extending that of the source,
    and for variants with different names: after a successful optimization
    a variant is in the result exactly when its server is in the solution,
    and its entry carries the accelerator and the replicas the solution
    gives that server. *)
Theorem Optimize_entry_of_variant
    (st st1 st2 : EngineState) (clock : Clock)
    (vaList : VariantAutoscalingList)
    (analysis : gmap string ModelAnalyzeResponse)
    (sol : AllocationSolution) (va : VariantAutoscaling) :
  manager_Optimize st = (st1, None) ->
  system_GenerateSolution st1 = (st2, Some sol) ->
  sol_Spec sol <> ∅ ->
  NoDup (Name <$> Items vaList) ->
  va ∈ Items vaList ->
  exists m,
    fst (fst (optimize st clock vaList analysis)) = (Some m, None) /\
    match sol_Spec sol !! FullName (Name va) (Namespace va) with
    | Some a =>
        exists entry, m !! Name va = Some entry /\
          opt_Accelerator entry = ad_Accelerator a /\
          opt_NumReplicas entry = ad_NumReplicas a
    | None => m !! Name va = None
    end.
Proof.
  intros Hopt Hgen Hne Hnd Hin.
  destruct (Optimize_success st st1 st2 clock vaList analysis sol
              Hopt Hgen Hne) as (m & clock' & Hr & Hall).
  exists m. rewrite Hr. split; [reflexivity |].
  specialize (Hall (Name va)). rewrite (chosen_unique sol _ va Hnd Hin) in Hall.
  unfold solved in Hall.
  destruct (sol_Spec sol !! FullName (Name va) (Namespace va)) as [a |].
  - destruct (m !! Name va) as [entry |]; [| discriminate].
    exists entry. split; [reflexivity |].
    cbn in Hall. unfold decision in Hall. inversion Hall. auto.
  - destruct (m !! Name va); [discriminate | reflexivity].
Qed.

End EngineEntries.

(** The adapter of the samples extends that of the source. *)
Lemma adapter_extends : extends_adapter Sample.adapter.
Proof.
  intros clock name namespace variantID sol. unfold Sample.adapter.
  destruct (SingleVariant.CreateOptimizedAlloc clock name namespace sol)
    as [[[a |] [e |]] clock']; eauto.
Qed.

(** Two variants of one name in two namespaces, both with a server in the
    solution: the result holds one entry under the name, that of the
    second. *)
Example Optimize_same_name :
  let other :=
    {| ad_Accelerator := "H100"; ad_NumReplicas := 7; ad_MaxBatch := 256;
       ad_Cost := zero; ad_ITLAverage := zero; ad_TTFTAverage := zero;
       ad_Load := {| load_ArrivalRate := zero; load_AvgInTokens := 0;
                     load_AvgOutTokens := 0 |} |} in
  let sol := {| sol_Spec := {[ "test:default" := Sample.allocationData;
                               "test:staging" := other ]} |} in
  let twin :=
    {| SingleVariant.Name := "test"; SingleVariant.Namespace := "staging";
       SingleVariant.Labels := ∅;
       SingleVariant.Spec := SingleVariant.Spec Sample.variant;
       SingleVariant.Status := SingleVariant.Status Sample.variant |} in
  decisions (fst (fst (fst (Sample.Optimize (Some sol) (Reference.clock_from 0)
                              {| SingleVariant.Items := [Sample.variant; twin] |}
                              ∅))))
  = Some {[ "test" := ("H100", 7) ]}.
Proof. vm_compute. reflexivity. Qed.

Lemma Optimize_entries_witness :
  extends_adapter Sample.adapter /\
  Sample.optimizer_ok tt = (tt, None) /\
  Sample.solution_of (Some Sample.solution) tt = (tt, Some Sample.solution) /\
  sol_Spec Sample.solution <> ∅ /\
  exists m clock',
    Sample.Optimize (Some Sample.solution) (Reference.clock_from 0)
      Sample.vaList ∅ = ((Some m, None), tt, clock') /\
    decision <$> (m !! "test") = Some ("A100", 3) /\
    decision <$> (m !! "absent") = None.
Proof.
  assert (sol_Spec Sample.solution <> ∅) as Hne.
  { intros H. apply (f_equal (fun m => m !! "test:default")) in H.
    vm_compute in H. discriminate. }
  split; [exact adapter_extends |].
  split; [reflexivity |]. split; [reflexivity |]. split; [exact Hne |].
  destruct (Optimize_entries unit Sample.optimizer_ok
              (Sample.solution_of (Some Sample.solution)) unit
              Sample.adapter adapter_extends
              tt tt tt (Reference.clock_from 0) Sample.vaList ∅
              Sample.solution eq_refl eq_refl Hne)
    as (m & clock' & Hr & Hall).
  exists m, clock'. split; [exact Hr |].
  rewrite !Hall. split; vm_compute; reflexivity.
Defined.

Lemma Optimize_entry_of_variant_witness :
  extends_adapter Sample.adapter /\
  Sample.optimizer_ok tt = (tt, None) /\
  Sample.solution_of (Some Sample.solution) tt = (tt, Some Sample.solution) /\
  sol_Spec Sample.solution <> ∅ /\
  NoDup (SingleVariant.Name <$> SingleVariant.Items Sample.vaList) /\
  Sample.variant ∈ SingleVariant.Items Sample.vaList /\
  exists m entry,
    fst (fst (Sample.Optimize (Some Sample.solution) (Reference.clock_from 0)
                Sample.vaList ∅)) = (Some m, None) /\
    m !! "test" = Some entry /\
    SingleVariant.opt_Accelerator entry = "A100" /\
    SingleVariant.opt_NumReplicas entry = 3.
Proof.
  assert (sol_Spec Sample.solution <> ∅) as Hne.
  { intros H. apply (f_equal (fun m => m !! "test:default")) in H.
    vm_compute in H. discriminate. }
  assert (NoDup (SingleVariant.Name <$> SingleVariant.Items Sample.vaList))
    as Hnd.
  { cbn. apply NoDup_singleton. }
  assert (Sample.variant ∈ SingleVariant.Items Sample.vaList) as Hin.
  { cbn. left. }
  split; [exact adapter_extends |].
  split; [reflexivity |]. split; [reflexivity |]. split; [exact Hne |].
  split; [exact Hnd |]. split; [exact Hin |].
  destruct (Optimize_entry_of_variant unit Sample.optimizer_ok
              (Sample.solution_of (Some Sample.solution)) unit
              Sample.adapter adapter_extends
              tt tt tt (Reference.clock_from 0) Sample.vaList ∅
              Sample.solution Sample.variant eq_refl eq_refl Hne Hnd Hin)
    as (m & Hr & Hentry).
  replace (sol_Spec Sample.solution
             !! FullName (SingleVariant.Name Sample.variant)
                         (SingleVariant.Namespace Sample.variant))
    with (Some Sample.allocationData) in Hentry by (vm_compute; reflexivity).
  destruct Hentry as (entry & Hl & Hacc & Hrep).
  exists m, entry. split; [exact Hr |]. split; [exact Hl |].
  split; [exact Hacc | exact Hrep].
Defined.

(** ** Sanitization, again *)

(** X8.  A value that went through [FixValue] passes [CheckValue], and
    [FixValue] changes nothing the second time. *)
Theorem FixValue_passes_CheckValue (x : float64) :
  is_float64 x = true ->
  CheckValue (FixValue x) = true /\ FixValue (FixValue x) = FixValue x.
Proof.
  intros Hx.
  assert (CheckValue (FixValue x) = true) as Hc.
  { rewrite FixValue_CheckValue.
    destruct (CheckValue x) eqn:E; [exact E | reflexivity]. }
  split; [exact Hc |].
  rewrite (FixValue_CheckValue (FixValue x)), Hc. reflexivity.
Qed.

Lemma FixValue_passes_CheckValue_witness :
  is_float64 (S754_infinity true) = true /\
  CheckValue (FixValue (S754_infinity true)) = true /\
  FixValue (FixValue (S754_infinity true)) = FixValue (S754_infinity true).
Proof.
  split; [reflexivity |].
  exact (FixValue_passes_CheckValue (S754_infinity true) eq_refl).
Defined.

(** ** The metrics collector, further *)

Section CollectorFurther.

Import AcceleratorProfiles.

Variables VLLMRequestSuccessTotal
          VLLMRequestGenerationTokensSum VLLMRequestGenerationTokensCount
          VLLMRequestQueueTimeSecondsSum VLLMRequestQueueTimeSecondsCount
          VLLMTimePerOutputTokenSecondsSum VLLMTimePerOutputTokenSecondsCount
          LabelModelName LabelNamespace : string.

Local Abbreviation collect :=
  (Collector.AddMetricsToOptStatus
     VLLMRequestSuccessTotal
     VLLMRequestGenerationTokensSum VLLMRequestGenerationTokensCount
     VLLMRequestQueueTimeSecondsSum VLLMRequestQueueTimeSecondsCount
     VLLMTimePerOutputTokenSecondsSum VLLMTimePerOutputTokenSecondsCount
     LabelModelName LabelNamespace).
Local Abbreviation arrival_query :=
  (Collector.arrivalQuery VLLMRequestSuccessTotal LabelModelName LabelNamespace).
Local Abbreviation tokens_query :=
  (Collector.avgDecToksQuery VLLMRequestGenerationTokensSum
     VLLMRequestGenerationTokensCount LabelModelName LabelNamespace).
Local Abbreviation ttft_query :=
  (Collector.ttftQuery VLLMRequestQueueTimeSecondsSum
     VLLMRequestQueueTimeSecondsCount LabelModelName LabelNamespace).
Local Abbreviation itl_query :=
  (Collector.itlQuery VLLMTimePerOutputTokenSecondsSum
     VLLMTimePerOutputTokenSecondsCount LabelModelName LabelNamespace).

(** The collection when the four queries answer vectors. *)
Lemma collect_vectors
    (clock : Clock) (opt : VariantAutoscaling) (deployment : Deployment)
    (acceleratorCostVal : float64) (promAPI : PromAPI)
    (vec1 vec2 vec3 vec4 : list model.Sample) (w1 w2 w3 w4 : list string)
    (replicas : Z) :
  let modelName := ModelID (Spec opt) in
  let ns := dep_Namespace deployment in
  let first (vec : list model.Sample) :=
    match vec with s :: _ => Some (model.sample_Value s) | [] => None end in
  Query promAPI (arrival_query modelName ns) (readings clock (reads clock))
    = (Some (model.Vector vec1), w1, None) ->
  Query promAPI (tokens_query modelName ns)
    (readings clock (S (reads clock)))
    = (Some (model.Vector vec2), w2, None) ->
  Query promAPI (ttft_query modelName ns)
    (readings clock (S (S (reads clock))))
    = (Some (model.Vector vec3), w3, None) ->
  Query promAPI (itl_query modelName ns)
    (readings clock (S (S (S (reads clock)))))
    = (Some (model.Vector vec4), w4, None) ->
  dep_Replicas deployment = Some replicas ->
  fst (collect clock opt deployment acceleratorCostVal promAPI)
  = Returns
      ({| alloc_Accelerator :=
            map_get (Labels opt) "inference.optimization/acceleratorName";
          alloc_NumReplicas := replicas;
          alloc_MaxBatch := 256;
          alloc_VariantCost :=
            FormatFloat (mul64 (of_int replicas) acceleratorCostVal) "f" 2 32;
          alloc_ITLAverage :=
            FormatFloat
              (FixValue (match first vec4 with
                         | Some v => mul64 v (of_int 1000)
                         | None => zero
                         end)) "f" 2 32;
          alloc_TTFTAverage :=
            FormatFloat
              (FixValue (match first vec3 with
                         | Some v => mul64 v (of_int 1000)
                         | None => zero
                         end)) "f" 2 32;
          alloc_Load :=
            {| ArrivalRate :=
                 FormatFloat (FixValue (default zero (first vec1))) "f" 2 32;
               AvgInputTokens := "0.00";
               AvgOutputTokens :=
                 FormatFloat (FixValue (default zero (first vec2))) "f" 2 32
            |} |}, None).
Proof.
  intros modelName ns first H1 H2 H3 H4 Hr.
  subst modelName ns. unfold Collector.AddMetricsToOptStatus.
  cbn [Now readings reads].
  rewrite H1. cbn [Collector.vector_guard is_err].
  rewrite H2. cbn [Collector.vector_guard is_err].
  rewrite H3. cbn [Collector.vector_guard is_err].
  rewrite H4. cbn [Collector.vector_guard is_err].
  rewrite Hr. cbn [fst]. subst first.
  rewrite FormatFloat_zero.
  destruct vec1, vec2, vec3, vec4; reflexivity.
Qed.

(** X9.  When the four queries answer vectors and the deployment has its
    replica count, the collection returns, without error, the allocation
    made of: the accelerator named by the variant's label, the replicas of
    the deployment, the batch size 256, the cost (replicas times unit cost),
    and for each metric the first sample of its vector (times 1000 for the
    two latencies; 0 for an empty vector) put through [FixValue]; numbers
    are written with two decimals.  The average of input tokens reads
    "0.00" whatever Prometheus answers. *)
Theorem collected_allocation
    (clock : Clock) (opt : VariantAutoscaling) (deployment : Deployment)
    (acceleratorCostVal : float64) (promAPI : PromAPI)
    (vec1 vec2 vec3 vec4 : list model.Sample) (w1 w2 w3 w4 : list string)
    (replicas : Z) :
  let modelName := ModelID (Spec opt) in
  let ns := dep_Namespace deployment in
  let first (vec : list model.Sample) :=
    match vec with s :: _ => Some (model.sample_Value s) | [] => None end in
  Query promAPI (arrival_query modelName ns) (readings clock (reads clock))
    = (Some (model.Vector vec1), w1, None) ->
  Query promAPI (tokens_query modelName ns)
    (readings clock (S (reads clock)))
    = (Some (model.Vector vec2), w2, None) ->
  Query promAPI (ttft_query modelName ns)
    (readings clock (S (S (reads clock))))
    = (Some (model.Vector vec3), w3, None) ->
  Query promAPI (itl_query modelName ns)
    (readings clock (S (S (S (reads clock)))))
    = (Some (model.Vector vec4), w4, None) ->
  dep_Replicas deployment = Some replicas ->
  fst (collect clock opt deployment acceleratorCostVal promAPI)
  = Returns
      ({| alloc_Accelerator :=
            map_get (Labels opt) "inference.optimization/acceleratorName";
          alloc_NumReplicas := replicas;
          alloc_MaxBatch := 256;
          alloc_VariantCost :=
            FormatFloat (mul64 (of_int replicas) acceleratorCostVal) "f" 2 32;
          alloc_ITLAverage :=
            FormatFloat
              (FixValue (match first vec4 with
                         | Some v => mul64 v (of_int 1000)
                         | None => zero
                         end)) "f" 2 32;
          alloc_TTFTAverage :=
            FormatFloat
              (FixValue (match first vec3 with
                         | Some v => mul64 v (of_int 1000)
                         | None => zero
                         end)) "f" 2 32;
          alloc_Load :=
            {| ArrivalRate :=
                 FormatFloat (FixValue (default zero (first vec1))) "f" 2 32;
               AvgInputTokens := "0.00";
               AvgOutputTokens :=
                 FormatFloat (FixValue (default zero (first vec2))) "f" 2 32
            |} |}, None).
Proof.
  exact (collect_vectors clock opt deployment acceleratorCostVal promAPI
           vec1 vec2 vec3 vec4 w1 w2 w3 w4 replicas).
Qed.

(** A sample that is NaN or infinite reads "0.00", also after the
    conversion of a latency to milliseconds. *)
Lemma non_finite_reads_zero (x : float64) :
  is_nan x \/ is_inf x ->
  FormatFloat (FixValue x) "f" 2 32 = "0.00" /\
  FormatFloat (FixValue (mul64 x (of_int 1000))) "f" 2 32 = "0.00".
Proof.
  intros [-> | [s ->]]; [| destruct s]; split; reflexivity.
Qed.

(** X10.  A first sample that is NaN or infinite (the quotient of two
    rates without traffic is one) is reported as "0.00", for each of the
    four metrics. *)
Theorem non_finite_samples_read_zero
    (clock : Clock) (opt : VariantAutoscaling) (deployment : Deployment)
    (acceleratorCostVal : float64) (promAPI : PromAPI)
    (vec1 vec2 vec3 vec4 : list model.Sample) (w1 w2 w3 w4 : list string)
    (replicas : Z) :
  let modelName := ModelID (Spec opt) in
  let ns := dep_Namespace deployment in
  let non_finite (vec : list model.Sample) :=
    exists s rest, vec = s :: rest /\
      (is_nan (model.sample_Value s) \/ is_inf (model.sample_Value s)) in
  Query promAPI (arrival_query modelName ns) (readings clock (reads clock))
    = (Some (model.Vector vec1), w1, None) ->
  Query promAPI (tokens_query modelName ns)
    (readings clock (S (reads clock)))
    = (Some (model.Vector vec2), w2, None) ->
  Query promAPI (ttft_query modelName ns)
    (readings clock (S (S (reads clock))))
    = (Some (model.Vector vec3), w3, None) ->
  Query promAPI (itl_query modelName ns)
    (readings clock (S (S (S (reads clock)))))
    = (Some (model.Vector vec4), w4, None) ->
  dep_Replicas deployment = Some replicas ->
  exists alloc,
    fst (collect clock opt deployment acceleratorCostVal promAPI)
      = Returns (alloc, None) /\
    (non_finite vec1 -> ArrivalRate (alloc_Load alloc) = "0.00") /\
    (non_finite vec2 -> AvgOutputTokens (alloc_Load alloc) = "0.00") /\
    (non_finite vec3 -> alloc_TTFTAverage alloc = "0.00") /\
    (non_finite vec4 -> alloc_ITLAverage alloc = "0.00").
Proof.
  intros modelName ns non_finite H1 H2 H3 H4 Hr.
  eexists. split.
  { exact (collect_vectors clock opt deployment acceleratorCostVal promAPI
             vec1 vec2 vec3 vec4 w1 w2 w3 w4 replicas H1 H2 H3 H4 Hr). }
  cbn [alloc_Load ArrivalRate AvgOutputTokens alloc_TTFTAverage
       alloc_ITLAverage].
  repeat split; intros (s & rest & -> & Hs); cbn [default];
    apply (non_finite_reads_zero _ Hs).
Qed.

(** X11.  An answer to the arrival-rate query, or to the token query, that
    comes without an error and is no vector ends the collection with an
    empty allocation and no error. *)
Theorem non_vector_answer_is_silent
    (clock : Clock) (opt : VariantAutoscaling) (deployment : Deployment)
    (acceleratorCostVal : float64) (promAPI : PromAPI) :
  let modelName := ModelID (Spec opt) in
  let ns := dep_Namespace deployment in
  let result :=
    fst (collect clock opt deployment acceleratorCostVal promAPI) in
  (forall v w,
      Query promAPI (arrival_query modelName ns) (readings clock (reads clock))
        = (Some v, w, None) ->
      model.Type_ v <> model.ValVector ->
      result = Returns (Allocation_zero, None)) /\
  (forall vec1 w1 v w,
      Query promAPI (arrival_query modelName ns) (readings clock (reads clock))
        = (Some (model.Vector vec1), w1, None) ->
      Query promAPI (tokens_query modelName ns)
        (readings clock (S (reads clock))) = (Some v, w, None) ->
      model.Type_ v <> model.ValVector ->
      result = Returns (Allocation_zero, None)).
Proof.
  intros modelName ns result. subst result modelName ns.
  unfold Collector.AddMetricsToOptStatus. cbn [Now readings reads].
  split.
  - intros v w H1 Hv. rewrite H1.
    destruct v; cbn in Hv |- *; try reflexivity. contradiction.
  - intros vec1 w1 v w H1 H2 Hv. rewrite H1.
    cbn [Collector.vector_guard is_err]. rewrite H2.
    destruct v; cbn in Hv |- *; try reflexivity. contradiction.
Qed.

(** X12.  The cost is not sanitized: with a unit cost that is NaN, the
    collection succeeds and the cost of the allocation reads "NaN". *)
Theorem cost_is_not_sanitized
    (clock : Clock) (opt : VariantAutoscaling) (deployment : Deployment)
    (promAPI : PromAPI)
    (vec1 vec2 vec3 vec4 : list model.Sample) (w1 w2 w3 w4 : list string)
    (replicas : Z) :
  let modelName := ModelID (Spec opt) in
  let ns := dep_Namespace deployment in
  Query promAPI (arrival_query modelName ns) (readings clock (reads clock))
    = (Some (model.Vector vec1), w1, None) ->
  Query promAPI (tokens_query modelName ns)
    (readings clock (S (reads clock)))
    = (Some (model.Vector vec2), w2, None) ->
  Query promAPI (ttft_query modelName ns)
    (readings clock (S (S (reads clock))))
    = (Some (model.Vector vec3), w3, None) ->
  Query promAPI (itl_query modelName ns)
    (readings clock (S (S (S (reads clock)))))
    = (Some (model.Vector vec4), w4, None) ->
  dep_Replicas deployment = Some replicas ->
  exists alloc,
    fst (collect clock opt deployment S754_nan promAPI)
      = Returns (alloc, None) /\
    alloc_VariantCost alloc = "NaN".
Proof.
  intros modelName ns H1 H2 H3 H4 Hr.
  eexists. split.
  { exact (collect_vectors clock opt deployment S754_nan promAPI
             vec1 vec2 vec3 vec4 w1 w2 w3 w4 replicas H1 H2 H3 H4 Hr). }
  cbn [alloc_VariantCost]. unfold mul64.
  destruct (of_int replicas); reflexivity.
Qed.

End CollectorFurther.

(** *** The collection on sample answers *)

(** "should collect metrics successfully" *)
Lemma collected_allocation_witness :
  dep_Replicas Sample.deployment = Some 2 /\
  fst (Sample.AddMetricsToOptStatus (Reference.clock_from 0)
         (Sample.model_variant None) Sample.deployment Sample.accCost
         Sample.prom_ok)
  = Returns
      ({| AcceleratorProfiles.alloc_Accelerator := "A100";
          AcceleratorProfiles.alloc_NumReplicas := 2;
          AcceleratorProfiles.alloc_MaxBatch := 256;
          AcceleratorProfiles.alloc_VariantCost := "80.00";
          AcceleratorProfiles.alloc_ITLAverage := "50.00";
          AcceleratorProfiles.alloc_TTFTAverage := "500.00";
          AcceleratorProfiles.alloc_Load :=
            {| ArrivalRate := "10.50"; AvgInputTokens := "0.00";
               AvgOutputTokens := "150.00" |} |}, None).
Proof.
  split; [reflexivity |].
  pose proof (collected_allocation
                Sample.VLLMRequestSuccessTotal
                Sample.VLLMRequestGenerationTokensSum
                Sample.VLLMRequestGenerationTokensCount
                Sample.VLLMRequestQueueTimeSecondsSum
                Sample.VLLMRequestQueueTimeSecondsCount
                Sample.VLLMTimePerOutputTokenSecondsSum
                Sample.VLLMTimePerOutputTokenSecondsCount
                Sample.LabelModelName Sample.LabelNamespace
                (Reference.clock_from 0) (Sample.model_variant None)
                Sample.deployment Sample.accCost Sample.prom_ok
                _ _ _ _ [] [] [] [] 2
                ltac:(vm_compute; reflexivity) ltac:(vm_compute; reflexivity)
                ltac:(vm_compute; reflexivity) ltac:(vm_compute; reflexivity)
                ltac:(reflexivity)) as H.
  unfold Sample.AddMetricsToOptStatus. rewrite H. vm_compute. reflexivity.
Defined.

(** Without traffic the quotients of rates are NaN, and read "0.00". *)
Lemma non_finite_samples_read_zero_witness :
  dep_Replicas Sample.deployment = Some 2 /\
  exists alloc,
    fst (Sample.AddMetricsToOptStatus (Reference.clock_from 0)
           (Sample.model_variant None) Sample.deployment Sample.accCost
           Cases.prom_idle)
    = Returns (alloc, None) /\
    ArrivalRate (AcceleratorProfiles.alloc_Load alloc) = "0.00" /\
    AvgOutputTokens (AcceleratorProfiles.alloc_Load alloc) = "0.00" /\
    AcceleratorProfiles.alloc_TTFTAverage alloc = "0.00" /\
    AcceleratorProfiles.alloc_ITLAverage alloc = "0.00".
Proof.
  split; [reflexivity |].
  destruct (non_finite_samples_read_zero
                Sample.VLLMRequestSuccessTotal
                Sample.VLLMRequestGenerationTokensSum
                Sample.VLLMRequestGenerationTokensCount
                Sample.VLLMRequestQueueTimeSecondsSum
                Sample.VLLMRequestQueueTimeSecondsCount
                Sample.VLLMTimePerOutputTokenSecondsSum
                Sample.VLLMTimePerOutputTokenSecondsCount
                Sample.LabelModelName Sample.LabelNamespace
                (Reference.clock_from 0) (Sample.model_variant None)
                Sample.deployment Sample.accCost Cases.prom_idle
                _ _ _ _ [] [] [] [] 2
                ltac:(vm_compute; reflexivity) ltac:(vm_compute; reflexivity)
                ltac:(vm_compute; reflexivity) ltac:(vm_compute; reflexivity)
                ltac:(reflexivity))
    as (alloc & Hr & _ & Htok & Httft & Hitl).
  exists alloc. split; [exact Hr |].
  split.
  { unfold Sample.AddMetricsToOptStatus in *.
    vm_compute in Hr. inversion Hr. reflexivity. }
  split; [apply Htok | split; [apply Httft | apply Hitl]];
    eexists _, _; (split; [reflexivity | left; reflexivity]).
Defined.

(** A scalar for an answer: an empty allocation, and no error. *)
Lemma non_vector_answer_is_silent_witness :
  fst (Sample.AddMetricsToOptStatus (Reference.clock_from 0)
         (Sample.model_variant None) Sample.deployment Sample.accCost
         Cases.prom_scalar)
  = Returns (AcceleratorProfiles.Allocation_zero, None).
Proof.
  refine (proj1 (non_vector_answer_is_silent
                Sample.VLLMRequestSuccessTotal
                Sample.VLLMRequestGenerationTokensSum
                Sample.VLLMRequestGenerationTokensCount
                Sample.VLLMRequestQueueTimeSecondsSum
                Sample.VLLMRequestQueueTimeSecondsCount
                Sample.VLLMTimePerOutputTokenSecondsSum
                Sample.VLLMTimePerOutputTokenSecondsCount
                Sample.LabelModelName Sample.LabelNamespace
                (Reference.clock_from 0) (Sample.model_variant None)
                Sample.deployment Sample.accCost Cases.prom_scalar)
            _ [] _ _).
  - vm_compute. reflexivity.
  - vm_compute. discriminate.
Defined.

Lemma cost_is_not_sanitized_witness :
  dep_Replicas Sample.deployment = Some 2 /\
  exists alloc,
    fst (Sample.AddMetricsToOptStatus (Reference.clock_from 0)
           (Sample.model_variant None) Sample.deployment S754_nan
           Sample.prom_ok)
    = Returns (alloc, None) /\
    AcceleratorProfiles.alloc_VariantCost alloc = "NaN".
Proof.
  split; [reflexivity |].
  exact (cost_is_not_sanitized
                Sample.VLLMRequestSuccessTotal
                Sample.VLLMRequestGenerationTokensSum
                Sample.VLLMRequestGenerationTokensCount
                Sample.VLLMRequestQueueTimeSecondsSum
                Sample.VLLMRequestQueueTimeSecondsCount
                Sample.VLLMTimePerOutputTokenSecondsSum
                Sample.VLLMTimePerOutputTokenSecondsCount
                Sample.LabelModelName Sample.LabelNamespace
                (Reference.clock_from 0) (Sample.model_variant None)
                Sample.deployment Sample.prom_ok
                _ _ _ _ [] [] [] [] 2
                ltac:(vm_compute; reflexivity) ltac:(vm_compute; reflexivity)
                ltac:(vm_compute; reflexivity) ltac:(vm_compute; reflexivity)
                ltac:(reflexivity)).
Defined.

(** ** Retries with backoff *)

(** Tries that ask for another try are passed over. *)
Lemma backoff_loop_skip {W : Type}
    (condition : W -> (bool * option error) * W) (k n : nat) :
  forall w : nat -> W,
    (forall i, (i < k)%nat -> condition (w i) = ((false, None), w (S i))) ->
    backoff_loop (k + n) condition (w 0%nat) = backoff_loop n condition (w k).
Proof.
  induction k as [| k IH]; intros w H.
  - reflexivity.
  - cbn [Nat.add backoff_loop]. rewrite (H 0%nat) by lia. cbn [is_err orb].
    rewrite (IH (fun i => w (S i))); [reflexivity |].
    intros i Hi. apply H. lia.
Qed.

Section Retries.

Variables IsNotFound IsInvalid IsForbidden : error -> bool.

Local Abbreviation get_resource := (GetResourceWithBackoff IsNotFound).
Local Abbreviation update_status :=
  (UpdateStatusWithBackoff IsInvalid IsForbidden).

(** *** Reading a resource *)

Lemma Get_loop_skip {Obj : Type} (c : Client Obj) (name namespace : string)
    (obj : Obj) (k n : nat) :
  (forall i, (i < k)%nat ->
     exists e, answers c (i + calls c) name namespace = Failed e /\
               IsNotFound e = false) ->
  backoff_loop (k + n) (get_condition IsNotFound name namespace) (c, obj)
  = backoff_loop n (get_condition IsNotFound name namespace)
      (Client_after c k, obj).
Proof.
  intros H. destruct c as [ans m].
  apply (backoff_loop_skip (get_condition IsNotFound name namespace) k n
           (fun i => (Client_after {| answers := ans; calls := m |} i, obj))).
  intros i Hi. destruct (H i Hi) as (e & Ha & He).
  cbn [get_condition Get Client_after answers calls] in Ha |- *.
  rewrite Ha, He. reflexivity.
Qed.

(** The loop never asks more often than it has tries, leaves the answers
    of the server alone, and writes the object only when it succeeds. *)
Lemma Get_loop_bound {Obj : Type} (name namespace : string) (n : nat) :
  forall (c : Client Obj) (obj : Obj),
    let r := backoff_loop n (get_condition IsNotFound name namespace)
               (c, obj) in
    answers (fst (snd r)) = answers c /\
    (calls c <= calls (fst (snd r)) <= n + calls c)%nat /\
    match fst r with
    | None =>
        exists m, calls (fst (snd r)) = S m /\ (calls c <= m)%nat /\
                  answers c m name namespace = Found (snd (snd r))
    | Some _ => snd (snd r) = obj
    end.
Proof.
  induction n as [| n IH]; intros c obj; cbn zeta.
  - cbn. repeat split; lia.
  - cbn [backoff_loop get_condition Get].
    destruct (answers c (calls c) name namespace) as [o | e] eqn:Ha.
    + cbn. split; [reflexivity |]. split; [lia |].
      exists (calls c). repeat split; [lia | exact Ha].
    + destruct (IsNotFound e) eqn:He; cbn [is_err orb fst snd].
      * cbn. repeat split; lia.
      * specialize (IH {| answers := answers c; calls := S (calls c) |} obj).
        cbn zeta in IH. cbn [answers calls] in IH.
        destruct IH as (Hans & Hcalls & Hres).
        split; [exact Hans |]. split; [lia |].
        destruct (fst (backoff_loop n _ _)); [exact Hres |].
        destruct Hres as (m & Hm & Hle & Hfound).
        exists m. repeat split; [exact Hm | lia | exact Hfound].
Qed.

(** A read that meets the object after [k] errors that are not
    NotFound. *)
Lemma Get_retries_transient_errors_gen {Obj : Type} (c : Client Obj)
    (name namespace : string) (obj found : Obj) (backoff : Backoff)
    (resourceType : string) (k : nat) :
  (k < Z.to_nat (Steps backoff))%nat ->
  (forall i, (i < k)%nat ->
     exists e, answers c (i + calls c) name namespace = Failed e /\
               IsNotFound e = false) ->
  answers c (k + calls c) name namespace = Found found ->
  get_resource c name namespace obj backoff resourceType
  = (None, (Client_after c (S k), found)).
Proof.
  intros Hk Htransient Hfound.
  unfold GetResourceWithBackoff, ExponentialBackoffWithContext.
  replace (Z.to_nat (Steps backoff))
    with (k + S (Z.to_nat (Steps backoff) - S k))%nat by lia.
  rewrite Get_loop_skip by exact Htransient.
  cbn [backoff_loop get_condition Get Client_after answers calls].
  rewrite Hfound. reflexivity.
Qed.

(** X13.  Errors that are not NotFound are retried: when the first [k]
    answers are such errors and the next one, still within the tries of
    the backoff, is the object, the object is returned without error after
    [k + 1] calls. *)
Theorem Get_retries_transient_errors {Obj : Type} (c : Client Obj)
    (name namespace : string) (obj found : Obj) (backoff : Backoff)
    (resourceType : string) (k : nat) :
  (k < Z.to_nat (Steps backoff))%nat ->
  (forall i, (i < k)%nat ->
     exists e, answers c (i + calls c) name namespace = Failed e /\
               IsNotFound e = false) ->
  answers c (k + calls c) name namespace = Found found ->
  get_resource c name namespace obj backoff resourceType
  = (None, (Client_after c (S k), found)).
Proof.
  exact (Get_retries_transient_errors_gen c name namespace obj found backoff
           resourceType k).
Qed.

(** X14.  A NotFound error is not retried: it is returned as it is by the
    call that meets it, and the object is not written. *)
Theorem Get_NotFound_is_final {Obj : Type} (c : Client Obj)
    (name namespace : string) (obj : Obj) (backoff : Backoff)
    (resourceType : string) (k : nat) (err : error) :
  (k < Z.to_nat (Steps backoff))%nat ->
  (forall i, (i < k)%nat ->
     exists e, answers c (i + calls c) name namespace = Failed e /\
               IsNotFound e = false) ->
  answers c (k + calls c) name namespace = Failed err ->
  IsNotFound err = true ->
  get_resource c name namespace obj backoff resourceType
  = (Some err, (Client_after c (S k), obj)).
Proof.
  intros Hk Htransient Hfailed Hnf.
  unfold GetResourceWithBackoff, ExponentialBackoffWithContext.
  replace (Z.to_nat (Steps backoff))
    with (k + S (Z.to_nat (Steps backoff) - S k))%nat by lia.
  rewrite Get_loop_skip by exact Htransient.
  cbn [backoff_loop get_condition Get Client_after answers calls].
  rewrite Hfailed, Hnf. reflexivity.
Qed.

(** X15.  When every try meets an error that is not NotFound, the read
    gives up with the timeout error of the backoff after as many calls as
    the backoff has steps; the errors met are not returned. *)
Theorem Get_gives_up {Obj : Type} (c : Client Obj)
    (name namespace : string) (obj : Obj) (backoff : Backoff)
    (resourceType : string) :
  (forall i, (i < Z.to_nat (Steps backoff))%nat ->
     exists e, answers c (i + calls c) name namespace = Failed e /\
               IsNotFound e = false) ->
  get_resource c name namespace obj backoff resourceType
  = (Some ErrWaitTimeout,
     (Client_after c (Z.to_nat (Steps backoff)), obj)).
Proof.
  intros Htransient.
  unfold GetResourceWithBackoff, ExponentialBackoffWithContext.
  replace (Z.to_nat (Steps backoff))
    with (Z.to_nat (Steps backoff) + 0)%nat at 1 by lia.
  rewrite Get_loop_skip by exact Htransient.
  reflexivity.
Qed.

(** X16.  Whatever the server answers, the read makes at most as many
    calls as the backoff has steps; when it returns no error the object is
    the answer to its last call, and when it returns an error the object
    is as it was. *)
Theorem Get_calls_bounded {Obj : Type} (c : Client Obj)
    (name namespace : string) (obj : Obj) (backoff : Backoff)
    (resourceType : string) :
  let r := get_resource c name namespace obj backoff resourceType in
  let c' := fst (snd r) in
  let obj' := snd (snd r) in
  (calls c <= calls c' <= Z.to_nat (Steps backoff) + calls c)%nat /\
  match fst r with
  | None =>
      exists m, calls c' = S m /\ (calls c <= m)%nat /\
                answers c m name namespace = Found obj'
  | Some _ => obj' = obj
  end.
Proof.
  intros r c' obj'. subst r c' obj'.
  unfold GetResourceWithBackoff, ExponentialBackoffWithContext.
  pose proof (Get_loop_bound name namespace (Z.to_nat (Steps backoff)) c obj)
    as H.
  cbn zeta in H. destruct H as (_ & Hcalls & Hres).
  split; [exact Hcalls | exact Hres].
Qed.

(** *** Writing a status *)

Lemma Update_loop_skip (c : StatusWriter) (k n : nat) :
  (forall i, (i < k)%nat ->
     exists e, update_answers c (i + updates c) = Some e /\
               IsInvalid e || IsForbidden e = false) ->
  backoff_loop (k + n) (update_condition IsInvalid IsForbidden) c
  = backoff_loop n (update_condition IsInvalid IsForbidden)
      (StatusWriter_after c k).
Proof.
  intros H. destruct c as [ans m].
  apply (backoff_loop_skip (update_condition IsInvalid IsForbidden) k n
           (fun i =>
              StatusWriter_after {| update_answers := ans; updates := m |} i)).
  intros i Hi. destruct (H i Hi) as (e & Ha & He).
  cbn [update_condition Status_Update StatusWriter_after update_answers
       updates] in Ha |- *.
  rewrite Ha, He. reflexivity.
Qed.

(** X17.  A status update is retried on every error that is neither
    Invalid nor Forbidden.  After [k] such errors: an update that goes
    through ends the retries without error; an Invalid or Forbidden error
    is returned as it is, without another try; and when the tries of the
    backoff are used up the timeout error is returned in place of the
    errors met. *)
Theorem Update_outcome (c : StatusWriter) (backoff : Backoff)
    (resourceType : string) (k : nat) :
  (k <= Z.to_nat (Steps backoff))%nat ->
  (forall i, (i < k)%nat ->
     exists e, update_answers c (i + updates c) = Some e /\
               IsInvalid e || IsForbidden e = false) ->
  let result := update_status c backoff resourceType in
  ((k < Z.to_nat (Steps backoff))%nat ->
   update_answers c (k + updates c) = None ->
   result = (None, StatusWriter_after c (S k))) /\
  (forall e, (k < Z.to_nat (Steps backoff))%nat ->
   update_answers c (k + updates c) = Some e ->
   IsInvalid e || IsForbidden e = true ->
   result = (Some e, StatusWriter_after c (S k))) /\
  (k = Z.to_nat (Steps backoff) ->
   result = (Some ErrWaitTimeout, StatusWriter_after c k)).
Proof.
  intros Hk Htransient result. subst result.
  unfold UpdateStatusWithBackoff, ExponentialBackoffWithContext.
  split; [| split].
  - intros Hlt Hnone.
    replace (Z.to_nat (Steps backoff))
      with (k + S (Z.to_nat (Steps backoff) - S k))%nat by lia.
    rewrite Update_loop_skip by exact Htransient.
    cbn [backoff_loop update_condition Status_Update StatusWriter_after
         update_answers updates].
    rewrite Hnone. reflexivity.
  - intros e Hlt Hsome Hperm.
    replace (Z.to_nat (Steps backoff))
      with (k + S (Z.to_nat (Steps backoff) - S k))%nat by lia.
    rewrite Update_loop_skip by exact Htransient.
    cbn [backoff_loop update_condition Status_Update StatusWriter_after
         update_answers updates].
    rewrite Hsome, Hperm. reflexivity.
  - intros Heq.
    replace (Z.to_nat (Steps backoff)) with (k + 0)%nat by lia.
    rewrite Update_loop_skip by exact Htransient.
    reflexivity.
Qed.

End Retries.

(** *** Validating the Prometheus API *)

Lemma validate_loop (promAPI : PromAPI) (times : nat -> Time) (n : nat) :
  forall first : nat,
    fst (backoff_loop n (validate_condition promAPI)
           {| readings := times; reads := first |})
    = if existsb (fun i => negb (is_err (snd (Query promAPI "up" (times i)))))
                 (seq first n)
      then None else Some ErrWaitTimeout.
Proof.
  induction n as [| n IH]; intros first; [reflexivity |].
  cbn [backoff_loop validate_condition Now readings reads seq existsb].
  destruct (Query promAPI "up" (times first)) as [[val warn] [e |]];
    cbn [snd is_err negb orb]; [| reflexivity].
  apply IH.
Qed.

(** X18.  The validation of the Prometheus API asks the query [up] at up
    to six successive readings of the clock: it returns no error when one
    of them is answered without error, whatever the answer holds, and the
    timeout error otherwise; the errors of Prometheus are not returned. *)
Theorem ValidatePrometheusAPI_outcome (clock : Clock) (promAPI : PromAPI) :
  fst (ValidatePrometheusAPI clock promAPI)
  = if existsb
         (fun i => negb (is_err (snd (Query promAPI "up" (readings clock i)))))
         (seq (reads clock) 6)
    then None else Some ErrWaitTimeout.
Proof.
  destruct clock as [r n].
  exact (validate_loop promAPI r 6 n).
Qed.

(** *** Retries on sample servers *)

(** Two timeouts, then the deployment: three calls. *)
Lemma Get_retries_transient_errors_witness :
  (2 < Z.to_nat (Steps StandardBackoff))%nat /\
  GetDeploymentWithBackoff Cases.IsNotFound Cases.flaky "test" "default"
    Actuator.DeploymentObject_zero
  = (None, (Client_after Cases.flaky 3, Cases.ready)).
Proof.
  split; [vm_compute; lia |].
  apply (Get_retries_transient_errors Cases.IsNotFound Cases.flaky
           "test" "default" Actuator.DeploymentObject_zero Cases.ready
           StandardBackoff "Deployment" 2).
  - vm_compute. lia.
  - intros i Hi. exists "Timeout".
    destruct i as [| [| i]]; [split; reflexivity | split; reflexivity | lia].
  - reflexivity.
Defined.

(** Two timeouts, then NotFound: three calls, and the error as it is. *)
Lemma Get_NotFound_is_final_witness :
  Cases.IsNotFound "NotFound" = true /\
  GetDeploymentWithBackoff Cases.IsNotFound Cases.flaky_missing
    "test" "default" Actuator.DeploymentObject_zero
  = (Some "NotFound",
     (Client_after Cases.flaky_missing 3, Actuator.DeploymentObject_zero)).
Proof.
  split; [reflexivity |].
  apply (Get_NotFound_is_final Cases.IsNotFound Cases.flaky_missing
           "test" "default" Actuator.DeploymentObject_zero
           StandardBackoff "Deployment" 2 "NotFound").
  - vm_compute. lia.
  - intros i Hi. exists "Timeout".
    destruct i as [| [| i]]; [split; reflexivity | split; reflexivity | lia].
  - reflexivity.
  - reflexivity.
Defined.

(** Timeouts only: five calls, and the timeout of the backoff. *)
Lemma Get_gives_up_witness :
  GetDeploymentWithBackoff Cases.IsNotFound Cases.down "test" "default"
    Actuator.DeploymentObject_zero
  = (Some "timed out waiting for the condition",
     (Client_after Cases.down 5, Actuator.DeploymentObject_zero)).
Proof.
  apply (Get_gives_up Cases.IsNotFound Cases.down "test" "default"
           Actuator.DeploymentObject_zero StandardBackoff "Deployment").
  intros i Hi. exists "Timeout". split; reflexivity.
Defined.

(** A conflict and then an accepted update; a conflict and then a refusal;
    conflicts only. *)
Lemma Update_outcome_witness :
  UpdateStatusWithBackoff Cases.IsInvalid Cases.IsForbidden
    Cases.writer_conflict_once ReconcileBackoff "VariantAutoscaling"
  = (None, StatusWriter_after Cases.writer_conflict_once 2) /\
  UpdateStatusWithBackoff Cases.IsInvalid Cases.IsForbidden
    Cases.writer_forbidden ReconcileBackoff "VariantAutoscaling"
  = (Some "Forbidden", StatusWriter_after Cases.writer_forbidden 2) /\
  UpdateStatusWithBackoff Cases.IsInvalid Cases.IsForbidden
    Cases.writer_conflicts ReconcileBackoff "VariantAutoscaling"
  = (Some ErrWaitTimeout, StatusWriter_after Cases.writer_conflicts 5).
Proof.
  split; [| split].
  - apply (Update_outcome Cases.IsInvalid Cases.IsForbidden
             Cases.writer_conflict_once ReconcileBackoff
             "VariantAutoscaling" 1).
    + vm_compute. lia.
    + intros i Hi. exists "Conflict".
      destruct i as [| i]; [split; reflexivity | lia].
    + vm_compute. lia.
    + reflexivity.
  - apply (Update_outcome Cases.IsInvalid Cases.IsForbidden
             Cases.writer_forbidden ReconcileBackoff
             "VariantAutoscaling" 1).
    + vm_compute. lia.
    + intros i Hi. exists "Conflict".
      destruct i as [| i]; [split; reflexivity | lia].
    + vm_compute. lia.
    + reflexivity.
    + reflexivity.
  - apply (Update_outcome Cases.IsInvalid Cases.IsForbidden
             Cases.writer_conflicts ReconcileBackoff
             "VariantAutoscaling" 5).
    + vm_compute. lia.
    + intros i Hi. exists "Conflict". split; reflexivity.
    + reflexivity.
Defined.

(** A Prometheus reachable from the time 3 on is validated by a clock
    that starts at 0, and not by one that runs backwards from 0; one that
    answers [up] with a scalar is validated. *)
Example validates_prometheus :
  fst (ValidatePrometheusAPI (Reference.clock_from 0) Cases.prom_late) = None /\
  snd (ValidatePrometheusAPI (Reference.clock_from 0) Cases.prom_late)
  = {| readings := readings (Reference.clock_from 0); reads := 4 |} /\
  fst (ValidatePrometheusAPI
         {| readings := fun n => - Z.of_nat n; reads := 0 |} Cases.prom_late)
  = Some ErrWaitTimeout /\
  fst (ValidatePrometheusAPI (Reference.clock_from 0) Cases.prom_scalar) = None.
Proof. repeat split; vm_compute; reflexivity. Qed.

(** ** The actuator *)

Section ActuatorProperties.

Import SingleVariant Actuator.

Variable IsNotFound : error -> bool.

Local Abbreviation current_replicas := (getCurrentDeploymentReplicas IsNotFound).
Local Abbreviation emit_step := (EmitMetrics_step IsNotFound).
Local Abbreviation emit_metrics := (EmitMetrics IsNotFound).

(** The replicas a deployment is read as having. *)
Local Abbreviation replicas_of d :=
  (if Status_Replicas d >=? 0 then Status_Replicas d
   else match Spec_Replicas d with Some r => r | None => 1 end).

(** The fallback is the count of the first current allocation of the
    variant identifier, or 0. *)
Lemma fallback_replicas_find (currentAllocs : list Allocation)
    (variantID : string) :
  fallback_replicas currentAllocs variantID
  = match List.find (fun a => String.eqb (alloc_VariantID a) variantID)
                    currentAllocs with
    | Some a => int32 (alloc_NumReplicas a)
    | None => 0
    end.
Proof.
  induction currentAllocs as [| a l IH]; cbn [fallback_replicas List.find];
    [reflexivity |].
  destruct (String.eqb (alloc_VariantID a) variantID); [reflexivity | exact IH].
Qed.

(** Reading the deployment takes at most five calls and leaves the answers
    of the server alone; it succeeds only on an answer that holds the
    deployment. *)
Lemma current_replicas_calls (c : Client DeploymentObject)
    (va : VariantAutoscaling) :
  let r := current_replicas c va in
  answers (snd r) = answers c /\
  (calls c <= calls (snd r) <= 5 + calls c)%nat /\
  (snd (fst r) = None ->
   exists m d, answers c m (Name va) (Namespace va) = Found d).
Proof.
  cbn zeta. unfold getCurrentDeploymentReplicas, GetDeploymentWithBackoff,
    GetResourceWithBackoff, ExponentialBackoffWithContext.
  pose proof (Get_loop_bound IsNotFound (Name va) (Namespace va)
                (Z.to_nat (Steps StandardBackoff)) c DeploymentObject_zero)
    as H.
  cbn zeta in H. change (Z.to_nat (Steps StandardBackoff)) with 5%nat in H |- *.
  destruct (backoff_loop 5 _ _) as [err [c' deploy]].
  cbn [fst snd] in H. destruct H as (Hans & Hcalls & Hres).
  destruct err as [e |].
  - cbn [fst snd]. repeat split; try assumption; try lia. discriminate.
  - destruct Hres as (m & _ & _ & Hfound).
    destruct (Status_Replicas deploy >=? 0);
      [| destruct (Spec_Replicas deploy)];
      cbn [fst snd]; (split; [exact Hans |]); (split; [lia |]);
      intros _; exists m, deploy; exact Hfound.
Qed.

(** A server that holds the deployment is asked once. *)
Lemma current_replicas_served (c : Client DeploymentObject)
    (va : VariantAutoscaling) (d : DeploymentObject) :
  answers c (calls c) (Name va) (Namespace va) = Found d ->
  current_replicas c va = ((replicas_of d, None), Client_after c 1).
Proof.
  intros Hfound.
  unfold getCurrentDeploymentReplicas, GetDeploymentWithBackoff.
  rewrite (Get_retries_transient_errors_gen IsNotFound c (Name va)
             (Namespace va) DeploymentObject_zero d StandardBackoff
             "Deployment" 0).
  - destruct (Status_Replicas d >=? 0); [reflexivity |].
    destruct (Spec_Replicas d); reflexivity.
  - vm_compute. lia.
  - intros i Hi. lia.
  - exact Hfound.
Qed.

(** The loop over the desired allocations: what it adds to the calls
    made. *)
Lemma EmitMetrics_loop (va : VariantAutoscaling)
    (allocs : list OptimizedAlloc) :
  forall (emitted : list EmitCall) (c : Client DeploymentObject),
    let r := foldl (emit_step va) (emitted, c) allocs in
    exists news,
      fst r = (emitted ++ news)%list /\
      map (fun e => (emit_desired e, emit_accelerator e, emit_variantID e))
          news
      = map (fun d => (int32 (opt_NumReplicas d), opt_Accelerator d,
                       opt_VariantID d))
            (List.filter (fun d => negb (opt_NumReplicas d <? 0)) allocs) /\
      answers (snd r) = answers c /\
      (calls c <= calls (snd r) <= 5 * length news + calls c)%nat.
Proof.
  induction allocs as [| d allocs IH]; intros emitted c; cbn zeta.
  - exists []. cbn. rewrite app_nil_r. repeat split; lia.
  - cbn [foldl List.filter].
    remember (emit_step va (emitted, c) d) as acc eqn:Hacc.
    unfold EmitMetrics_step in Hacc.
    destruct (opt_NumReplicas d <? 0) eqn:Hneg; cbn [negb].
    + subst acc. exact (IH emitted c).
    + pose proof (current_replicas_calls c va) as Hc. cbn zeta in Hc.
      destruct (current_replicas c va) as [[current err] c1].
      cbn [fst snd] in Hc. destruct Hc as (Hans & Hcalls & _).
      subst acc.
      match goal with
      | |- context [foldl _ (?em, c1) allocs] =>
          destruct (IH em c1) as (news & Hfst & Hmap & Hans' & Hcalls')
      end.
      eexists (_ :: news). split; [| split; [| split]].
      * rewrite Hfst, <- app_assoc. reflexivity.
      * cbn [map emit_desired emit_accelerator emit_variantID].
        rewrite Hmap. reflexivity.
      * rewrite Hans'. exact Hans.
      * cbn [length]. lia.
Qed.

(** X19.  The emission of metrics never returns an error.  It emits, in
    their order, one signal for each desired allocation whose replica count
    is not negative, with that count, the accelerator and the variant
    identifier of the allocation, and none for the others; for each signal
    it asks the server at most five times. *)
Theorem EmitMetrics_emits_each_allocation (c : Client DeploymentObject)
    (va : VariantAutoscaling) :
  let r := emit_metrics c va in
  let emitted := snd (fst r) in
  fst (fst r) = None /\
  map (fun e => (emit_desired e, emit_accelerator e, emit_variantID e)) emitted
  = map (fun d => (int32 (opt_NumReplicas d), opt_Accelerator d,
                   opt_VariantID d))
        (List.filter (fun d => negb (opt_NumReplicas d <? 0))
                     (DesiredOptimizedAllocs (Status va))) /\
  (calls c <= calls (snd r) <= 5 * length emitted + calls c)%nat.
Proof.
  cbn zeta. unfold EmitMetrics.
  destruct (DesiredOptimizedAllocs (Status va)) as [| d allocs] eqn:E.
  - cbn. repeat split; lia.
  - destruct (EmitMetrics_loop va (d :: allocs) [] c)
      as (news & Hfst & Hmap & _ & Hcalls).
    destruct (foldl _ _ _) as [emitted c'].
    cbn [fst snd app] in *. subst emitted.
    split; [reflexivity |]. split; [exact Hmap | exact Hcalls].
Qed.

(** The loop when the server never holds the deployment. *)
Lemma EmitMetrics_loop_unserved (va : VariantAutoscaling)
    (allocs : list OptimizedAlloc) :
  forall (emitted : list EmitCall) (c : Client DeploymentObject),
    (forall n, exists e, answers c n (Name va) (Namespace va) = Failed e) ->
    Forall (fun e => emit_current e
                     = fallback_replicas (CurrentAllocs (Status va))
                                         (emit_variantID e)) emitted ->
    Forall (fun e => emit_current e
                     = fallback_replicas (CurrentAllocs (Status va))
                                         (emit_variantID e))
           (fst (foldl (emit_step va) (emitted, c) allocs)).
Proof.
  induction allocs as [| d allocs IH]; intros emitted c Hfail Hall.
  - exact Hall.
  - cbn [foldl].
    remember (emit_step va (emitted, c) d) as acc eqn:Hacc.
    unfold EmitMetrics_step in Hacc.
    destruct (opt_NumReplicas d <? 0);
      [subst acc; exact (IH emitted c Hfail Hall) |].
    pose proof (current_replicas_calls c va) as Hc. cbn zeta in Hc.
    destruct (current_replicas c va) as [[current err] c1].
    cbn [fst snd] in Hc. destruct Hc as (Hans & _ & Hserved).
    subst acc. apply IH.
    + rewrite Hans. exact Hfail.
    + apply Forall_app. split; [exact Hall |].
      constructor; [| constructor]. cbn [emit_current emit_variantID].
      destruct err as [e |]; [reflexivity |].
      destruct (Hserved eq_refl) as (m & dep & Hfound).
      destruct (Hfail m) as (e & He). congruence.
Qed.

(** X20.  When the server does not give the deployment (every answer is an
    error), each signal carries for the current replicas the count of the
    first current allocation of the status that has the variant identifier
    of the desired allocation, and 0 when the status has none. *)
Theorem EmitMetrics_falls_back_to_status (c : Client DeploymentObject)
    (va : VariantAutoscaling) :
  (forall n, exists e, answers c n (Name va) (Namespace va) = Failed e) ->
  Forall (fun e =>
            emit_current e
            = match List.find
                      (fun a => String.eqb (alloc_VariantID a)
                                           (emit_variantID e))
                      (CurrentAllocs (Status va)) with
              | Some a => int32 (alloc_NumReplicas a)
              | None => 0
              end)
         (snd (fst (emit_metrics c va))).
Proof.
  intros Hfail. unfold EmitMetrics.
  destruct (DesiredOptimizedAllocs (Status va)) as [| d allocs];
    [constructor |].
  pose proof (EmitMetrics_loop_unserved va (d :: allocs) [] c Hfail
                (List.Forall_nil _)) as H.
  destruct (foldl _ _ _) as [emitted c']. cbn [fst snd] in *.
  eapply Forall_impl; [exact H |].
  intros e He. cbn beta in He. rewrite He. apply fallback_replicas_find.
Qed.

(** The loop when the server holds the deployment. *)
Lemma EmitMetrics_loop_served (va : VariantAutoscaling)
    (dep : DeploymentObject) (allocs : list OptimizedAlloc) :
  forall (emitted : list EmitCall) (c : Client DeploymentObject),
    (forall n, answers c n (Name va) (Namespace va) = Found dep) ->
    let r := foldl (emit_step va) (emitted, c) allocs in
    exists news,
      fst r = (emitted ++ news)%list /\
      Forall (fun e => emit_current e = replicas_of dep) news /\
      calls (snd r) = (length news + calls c)%nat.
Proof.
  induction allocs as [| d allocs IH]; intros emitted c Hserved; cbn zeta.
  - exists []. cbn. rewrite app_nil_r. repeat split. constructor.
  - cbn [foldl].
    remember (emit_step va (emitted, c) d) as acc eqn:Hacc.
    unfold EmitMetrics_step in Hacc.
    destruct (opt_NumReplicas d <? 0);
      [subst acc; exact (IH emitted c Hserved) |].
    rewrite (current_replicas_served c va dep (Hserved (calls c))) in Hacc.
    subst acc.
    match goal with
    | |- context [foldl _ (?em, ?c1) allocs] =>
        destruct (IH em c1 Hserved) as (news & Hfst & Hall & Hcalls)
    end.
    eexists (_ :: news). split; [| split].
    + rewrite Hfst, <- app_assoc. reflexivity.
    + constructor; [reflexivity | exact Hall].
    + rewrite Hcalls. cbn [Client_after calls length]. lia.
Qed.

(** X21.  When the server gives the deployment named as the variant, each
    signal carries for the current replicas those of the deployment: the
    replicas of its status when they are not negative, else those of its
    specification, else 1; the current allocations of the status are not
    used, and the server is asked once for each signal. *)
Theorem EmitMetrics_reads_the_deployment (c : Client DeploymentObject)
    (va : VariantAutoscaling) (dep : DeploymentObject) :
  (forall n, answers c n (Name va) (Namespace va) = Found dep) ->
  let r := emit_metrics c va in
  let emitted := snd (fst r) in
  Forall (fun e => emit_current e = replicas_of dep) emitted /\
  calls (snd r) = (length emitted + calls c)%nat.
Proof.
  intros Hserved. cbn zeta. unfold EmitMetrics.
  destruct (DesiredOptimizedAllocs (Status va)) as [| d allocs].
  - cbn. split; [constructor | reflexivity].
  - destruct (EmitMetrics_loop_served va dep (d :: allocs) [] c Hserved)
      as (news & Hfst & Hall & Hcalls).
    destruct (foldl _ _ _) as [emitted c'].
    cbn [fst snd app] in *. subst emitted.
    split; [exact Hall | exact Hcalls].
Qed.

End ActuatorProperties.

(** *** The actuator on sample servers *)

(** With the deployment missing, the first signal takes the two replicas
    of the current allocation of its variant and the second, whose variant
    has no current allocation, takes 0; the allocation with a negative
    count gives no signal.  The server is asked once for each signal, as
    NotFound is not retried. *)
Example emits_with_fallback :
  Actuator.EmitMetrics Cases.IsNotFound Cases.missing Cases.optimized
  = (None,
     [ {| Actuator.emit_current := 2; Actuator.emit_desired := 3;
          Actuator.emit_accelerator := "A100";
          Actuator.emit_variantID := "default/default-A100-1" |};
       {| Actuator.emit_current := 0; Actuator.emit_desired := 1;
          Actuator.emit_accelerator := "H100";
          Actuator.emit_variantID := "default/default-H100-1" |} ],
     Client_after Cases.missing 2).
Proof. vm_compute. reflexivity. Qed.

(** With a server that times out always, each signal costs five calls. *)
Example emits_after_timeouts :
  calls (snd (Actuator.EmitMetrics Cases.IsNotFound Cases.down Cases.optimized))
  = 10%nat /\
  map Actuator.emit_current
      (snd (fst (Actuator.EmitMetrics Cases.IsNotFound Cases.down Cases.optimized)))
  = [2; 0].
Proof. split; vm_compute; reflexivity. Qed.

(** Without desired allocations nothing is emitted and nothing asked. *)
Example emits_nothing :
  Actuator.EmitMetrics Cases.IsNotFound Cases.serving Sample.variant
  = (None, [], Cases.serving).
Proof. reflexivity. Qed.

Lemma EmitMetrics_falls_back_to_status_witness :
  Forall (fun e =>
            Actuator.emit_current e
            = match List.find
                      (fun a => String.eqb (SingleVariant.alloc_VariantID a)
                                           (Actuator.emit_variantID e))
                      (SingleVariant.CurrentAllocs
                         (SingleVariant.Status Cases.optimized)) with
              | Some a => Actuator.int32 (SingleVariant.alloc_NumReplicas a)
              | None => 0
              end)
         (snd (fst (Actuator.EmitMetrics Cases.IsNotFound Cases.missing
                      Cases.optimized))).
Proof.
  apply (EmitMetrics_falls_back_to_status Cases.IsNotFound Cases.missing
           Cases.optimized).
  intros n. exists "NotFound". reflexivity.
Defined.

(** The deployment runs two replicas: both signals say so. *)
Lemma EmitMetrics_reads_the_deployment_witness :
  Forall (fun e => Actuator.emit_current e = 2)
         (snd (fst (Actuator.EmitMetrics Cases.IsNotFound Cases.serving
                      Cases.optimized))) /\
  calls (snd (Actuator.EmitMetrics Cases.IsNotFound Cases.serving Cases.optimized))
  = 2%nat.
Proof.
  exact (EmitMetrics_reads_the_deployment Cases.IsNotFound Cases.serving
           Cases.optimized Cases.ready (fun n => eq_refl)).
Defined.

(** ** The inventory of accelerators *)

Section InventoryProperties.

Import Inventory.

Local Abbreviation node_step :=
  (fun inv node => foldl (vendor_step node) inv vendors).

(** The entry a node gives for a vendor. *)
Local Abbreviation info_of node vendor :=
  {| Count := match node_Allocatable node !! (vendor +:+ "/gpu") with
              | Some cap => cap
              | None => 0
              end;
     Memory := map_get (node_Labels node) (vendor +:+ "/gpu.memory") |}.

(** Where an entry comes from: it was there, or the step adds it. *)
Lemma vendor_step_sound (node : Node)
    (inv : gmap string (gmap string AcceleratorModelInfo)) (vendor : string)
    (n : string) (inner : gmap string AcceleratorModelInfo)
    (model : string) (info : AcceleratorModelInfo) :
  vendor_step node inv vendor !! n = Some inner ->
  inner !! model = Some info ->
  (exists inner0, inv !! n = Some inner0 /\ inner0 !! model = Some info) \/
  (n = node_Name node /\
   node_Labels node !! (vendor +:+ "/gpu.product") = Some model /\
   info = info_of node vendor).
Proof.
  unfold vendor_step.
  destruct (node_Labels node !! (vendor +:+ "/gpu.product")) as [model' |]
    eqn:Hlabel; [| intros H1 H2; left; eauto].
  destruct (decide (n = node_Name node)) as [-> | Hn].
  - rewrite lookup_insert_eq. intros H1 H2. inversion H1; subst inner.
    destruct (decide (model = model')) as [-> | Hm].
    + rewrite lookup_insert_eq in H2. inversion H2; subst info.
      right. repeat split; reflexivity.
    + rewrite lookup_insert_ne in H2 by congruence.
      destruct (inv !! node_Name node) as [inner0 |]; cbn [default] in H2.
      * left. eauto.
      * rewrite lookup_empty in H2. discriminate.
  - rewrite lookup_insert_ne by congruence. intros H1 H2. left. eauto.
Qed.

(** A step drops nothing, and leaves no node with an empty entry. *)
Lemma vendor_step_keeps (node : Node)
    (inv : gmap string (gmap string AcceleratorModelInfo)) (vendor : string)
    (n : string) (inner : gmap string AcceleratorModelInfo)
    (model : string) (info : AcceleratorModelInfo) :
  inv !! n = Some inner -> inner !! model = Some info ->
  exists inner' info',
    vendor_step node inv vendor !! n = Some inner' /\
    inner' !! model = Some info'.
Proof.
  intros H1 H2. unfold vendor_step.
  destruct (node_Labels node !! (vendor +:+ "/gpu.product")) as [model' |];
    [| eauto].
  destruct (decide (n = node_Name node)) as [-> | Hn].
  - rewrite lookup_insert_eq, H1. cbn [default].
    destruct (decide (model = model')) as [-> | Hm].
    + eexists _, _. split; [reflexivity |]. apply lookup_insert_eq.
    + eexists _, _. split; [reflexivity |].
      rewrite lookup_insert_ne by congruence. exact H2.
  - rewrite lookup_insert_ne by congruence. eauto.
Qed.

Lemma vendor_step_adds (node : Node)
    (inv : gmap string (gmap string AcceleratorModelInfo)) (vendor : string)
    (model : string) :
  node_Labels node !! (vendor +:+ "/gpu.product") = Some model ->
  exists inner,
    vendor_step node inv vendor !! node_Name node = Some inner /\
    inner !! model = Some (info_of node vendor).
Proof.
  intros Hlabel. unfold vendor_step. rewrite Hlabel.
  rewrite lookup_insert_eq. eexists. split; [reflexivity |].
  apply lookup_insert_eq.
Qed.

Lemma vendor_step_non_empty (node : Node)
    (inv : gmap string (gmap string AcceleratorModelInfo)) (vendor : string) :
  (forall n inner, inv !! n = Some inner -> inner <> ∅) ->
  forall n inner, vendor_step node inv vendor !! n = Some inner -> inner <> ∅.
Proof.
  intros Hinv n inner. unfold vendor_step.
  destruct (node_Labels node !! (vendor +:+ "/gpu.product")) as [model' |];
    [| apply Hinv].
  destruct (decide (n = node_Name node)) as [-> | Hn].
  - rewrite lookup_insert_eq. intros H; inversion H.
    apply insert_non_empty.
  - rewrite lookup_insert_ne by congruence. apply Hinv.
Qed.

(** The same for the vendors of a node ... *)
Lemma vendors_sound (node : Node) (vs : list string) :
  forall (inv : gmap string (gmap string AcceleratorModelInfo))
         (n : string) (inner : gmap string AcceleratorModelInfo)
         (model : string) (info : AcceleratorModelInfo),
    foldl (vendor_step node) inv vs !! n = Some inner ->
    inner !! model = Some info ->
    (exists inner0, inv !! n = Some inner0 /\ inner0 !! model = Some info) \/
    (exists vendor, vendor ∈ vs /\ n = node_Name node /\
       node_Labels node !! (vendor +:+ "/gpu.product") = Some model /\
       info = info_of node vendor).
Proof.
  induction vs as [| v vs IH]; intros inv n inner model info H1 H2.
  - left. eauto.
  - cbn [foldl] in H1.
    destruct (IH _ _ _ _ _ H1 H2) as [(inner0 & H3 & H4) | (vendor & Hin & H)].
    + destruct (vendor_step_sound _ _ _ _ _ _ _ H3 H4) as [Hold | Hnew].
      * left. exact Hold.
      * right. exists v. split; [left | exact Hnew].
    + right. exists vendor. split; [right; exact Hin | exact H].
Qed.

Lemma vendors_keep (node : Node) (vs : list string) :
  forall (inv : gmap string (gmap string AcceleratorModelInfo))
         (n : string) (inner : gmap string AcceleratorModelInfo)
         (model : string) (info : AcceleratorModelInfo),
    inv !! n = Some inner -> inner !! model = Some info ->
    exists inner' info',
      foldl (vendor_step node) inv vs !! n = Some inner' /\
      inner' !! model = Some info'.
Proof.
  induction vs as [| v vs IH]; intros inv n inner model info H1 H2.
  - eauto.
  - cbn [foldl].
    destruct (vendor_step_keeps node inv v _ _ _ _ H1 H2)
      as (inner' & info' & H3 & H4).
    exact (IH _ _ _ _ _ H3 H4).
Qed.

Lemma vendors_add (node : Node) (vs : list string) :
  forall (inv : gmap string (gmap string AcceleratorModelInfo))
         (vendor model : string),
    vendor ∈ vs ->
    node_Labels node !! (vendor +:+ "/gpu.product") = Some model ->
    exists inner info,
      foldl (vendor_step node) inv vs !! node_Name node = Some inner /\
      inner !! model = Some info.
Proof.
  induction vs as [| v vs IH]; intros inv vendor model Hin Hlabel.
  - inversion Hin.
  - cbn [foldl]. apply elem_of_cons in Hin as [-> | Hin].
    + destruct (vendor_step_adds node inv v model Hlabel) as (inner & H1 & H2).
      exact (vendors_keep node vs _ _ _ _ _ H1 H2).
    + exact (IH _ vendor model Hin Hlabel).
Qed.

Lemma vendors_non_empty (node : Node) (vs : list string) :
  forall inv : gmap string (gmap string AcceleratorModelInfo),
    (forall n inner, inv !! n = Some inner -> inner <> ∅) ->
    forall n inner,
      foldl (vendor_step node) inv vs !! n = Some inner -> inner <> ∅.
Proof.
  induction vs as [| v vs IH]; intros inv Hinv; [exact Hinv |].
  cbn [foldl]. apply IH. apply vendor_step_non_empty. exact Hinv.
Qed.

(** ... and for the nodes of the list. *)
Lemma nodes_sound (nodes : list Node) :
  forall (inv : gmap string (gmap string AcceleratorModelInfo))
         (n : string) (inner : gmap string AcceleratorModelInfo)
         (model : string) (info : AcceleratorModelInfo),
    foldl node_step inv nodes !! n = Some inner ->
    inner !! model = Some info ->
    (exists inner0, inv !! n = Some inner0 /\ inner0 !! model = Some info) \/
    (exists node vendor, node ∈ nodes /\ vendor ∈ vendors /\
       node_Name node = n /\
       node_Labels node !! (vendor +:+ "/gpu.product") = Some model /\
       info = info_of node vendor).
Proof.
  induction nodes as [| node nodes IH]; intros inv n inner model info H1 H2.
  - left. eauto.
  - cbn [foldl] in H1.
    destruct (IH _ _ _ _ _ H1 H2)
      as [(inner0 & H3 & H4) | (node' & vendor & Hin & H)].
    + destruct (vendors_sound node vendors _ _ _ _ _ H3 H4)
        as [Hold | (vendor & Hin & -> & Hnew)].
      * left. exact Hold.
      * right. exists node, vendor.
        split; [left |]. split; [exact Hin |]. split; [reflexivity |].
        exact Hnew.
    + right. exists node', vendor. split; [right; exact Hin | exact H].
Qed.

Lemma nodes_keep (nodes : list Node) :
  forall (inv : gmap string (gmap string AcceleratorModelInfo))
         (n : string) (inner : gmap string AcceleratorModelInfo)
         (model : string) (info : AcceleratorModelInfo),
    inv !! n = Some inner -> inner !! model = Some info ->
    exists inner' info',
      foldl node_step inv nodes !! n = Some inner' /\
      inner' !! model = Some info'.
Proof.
  induction nodes as [| node nodes IH]; intros inv n inner model info H1 H2.
  - eauto.
  - cbn [foldl].
    destruct (vendors_keep node vendors inv _ _ _ _ H1 H2)
      as (inner' & info' & H3 & H4).
    exact (IH _ _ _ _ _ H3 H4).
Qed.

Lemma nodes_add (nodes : list Node) :
  forall (inv : gmap string (gmap string AcceleratorModelInfo))
         (node : Node) (vendor model : string),
    node ∈ nodes -> vendor ∈ vendors ->
    node_Labels node !! (vendor +:+ "/gpu.product") = Some model ->
    exists inner info,
      foldl node_step inv nodes !! node_Name node = Some inner /\
      inner !! model = Some info.
Proof.
  induction nodes as [| node' nodes IH];
    intros inv node vendor model Hin Hv Hlabel.
  - inversion Hin.
  - cbn [foldl]. apply elem_of_cons in Hin as [-> | Hin].
    + destruct (vendors_add node' vendors inv vendor model Hv Hlabel)
        as (inner & info & H1 & H2).
      exact (nodes_keep nodes _ _ _ _ _ H1 H2).
    + exact (IH _ node vendor model Hin Hv Hlabel).
Qed.

Lemma nodes_non_empty (nodes : list Node) :
  forall inv : gmap string (gmap string AcceleratorModelInfo),
    (forall n inner, inv !! n = Some inner -> inner <> ∅) ->
    forall n inner, foldl node_step inv nodes !! n = Some inner -> inner <> ∅.
Proof.
  induction nodes as [| node nodes IH]; intros inv Hinv; [exact Hinv |].
  cbn [foldl]. apply IH. apply vendors_non_empty. exact Hinv.
Qed.

(** Among nodes of different names a node is known by its name. *)
Lemma node_of_name (nodes : list Node) (node node' : Node) :
  NoDup (node_Name <$> nodes) ->
  node ∈ nodes -> node' ∈ nodes -> node_Name node = node_Name node' ->
  node = node'.
Proof.
  induction nodes as [| a l IH]; intros Hnd Hin Hin' Hname.
  - inversion Hin.
  - cbn [fmap list_fmap] in Hnd. apply NoDup_cons in Hnd as [Hnotin Hnd].
    apply elem_of_cons in Hin as [-> | Hin];
      apply elem_of_cons in Hin' as [-> | Hin'].
    + reflexivity.
    + exfalso. apply Hnotin. rewrite Hname.
      apply list_elem_of_fmap. eauto.
    + exfalso. apply Hnotin. rewrite <- Hname.
      apply list_elem_of_fmap. eauto.
    + exact (IH Hnd Hin Hin' Hname).
Qed.

(** What a successful listing gives. *)
Lemma CollectInventoryK8S_listed (nodes : list Node)
    (inv : gmap string (gmap string AcceleratorModelInfo)) :
  fst (CollectInventoryK8S (nodes, None)) = Some inv ->
  inv = foldl node_step ∅ nodes.
Proof. cbn. intros H. inversion H. reflexivity. Qed.

(** X22.  Every entry of the inventory comes from a listed node of that
    name that carries the product label of one of the three vendors with
    the model of the entry; its memory is the memory label of that vendor
    (empty when the node has none) and its count the allocatable quantity
    of the vendor's resource (0 when the node has none). *)
Theorem inventory_entries_sound (nodes : list Node)
    (inv : gmap string (gmap string AcceleratorModelInfo))
    (n : string) (inner : gmap string AcceleratorModelInfo)
    (model : string) (info : AcceleratorModelInfo) :
  fst (CollectInventoryK8S (nodes, None)) = Some inv ->
  inv !! n = Some inner ->
  inner !! model = Some info ->
  exists node vendor,
    node ∈ nodes /\ vendor ∈ vendors /\ node_Name node = n /\
    node_Labels node !! (vendor +:+ "/gpu.product") = Some model /\
    Memory info = map_get (node_Labels node) (vendor +:+ "/gpu.memory") /\
    Count info = match node_Allocatable node !! (vendor +:+ "/gpu") with
                 | Some cap => cap
                 | None => 0
                 end.
Proof.
  intros Hinv H1 H2. apply CollectInventoryK8S_listed in Hinv. subst inv.
  destruct (nodes_sound nodes ∅ n inner model info H1 H2)
    as [(inner0 & H3 & _) | (node & vendor & Hin & Hv & Hn & Hl & ->)].
  - rewrite lookup_empty in H3. discriminate.
  - exists node, vendor. repeat split; assumption.
Qed.

(** X23.  The inventory has an entry for a node name exactly when a listed
    node of that name carries the product label of one of the three
    vendors; a node without such a label is left out, and no entry is
    empty. *)
Theorem inventory_lists_labelled_nodes (nodes : list Node)
    (inv : gmap string (gmap string AcceleratorModelInfo)) (n : string) :
  fst (CollectInventoryK8S (nodes, None)) = Some inv ->
  (is_Some (inv !! n) <->
   exists node vendor,
     node ∈ nodes /\ vendor ∈ vendors /\ node_Name node = n /\
     is_Some (node_Labels node !! (vendor +:+ "/gpu.product"))) /\
  inv !! n <> Some ∅.
Proof.
  intros Hinv. apply CollectInventoryK8S_listed in Hinv. subst inv.
  assert (forall inner, foldl node_step ∅ nodes !! n = Some inner ->
                        inner <> ∅) as Hne.
  { intros inner. apply (nodes_non_empty nodes ∅).
    intros n' inner' H. rewrite lookup_empty in H. discriminate. }
  split; [split |].
  - intros [inner H1].
    destruct (map_choose inner (Hne inner H1)) as (model & info & H2).
    destruct (nodes_sound nodes ∅ n inner model info H1 H2)
      as [(inner0 & H3 & _) | (node & vendor & Hin & Hv & Hn & Hl & _)].
    + rewrite lookup_empty in H3. discriminate.
    + exists node, vendor. repeat split; try assumption. eauto.
  - intros (node & vendor & Hin & Hv & <- & [model Hl]).
    destruct (nodes_add nodes ∅ node vendor model Hin Hv Hl)
      as (inner & info & H1 & _).
    eauto.
  - intros H. exact (Hne ∅ H eq_refl).
Qed.

(** X24.  When no two listed nodes have one name and a node carries a
    model under one vendor only, the inventory holds for that node and
    model the count and the memory of that vendor on that node. *)
Theorem inventory_entry_of_node (nodes : list Node)
    (inv : gmap string (gmap string AcceleratorModelInfo))
    (node : Node) (vendor model : string) :
  fst (CollectInventoryK8S (nodes, None)) = Some inv ->
  NoDup (node_Name <$> nodes) ->
  node ∈ nodes -> vendor ∈ vendors ->
  node_Labels node !! (vendor +:+ "/gpu.product") = Some model ->
  (forall vendor', vendor' ∈ vendors ->
     node_Labels node !! (vendor' +:+ "/gpu.product") = Some model ->
     vendor' = vendor) ->
  exists inner,
    inv !! node_Name node = Some inner /\
    inner !! model
    = Some {| Count := match node_Allocatable node !! (vendor +:+ "/gpu") with
                       | Some cap => cap
                       | None => 0
                       end;
              Memory := map_get (node_Labels node)
                                (vendor +:+ "/gpu.memory") |}.
Proof.
  intros Hinv Hnd Hin Hv Hl Hone.
  apply CollectInventoryK8S_listed in Hinv. subst inv.
  destruct (nodes_add nodes ∅ node vendor model Hin Hv Hl)
    as (inner & info & H1 & H2).
  exists inner. split; [exact H1 |]. rewrite H2. f_equal.
  destruct (nodes_sound nodes ∅ _ inner model info H1 H2)
    as [(inner0 & H3 & _) | (node' & vendor' & Hin' & Hv' & Hn & Hl' & ->)].
  - rewrite lookup_empty in H3. discriminate.
  - assert (node' = node) as ->
      by exact (node_of_name nodes node' node Hnd Hin' Hin Hn).
    rewrite (Hone vendor' Hv' Hl'). reflexivity.
Qed.

End InventoryProperties.

(** *** The inventory of sample nodes *)

Example collects_inventory :
  Inventory.CollectInventoryK8S (Cases.nodes, None)
  = (Some Cases.inventory, None) /\
  Inventory.CollectInventoryK8S (Cases.nodes, Some "forbidden")
  = (None, Some "failed to list nodes: forbidden").
Proof. split; vm_compute; reflexivity. Qed.

Lemma inventory_entries_sound_witness :
  exists node vendor,
    node ∈ Cases.nodes /\ vendor ∈ Inventory.vendors /\
    Inventory.node_Name node = "node-1" /\
    Inventory.node_Labels node !! (vendor +:+ "/gpu.product") = Some "A100" /\
    Inventory.Memory Cases.a100_info
    = map_get (Inventory.node_Labels node) (vendor +:+ "/gpu.memory") /\
    Inventory.Count Cases.a100_info
    = match Inventory.node_Allocatable node !! (vendor +:+ "/gpu") with
      | Some cap => cap
      | None => 0
      end.
Proof.
  apply (inventory_entries_sound Cases.nodes Cases.inventory "node-1"
           {[ "A100" := Cases.a100_info ]} "A100" Cases.a100_info);
    vm_compute; reflexivity.
Defined.

(** The node without accelerators is not in the inventory. *)
Lemma inventory_lists_labelled_nodes_witness :
  (is_Some (Cases.inventory !! "node-3") <->
   exists node vendor,
     node ∈ Cases.nodes /\ vendor ∈ Inventory.vendors /\
     Inventory.node_Name node = "node-3" /\
     is_Some (Inventory.node_Labels node !! (vendor +:+ "/gpu.product"))) /\
  Cases.inventory !! "node-3" <> Some ∅.
Proof.
  apply (inventory_lists_labelled_nodes Cases.nodes Cases.inventory "node-3").
  vm_compute. reflexivity.
Defined.

Lemma inventory_entry_of_node_witness :
  exists inner,
    Cases.inventory !! "node-1" = Some inner /\
    inner !! "A100" = Some Cases.a100_info.
Proof.
  apply (inventory_entry_of_node Cases.nodes Cases.inventory Cases.gpu_node
           "nvidia.com" "A100").
  - vm_compute. reflexivity.
  - repeat (apply NoDup_cons; split;
            [rewrite ?elem_of_cons, elem_of_nil; intros H;
             repeat destruct H as [H | H]; try discriminate; exact H |]).
    apply NoDup_nil_2.
  - left.
  - left.
  - reflexivity.
  - intros vendor' Hin Hl.
    repeat (apply elem_of_cons in Hin as [-> | Hin]; [try reflexivity |]).
    + vm_compute in Hl. discriminate.
    + vm_compute in Hl. discriminate.
    + inversion Hin.
Defined.

(** ** The builders, further *)

Section BuilderFurther.

Variable ParseFloat : string -> Z -> float64 * option error.
Variable yaml_Unmarshal : string -> ServiceClass * option error.
Variable range : forall A : Type, gmap string A -> list (string * A).

(** The specification made of a decoded service class. *)
Local Abbreviation spec_of sc :=
  {| class_Name := sc_Name sc;
     class_Priority := sc_Priority sc;
     class_ModelTargets :=
       map (fun entry =>
              {| target_Model := entry_Model entry;
                 SLO_ITL := float32_of_int (SLOTPOT entry);
                 SLO_TTFT := float32_of_int (SLOTTFT entry) |})
           (sc_Data sc) |}.

Local Abbreviation class_of :=
  (fun kv : string * string =>
     if is_err (snd (yaml_Unmarshal (snd kv))) then None
     else Some (spec_of (fst (yaml_Unmarshal (snd kv))))).

(** The loop over the service classes keeps, in the order of the visit,
    the documents that decode. *)
Lemma service_class_loop (l : list (string * string)) :
  forall acc,
    foldl (service_class_step yaml_Unmarshal) acc l
    = (acc ++ omap class_of l)%list.
Proof.
  induction l as [| [key val] l IH]; intros acc; cbn [foldl omap list_omap].
  - rewrite app_nil_r. reflexivity.
  - rewrite IH. unfold service_class_step. cbn [fst snd].
    destruct (yaml_Unmarshal val) as [sc [e |]]; cbn [is_err fst snd];
      [reflexivity |].
    rewrite <- app_assoc. reflexivity.
Qed.

Lemma omap_length_filter {A B : Type} (f : A -> option B) (l : list A) :
  length (omap f l)
  = length (List.filter (fun a => match f a with Some _ => true | None => false end) l).
Proof.
  induction l as [| a l IH]; cbn [omap list_omap List.filter]; [reflexivity |].
  destruct (f a); cbn [length]; rewrite IH; reflexivity.
Qed.

(** X25.  The builder makes one service-class specification from each
    document of the config map that decodes, whatever its key: it has the
    name and the priority of the document and one target for each of its
    entries, with the two objectives converted to float32.  A document
    that does not decode is skipped without an error, and two documents of
    one class name give two specifications.  The performance data, the
    servers and the capacity start empty, in unlimited mode. *)
Theorem service_classes_of_decodable_documents
    (acceleratorCm : gmap string (gmap string string))
    (serviceClassCm : gmap string string) :
  range _ serviceClassCm ≡ₚ map_to_list serviceClassCm ->
  let sd := CreateSystemData ParseFloat yaml_Unmarshal range
              acceleratorCm serviceClassCm in
  (forall spec : ServiceClassSpec,
      spec ∈ ServiceClasses sd <->
      exists key val sc,
        serviceClassCm !! key = Some val /\
        yaml_Unmarshal val = (sc, None) /\
        spec = spec_of sc) /\
  length (ServiceClasses sd)
  = length (List.filter
              (fun kv => negb (is_err (snd (yaml_Unmarshal (snd kv)))))
              (map_to_list serviceClassCm)) /\
  PerfData sd = [] /\ Servers sd = [] /\ Capacity sd = [] /\
  Optimizer sd = {| Unlimited := true; SaturationPolicy := "" |}.
Proof.
  intros Hperm sd.
  assert (ServiceClasses sd ≡ₚ omap class_of (map_to_list serviceClassCm))
    as Hsc.
  { subst sd. cbn [CreateSystemData ServiceClasses].
    rewrite service_class_loop. cbn [app]. rewrite Hperm. reflexivity. }
  split; [| split; [| repeat split]].
  - intros spec. rewrite Hsc, list_elem_of_omap. split.
    + intros ([key val] & Hin & E). cbn [fst snd] in E.
      apply elem_of_map_to_list in Hin.
      destruct (yaml_Unmarshal val) as [sc [e |]] eqn:Hy;
        cbn [is_err fst snd] in E; [discriminate |].
      inversion E. exists key, val, sc. repeat split; assumption.
    + intros (key & val & sc & Hl & Hy & ->). exists (key, val).
      split; [apply elem_of_map_to_list, Hl |].
      cbn [fst snd]. rewrite Hy. reflexivity.
  - rewrite (Permutation_length Hsc), omap_length_filter.
    f_equal. apply List.filter_ext. intros [key val]. cbn [snd].
    destruct (is_err (snd (yaml_Unmarshal val))); reflexivity.
Qed.

End BuilderFurther.

Section AdaptersFurther.

Variable ParseFloat : string -> Z -> float64 * option error.
Variable env : Environ.

(** X26.  A profile that is not malformed is always added: the call
    returns no error and appends to the performance data one record, with
    the model, the accelerator, the count and the batch size it was given
    and, for coefficients, the numbers ParseFloat reads converted to
    float32; the rest of the system data is as it was. *)
Theorem wellformed_profile_is_added
    (sd : SystemData) (modelName accelerator : string) (count : Z)
    (vp : SingleVariant.VariantProfile) :
  ~ malformed ParseFloat (SingleVariant.vp_PerfParms vp) ->
  let decode := pp_DecodeParms (SingleVariant.vp_PerfParms vp) in
  let prefill := pp_PrefillParms (SingleVariant.vp_PerfParms vp) in
  let coefficient (m : gmap string string) (k : string) :=
    to_float32 (fst (ParseFloat (map_get m k) 32)) in
  SingleVariant.AddVariantProfileToSystemData ParseFloat
    sd modelName accelerator count vp
  = (set_PerfData sd
       (PerfData sd ++
        [ {| perf_Name := modelName;
             perf_Acc := accelerator;
             perf_AccCount := count;
             perf_MaxBatchSize := SingleVariant.vp_MaxBatchSize vp;
             perf_DecodeParms :=
               {| Alpha := coefficient decode "alpha";
                  Beta := coefficient decode "beta" |};
             perf_PrefillParms :=
               {| Gamma := coefficient prefill "gamma";
                  Delta := coefficient prefill "delta" |} |} ]),
     None).
Proof.
  intros Hgood decode prefill coefficient.
  subst decode prefill coefficient.
  unfold SingleVariant.AddVariantProfileToSystemData.
  profile_checks;
    try (exfalso; apply Hgood; unfold malformed, unparseable;
         repeat match goal with
                | H : (map_len _ <? 2) = true |- _ => apply map_len_lt_2 in H
                | H : ParseFloat ?s 32 = _ |- _ => rewrite H
                end; cbn; tauto).
  reflexivity.
Qed.

(** X27.  For a variant with a current allocation the server builder
    never fails, whatever its numbers read.  It appends one server and
    changes nothing else: the server is named by the name and the
    namespace of the variant, has the given class and the model of the
    variant, keeps its accelerator, has the batch size of the profile when
    that is positive (else 0) and no desired allocation; accelerator,
    replicas and batch of its current allocation are those of the first
    current allocation of the status, the others being ignored. *)
Theorem server_of_variant
    (sd : SystemData) (va : SingleVariant.VariantAutoscaling)
    (className : string) (currentAlloc : SingleVariant.Allocation)
    (others : list SingleVariant.Allocation) :
  SingleVariant.CurrentAllocs (SingleVariant.Status va)
  = currentAlloc :: others ->
  exists server,
    SingleVariant.AddServerInfoToSystemData ParseFloat env sd va className
    = (set_Servers sd (Servers sd ++ [server]), None) /\
    srv_Name server
    = FullName (SingleVariant.Name va) (SingleVariant.Namespace va) /\
    srv_Class server = className /\
    srv_Model server = SingleVariant.ModelID (SingleVariant.Spec va) /\
    srv_KeepAccelerator server = true /\
    srv_MaxBatchSize server
    = Z.max 0 (SingleVariant.vp_MaxBatchSize
                 (SingleVariant.spec_VariantProfile (SingleVariant.Spec va))) /\
    srv_DesiredAlloc server = AllocationData_zero /\
    ad_Accelerator (srv_CurrentAlloc server)
    = SingleVariant.alloc_Accelerator currentAlloc /\
    ad_NumReplicas (srv_CurrentAlloc server)
    = SingleVariant.alloc_NumReplicas currentAlloc /\
    ad_MaxBatch (srv_CurrentAlloc server)
    = SingleVariant.alloc_MaxBatch currentAlloc.
Proof.
  intros Hallocs. unfold SingleVariant.AddServerInfoToSystemData.
  rewrite Hallocs.
  repeat match goal with
         | |- context [let '(_, _) := ?p in _] => destruct p as [? ?]
         end.
  eexists. split; [reflexivity |].
  cbn [srv_Name srv_Class srv_Model srv_KeepAccelerator srv_MaxBatchSize
       srv_DesiredAlloc srv_CurrentAlloc ad_Accelerator ad_NumReplicas
       ad_MaxBatch].
  repeat split.
  destruct (Z.gtb_spec
              (SingleVariant.vp_MaxBatchSize
                 (SingleVariant.spec_VariantProfile (SingleVariant.Spec va)))
              0); lia.
Qed.

(** X28.  For the resource with accelerator profiles the server builder
    has no error to return: it always appends one server, named by the
    name and the namespace of the variant, with the given class and the
    model of the variant, that keeps its accelerator.  Its batch size is
    that of the first profile whose accelerator is the one named by the
    label of the variant (not the one of the current allocation), when
    positive, and 0 otherwise; accelerator, replicas and batch of its
    current allocation are those of the status. *)
Theorem server_of_model_variant
    (sd : SystemData) (va : AcceleratorProfiles.VariantAutoscaling)
    (className : string) :
  let labelled :=
    map_get (AcceleratorProfiles.Labels va)
            "inference.optimization/acceleratorName" in
  let current :=
    AcceleratorProfiles.CurrentAlloc (AcceleratorProfiles.Status va) in
  exists server,
    AcceleratorProfiles.AddServerInfoToSystemData ParseFloat env
      sd va className
    = (set_Servers sd (Servers sd ++ [server]), None) /\
    srv_Name server
    = FullName (AcceleratorProfiles.Name va)
               (AcceleratorProfiles.Namespace va) /\
    srv_Class server = className /\
    srv_Model server
    = AcceleratorProfiles.ModelID (AcceleratorProfiles.Spec va) /\
    srv_KeepAccelerator server = true /\
    srv_MaxBatchSize server
    = match List.find
              (fun ap => String.eqb (AcceleratorProfiles.Acc ap) labelled)
              (AcceleratorProfiles.mp_Accelerators
                 (AcceleratorProfiles.spec_ModelProfile
                    (AcceleratorProfiles.Spec va))) with
      | Some ap => Z.max 0 (AcceleratorProfiles.MaxBatchSize ap)
      | None => 0
      end /\
    srv_DesiredAlloc server = AllocationData_zero /\
    ad_Accelerator (srv_CurrentAlloc server)
    = AcceleratorProfiles.alloc_Accelerator current /\
    ad_NumReplicas (srv_CurrentAlloc server)
    = AcceleratorProfiles.alloc_NumReplicas current /\
    ad_MaxBatch (srv_CurrentAlloc server)
    = AcceleratorProfiles.alloc_MaxBatch current.
Proof.
  cbn zeta. unfold AcceleratorProfiles.AddServerInfoToSystemData.
  repeat match goal with
         | |- context [let '(_, _) := ?p in _] => destruct p as [? ?]
         end.
  eexists. split; [reflexivity |].
  cbn [srv_Name srv_Class srv_Model srv_KeepAccelerator srv_MaxBatchSize
       srv_DesiredAlloc srv_CurrentAlloc ad_Accelerator ad_NumReplicas
       ad_MaxBatch].
  repeat split.
  generalize (AcceleratorProfiles.mp_Accelerators
                (AcceleratorProfiles.spec_ModelProfile
                   (AcceleratorProfiles.Spec va))).
  intros profiles.
  induction profiles as [| ap profiles IH];
    cbn [AcceleratorProfiles.lookup_MaxBatchSize List.find]; [reflexivity |].
  destruct (String.eqb (AcceleratorProfiles.Acc ap) _); [| exact IH].
  destruct (Z.gtb_spec (AcceleratorProfiles.MaxBatchSize ap) 0); lia.
Qed.

End AdaptersFurther.

(** The variant of the samples is labelled A100, and its profile for the
    A100 has the batch size 4. *)
Example builds_model_server :
  map srv_MaxBatchSize
      (Servers (fst (AcceleratorProfiles.AddServerInfoToSystemData
                       Reference.ParseFloat ∅ Sample.sd0
                       (Sample.model_variant None) "premium")))
  = [4].
Proof. vm_compute. reflexivity. Qed.

(** *** The builders on samples *)

(** An objective is converted to [float32] in one rounding: above the 53
    bits of a [float64], going through [float64] can give another
    value. *)
Example objective_is_rounded_once :
  let n := 2 ^ 60 + 2 ^ 36 + 1 in
  float32_of_int n = float32_of_int (2 ^ 60 + 2 ^ 37) /\
  to_float32 (of_int n) = float32_of_int (2 ^ 60) /\
  float32_of_int 24 = to_float32 (of_int 24).
Proof. vm_compute. repeat split; reflexivity. Qed.


(** The two documents of the sample config map decode; a third that does
    not is skipped. *)
Lemma service_classes_of_decodable_documents_witness :
  Reference.range _ Cases.serviceClassCm ≡ₚ map_to_list Cases.serviceClassCm /\
  length (ServiceClasses
            (CreateSystemData Reference.ParseFloat Cases.yaml_Unmarshal
               Reference.range Sample.acceleratorCm Cases.serviceClassCm))
  = 2%nat /\
  length (ServiceClasses
            (CreateSystemData Reference.ParseFloat Cases.yaml_Unmarshal
               Reference.range Sample.acceleratorCm
               (<[ "broken.yaml" := "{" ]> Cases.serviceClassCm)))
  = 2%nat.
Proof.
  split; [reflexivity |]. split.
  - destruct (service_classes_of_decodable_documents
                Reference.ParseFloat Cases.yaml_Unmarshal Reference.range
                Sample.acceleratorCm Cases.serviceClassCm
                (reflexivity _)) as (_ & Hlen & _).
    rewrite Hlen. vm_compute. reflexivity.
  - vm_compute. reflexivity.
Defined.

Lemma wellformed_profile_is_added_witness :
  snd (SingleVariant.AddVariantProfileToSystemData Reference.ParseFloat
         Sample.sd0 "default/default" "A100" 1 Sample.profile_ok) = None /\
  map perf_DecodeParms
      (PerfData
         (fst (SingleVariant.AddVariantProfileToSystemData
                 Reference.ParseFloat Sample.sd0 "default/default" "A100" 1
                 Sample.profile_ok)))
  = [ {| Alpha := to_float32 (f_ratio 3 2);
         Beta := to_float32 (f_ratio 1 4) |} ].
Proof.
  assert (~ malformed Reference.ParseFloat
              (SingleVariant.vp_PerfParms Sample.profile_ok)) as Hgood.
  { intros [H | [H | [H | [H | [H | H]]]]]; vm_compute in H;
      try discriminate; lia. }
  rewrite (wellformed_profile_is_added Reference.ParseFloat Sample.sd0
             "default/default" "A100" 1 Sample.profile_ok Hgood).
  split; [reflexivity |]. vm_compute. reflexivity.
Defined.

Lemma server_of_variant_witness :
  exists server,
    SingleVariant.AddServerInfoToSystemData Reference.ParseFloat ∅
      Sample.sd0 Sample.variant "premium"
    = (set_Servers Sample.sd0 [server], None) /\
    srv_Name server = "test:default" /\
    srv_Model server = "default/default" /\
    srv_MaxBatchSize server = 4 /\
    ad_NumReplicas (srv_CurrentAlloc server) = 2.
Proof.
  destruct (server_of_variant Reference.ParseFloat ∅ Sample.sd0
              Sample.variant "premium" Sample.allocation [] eq_refl)
    as (server & Hr & Hname & _ & Hmodel & _ & Hbatch & _ & _ & Hn & _).
  exists server. split; [exact Hr |].
  split; [rewrite Hname; reflexivity |].
  split; [rewrite Hmodel; reflexivity |].
  split; [rewrite Hbatch; reflexivity | rewrite Hn; reflexivity].
Defined.
